(** * MixLens: the rule-based suggestion engine and the feature compiler

    A shallow embedding of [analyzer/suggestion_engine.py] and of the
    result-building part of [analyzer/feature_extractor.py].

    Python objects are values of [pyval]; a Python [float] is a binary64
    number (Rocq's primitive [float]), a Python [int] is a [Z], a [dict]
    with string keys is a [gmap string pyval].  A call that can raise
    returns a [result]: [Ok v] or [Raise e].  *)

From Stdlib Require Import ZArith String Ascii List Bool Lia Floats.
From stdpp Require Import base option list gmap strings pretty.

Set Warnings "-inexact-float,-register-all".
Local Open Scope Z_scope.

(** ** Exceptions and results *)

(** A raised exception: its class name and, when it was raised
    [from] another one, that cause ([__cause__]). *)
Inductive exn : Type :=
| Exn (cls : string) (cause : option exn).

Definition exn_class (e : exn) : string := let 'Exn c _ := e in c.
Definition exn_cause (e : exn) : option exn := let 'Exn _ c := e in c.

Definition TypeError : exn := Exn "TypeError" None.
Definition ValueError : exn := Exn "ValueError" None.
Definition AttributeError : exn := Exn "AttributeError" None.
Definition OverflowError : exn := Exn "OverflowError" None.
Definition KeyError : exn := Exn "KeyError" None.
Definition IndexError : exn := Exn "IndexError" None.
Definition ZeroDivisionError : exn := Exn "ZeroDivisionError" None.

Inductive result (A : Type) : Type :=
| Ok (a : A)
| Raise (e : exn).
Arguments Ok {A} a.
Arguments Raise {A} e.

#[export] Instance result_ret : MRet result := fun _ a => Ok a.
#[export] Instance result_bind : MBind result := fun _ _ f m =>
  match m with
  | Ok a => f a
  | Raise e => Raise e
  end.

#[export] Instance result_fmap : FMap result := fun _ _ f m =>
  match m with
  | Ok a => Ok (f a)
  | Raise e => Raise e
  end.

(** ** Python values *)

Inductive pyval : Type :=
| VNone
| VBool (b : bool)
| VInt (z : Z)
| VFloat (f : float)
| VStr (s : string)
| VList (l : list pyval)
| VDict (d : gmap string pyval).

(** Truth value of an object, as [if not x] tests it. *)
Definition truthy (v : pyval) : bool :=
  match v with
  | VNone => false
  | VBool b => b
  | VInt z => negb (z =? 0)
  | VFloat f => negb (PrimFloat.eqb f 0)
  | VStr s => negb (String.eqb s "")
  | VList l => match l with [] => false | _ => true end
  | VDict d => negb (bool_decide (d = ∅))
  end.

(** [obj.get(key, dflt)]: only a dict has the method. *)
Definition py_get (obj : pyval) (key : string) (dflt : pyval) : result pyval :=
  match obj with
  | VDict d => Ok (default dflt (d !! key))
  | _ => Raise AttributeError
  end.

(** ** Numbers *)

(** The numeric tower the engine meets: [int] (and [bool], its
    subclass) and [float]. *)
Inductive num : Type :=
| NInt (z : Z)
| NFloat (f : float).

Definition as_num (v : pyval) : option num :=
  match v with
  | VBool b => Some (NInt (Z.b2z b))
  | VInt z => Some (NInt z)
  | VFloat f => Some (NFloat f)
  | _ => None
  end.

(** [float(z)]: the nearest binary64 number, ties to even;
    [OverflowError] when [z] is out of range. *)
Definition int_to_float (z : Z) : result float :=
  match binary_normalize prec emax z 0 false with
  | S754_infinity _ => Raise OverflowError
  | sf => Ok (SF2Prim sf)
  end.

(** Comparison of an [int] with a [float] is exact: Python compares the
    mathematical values, without converting the int. *)
Definition Z_compare_float (z : Z) (f : float) : option comparison :=
  match Prim2SF f with
  | S754_nan => None
  | S754_infinity s => Some (if s then Gt else Lt)
  | S754_zero _ => Some (z ?= 0)
  | S754_finite s m e =>
      let sm := if s then Z.neg m else Z.pos m in
      Some (if 0 <=? e then z ?= sm * 2 ^ e else z * 2 ^ (- e) ?= sm)
  end.

Definition num_lt (a b : num) : bool :=
  match a, b with
  | NInt x, NInt y => x <? y
  | NFloat x, NFloat y => PrimFloat.ltb x y
  | NInt x, NFloat y =>
      match Z_compare_float x y with Some Lt => true | _ => false end
  | NFloat x, NInt y =>
      match Z_compare_float y x with Some Gt => true | _ => false end
  end.

Definition num_le (a b : num) : bool :=
  match a, b with
  | NInt x, NInt y => x <=? y
  | NFloat x, NFloat y => PrimFloat.leb x y
  | NInt x, NFloat y =>
      match Z_compare_float x y with Some Lt | Some Eq => true | _ => false end
  | NFloat x, NInt y =>
      match Z_compare_float y x with Some Gt | Some Eq => true | _ => false end
  end.

(** [a * b] on numbers: exact on two ints, binary64 otherwise. *)
Definition num_mul (a b : num) : result num :=
  match a, b with
  | NInt x, NInt y => Ok (NInt (x * y))
  | NFloat x, NFloat y => Ok (NFloat (x * y)%float)
  | NInt x, NFloat y => fx ← int_to_float x; Ok (NFloat (fx * y)%float)
  | NFloat x, NInt y => fy ← int_to_float y; Ok (NFloat (x * fy)%float)
  end.

(** [v < n], [v > n], [v >= n] for an object [v] against a number: a
    non-number on the left raises [TypeError]. *)
Definition py_lt (v : pyval) (n : num) : result bool :=
  match as_num v with
  | Some a => Ok (num_lt a n)
  | None => Raise TypeError
  end.

Definition py_gt (v : pyval) (n : num) : result bool :=
  match as_num v with
  | Some a => Ok (num_lt n a)
  | None => Raise TypeError
  end.

(** [v * k] for an int [k]: a product on numbers, a repetition on
    strings and lists, [TypeError] on the rest. *)
Fixpoint str_repeat (s : string) (k : nat) : string :=
  match k with
  | O => ""
  | S k' => s +:+ str_repeat s k'
  end.

Definition py_mul_int (v : pyval) (k : Z) : result pyval :=
  match v with
  | VBool b => Ok (VInt (Z.b2z b * k))
  | VInt z => Ok (VInt (z * k))
  | VFloat f => fk ← int_to_float k; Ok (VFloat (f * fk)%float)
  | VStr s => Ok (VStr (str_repeat s (Z.to_nat k)))
  | VList l => Ok (VList (concat (replicate (Z.to_nat k) l)))
  | VNone | VDict _ => Raise TypeError
  end.

(** ** Fixed-point formatting: the format spec [.Nf] *)

(** [a / b] rounded to the nearest integer, ties to even ([b > 0]). *)
Definition div_half_even (a b : Z) : Z :=
  let q := a / b in
  match 2 * (a mod b) ?= b with
  | Lt => q
  | Gt => q + 1
  | Eq => if Z.even q then q else q + 1
  end.

(** The integer nearest to [m * 2^e * 10^nd], ties to even: the digits
    of the exact binary value, correctly rounded. *)
Definition scaled_digits (nd : nat) (m : positive) (e : Z) : Z :=
  if 0 <=? e then Z.pos m * 2 ^ e * 10 ^ Z.of_nat nd
  else div_half_even (Z.pos m * 10 ^ Z.of_nat nd) (2 ^ (- e)).

Definition zero_pad (width : nat) (s : string) : string :=
  str_repeat "0" (width - String.length s) +:+ s.

(** [n / 10^nd] written with exactly [nd] decimals; no point when
    [nd = 0]. *)
Definition fixed_point (nd : nat) (n : Z) : string :=
  let scale := 10 ^ Z.of_nat nd in
  pretty (n / scale) +:+
  match nd with
  | O => ""
  | _ => "." +:+ zero_pad nd (pretty (n mod scale))
  end.

Definition sign_str (s : bool) : string := if s then "-" else "".

(** [format(x, '.Nf')] on a float. *)
Definition format_f (nd : nat) (x : float) : string :=
  match Prim2SF x with
  | S754_nan => "nan"
  | S754_infinity s => sign_str s +:+ "inf"
  | S754_zero s => sign_str s +:+ fixed_point nd 0
  | S754_finite s m e => sign_str s +:+ fixed_point nd (scaled_digits nd m e)
  end.

(** [format(v, '.Nf')] on an object: an int is converted to float
    first; a str does not know the code [f]; the other objects take
    no format spec at all. *)
Definition py_format_f (nd : nat) (v : pyval) : result string :=
  match v with
  | VFloat f => Ok (format_f nd f)
  | VInt z => f ← int_to_float z; Ok (format_f nd f)
  | VBool b => f ← int_to_float (Z.b2z b); Ok (format_f nd f)
  | VStr _ => Raise ValueError
  | VNone | VList _ | VDict _ => Raise TypeError
  end.

(** ** [round(x, ndigits)] on a float *)

(** Python rounds the exact binary value to [nd] decimals, ties to
    even, and returns the binary64 number nearest to that decimal.
    Zeros, infinities and NaN are returned as they are. *)
Definition py_round (x : float) (nd : nat) : float :=
  match Prim2SF x with
  | S754_finite s m e =>
      match scaled_digits nd m e with
      | Z.pos n =>
          SF2Prim (SFdiv prec emax (S754_finite s n 0)
                     (S754_finite false (Z.to_pos (10 ^ Z.of_nat nd)) 0))
      | _ => SF2Prim (S754_zero s)
      end
  | _ => x
  end.

(** ** The suggestion engine *)

Section Engine.

(** [str(v)] of an object that is not a string is the interpreter's
    business ([repr] of floats and containers); the engine only
    splices its result into a message.  [py_repr v] is the text the
    interpreter answers with.  It can refuse instead (an int of more
    than 4300 digits, a list nested too deep): the model covers the
    runs in which it answers, and none is asked of it for a string,
    which is what a DescriptorSet holds as its key. *)
Variable py_repr : pyval -> string.

(** An f-string field without a format spec. *)
Definition py_str (v : pyval) : string :=
  match v with
  | VStr s => s
  | _ => py_repr v
  end.

Record SuggestionEngine : Type := { thresholds : gmap string float }.

(** [__init__] *)
Definition init : SuggestionEngine :=
  {| thresholds := list_to_map
       [ ("rms_too_quiet", (-20.0)%float);
         ("rms_too_loud", (-6.0)%float);
         ("dynamic_range_low", 6.0%float);
         ("dynamic_range_high", 20.0%float);
         ("spectral_centroid_low", 2000.0%float);
         ("spectral_centroid_high", 4000.0%float);
         ("spectral_rolloff_low", 60.0%float);
         ("spectral_rolloff_high", 90.0%float);
         ("harmonic_ratio_low", 0.5%float);
         ("percussive_ratio_high", 0.6%float) ] |}.

(** [self.thresholds[key]] *)
Definition threshold (self : SuggestionEngine) (key : string) : result num :=
  match thresholds self !! key with
  | Some t => Ok (NFloat t)
  | None => Raise KeyError
  end.

(** [suggestions.append(msg)] *)
Definition append (suggestions : list string) (msg : string) : list string :=
  suggestions ++ [msg].

(** 1. Loudness/RMS analysis *)
Definition check_loudness (self : SuggestionEngine) (extracted : pyval)
    (suggestions : list string) : result (list string) :=
  rms_db ← py_get extracted "rms_db" (VInt 0);
  lufs_approx ← py_get extracted "lufs_approx" (VInt 0);
  lo ← threshold self "rms_too_quiet";
  quiet ← py_lt rms_db lo;
  if quiet : bool then
    r ← py_format_f 1 rms_db;
    Ok (append suggestions
          ("🔊 **Loudness**: Track is quiet (RMS: " +:+ r +:+ " dB). " +:+
           "Consider normalizing or increasing gain to improve perceived loudness."))
  else
    hi ← threshold self "rms_too_loud";
    loud ← py_gt rms_db hi;
    if loud : bool then
      r ← py_format_f 1 rms_db;
      Ok (append suggestions
            ("🔊 **Loudness**: Track may be too loud (RMS: " +:+ r +:+ " dB). " +:+
             "Watch for clipping and consider reducing gain slightly."))
    else
      r ← py_format_f 1 rms_db;
      l ← py_format_f 1 lufs_approx;
      Ok (append suggestions
            ("✅ **Loudness**: Good level (RMS: " +:+ r +:+ " dB, LUFS approx: " +:+
             l +:+ "). " +:+
             "Track has appropriate loudness for modern production.")).

(** 2. Dynamic Range analysis *)
Definition check_dynamic_range (self : SuggestionEngine) (extracted : pyval)
    (suggestions : list string) : result (list string) :=
  dynamic_range ← py_get extracted "dynamic_range_db" (VInt 0);
  lo ← threshold self "dynamic_range_low";
  low ← py_lt dynamic_range lo;
  if low : bool then
    r ← py_format_f 1 dynamic_range;
    Ok (append suggestions
          ("🎚️ **Dynamic Range**: Very compressed (Range: " +:+ r +:+ " dB). " +:+
           "Consider easing compression to preserve more natural dynamics and musicality."))
  else
    hi ← threshold self "dynamic_range_high";
    high ← py_gt dynamic_range hi;
    if high : bool then
      r ← py_format_f 1 dynamic_range;
      Ok (append suggestions
            ("🎚️ **Dynamic Range**: Wide dynamics (Range: " +:+ r +:+ " dB). " +:+
             "Good for dynamic music, but ensure consistency for streaming platforms."))
    else
      r ← py_format_f 1 dynamic_range;
      Ok (append suggestions
            ("✅ **Dynamic Range**: Balanced (Range: " +:+ r +:+ " dB). " +:+
             "Good balance between dynamics and consistency.")).

(** 3. Spectral Centroid (brightness) *)
Definition check_spectral_centroid (self : SuggestionEngine) (extracted : pyval)
    (suggestions : list string) : result (list string) :=
  spectral_centroid ← py_get extracted "spectral_centroid_hz" (VInt 0);
  lo ← threshold self "spectral_centroid_low";
  low ← py_lt spectral_centroid lo;
  if low : bool then
    r ← py_format_f 0 spectral_centroid;
    Ok (append suggestions
          ("🎵 **Frequency Balance**: Low-end heavy (Centroid: " +:+ r +:+ " Hz). " +:+
           "Mix may lack clarity in the mid/high frequencies. Consider boosting presence or reducing low-end."))
  else
    hi ← threshold self "spectral_centroid_high";
    high ← py_gt spectral_centroid hi;
    if high : bool then
      r ← py_format_f 0 spectral_centroid;
      Ok (append suggestions
            ("🎵 **Frequency Balance**: Bright mix (Centroid: " +:+ r +:+ " Hz). " +:+
             "High frequencies are prominent. Watch for harshness or listener fatigue."))
    else
      r ← py_format_f 0 spectral_centroid;
      Ok (append suggestions
            ("✅ **Frequency Balance**: Well-balanced (Centroid: " +:+ r +:+ " Hz). " +:+
             "Good distribution across frequency spectrum.")).

(** 4. Spectral Rolloff (high-frequency content) *)
Definition check_spectral_rolloff (self : SuggestionEngine) (extracted : pyval)
    (suggestions : list string) : result (list string) :=
  spectral_rolloff ← py_get extracted "spectral_rolloff_percent" (VInt 0);
  lo ← threshold self "spectral_rolloff_low";
  low ← py_lt spectral_rolloff lo;
  if low : bool then
    r ← py_format_f 1 spectral_rolloff;
    Ok (append suggestions
          ("📊 **High-Frequency Content**: Limited high-end (Rolloff: " +:+ r +:+ "%). " +:+
           "Mix may sound dull. Consider adding air or reducing low-pass filtering."))
  else
    hi ← threshold self "spectral_rolloff_high";
    high ← py_gt spectral_rolloff hi;
    if high : bool then
      r ← py_format_f 1 spectral_rolloff;
      Ok (append suggestions
            ("📊 **High-Frequency Content**: Extended high-end (Rolloff: " +:+ r +:+ "%). " +:+
             "Very bright mix. Ensure high frequencies are musical, not harsh."))
    else
      r ← py_format_f 1 spectral_rolloff;
      Ok (append suggestions
            ("✅ **High-Frequency Content**: Appropriate (Rolloff: " +:+ r +:+ "%). " +:+
             "Good high-frequency extension.")).

(** 5. Harmonic vs Percussive content *)
Definition check_harmonic (self : SuggestionEngine) (extracted : pyval)
    (suggestions : list string) : result (list string) :=
  harmonic_ratio ← py_get extracted "harmonic_ratio" (VInt 0);
  percussive_ratio ← py_get extracted "percussive_ratio" (VInt 0);
  lo ← threshold self "harmonic_ratio_low";
  low ← py_lt harmonic_ratio lo;
  if low : bool then
    pct ← py_mul_int harmonic_ratio 100;
    r ← py_format_f 1 pct;
    Ok (append suggestions
          ("🎸 **Harmonic Content**: Low harmonic content (" +:+ r +:+ "%). " +:+
           "Track is more percussive/noisy. If intended, great! If not, check for distortion or noise issues."))
  else
    pct ← py_mul_int harmonic_ratio 100;
    r ← py_format_f 1 pct;
    Ok (append suggestions
          ("✅ **Harmonic Content**: Good harmonic presence (" +:+ r +:+ "%). " +:+
           "Musical elements are well-represented.")).

(** 6. Tempo analysis *)
Definition check_tempo (extracted : pyval) (suggestions : list string)
    : result (list string) :=
  tempo ← py_get extracted "tempo_bpm" (VInt 0);
  slow ← py_lt tempo (NInt 60);
  if slow : bool then
    r ← py_format_f 1 tempo;
    Ok (append suggestions
          ("⏱️ **Tempo**: Slow tempo (" +:+ r +:+ " BPM). " +:+
           "Great for ambient or ballads. Ensure timing feels intentional."))
  else
    fast ← py_gt tempo (NInt 180);
    if fast : bool then
      r ← py_format_f 1 tempo;
      Ok (append suggestions
            ("⏱️ **Tempo**: Fast tempo (" +:+ r +:+ " BPM). " +:+
             "High energy track! Ensure clarity isn't lost at this pace."))
    else
      r ← py_format_f 1 tempo;
      Ok (append suggestions
            ("✅ **Tempo**: " +:+ r +:+ " BPM detected. " +:+
             "Tempo is well-suited for most genres.")).

(** 7. Key detection *)
Definition check_key (extracted : pyval) (suggestions : list string)
    : result (list string) :=
  estimated_key ← py_get extracted "estimated_key" (VStr "Unknown");
  Ok (append suggestions
        ("🎹 **Key Detection**: Estimated key is " +:+ py_str estimated_key +:+ ". " +:+
         "Use this as a reference for harmonic mixing or adding complementary elements.")).

(** [s.startswith("✅")] *)
Definition is_favorable (s : string) : bool := String.prefix "✅" s.

Definition positive_banner : string :=
  "🎉 **Overall**: Your mix shows strong technical qualities! " +:+
  "Most parameters are within optimal ranges.".

Definition improvement_banner : string :=
  "💡 **Overall**: Your mix has room for improvement in several areas. " +:+
  "Focus on the suggestions below to enhance production quality.".

(** 8. Overall summary *)
Definition overall_summary (suggestions : list string) : result (list string) :=
  let suggestion_count := length (filter (fun s => is_favorable s = true) suggestions) in
  let total_checks := 7 in
  bound ← num_mul (NInt total_checks) (NFloat 0.7);
  if num_le bound (NInt (Z.of_nat suggestion_count)) then
    Ok (positive_banner :: suggestions)
  else
    Ok (improvement_banner :: suggestions).

Definition unable_message : string :=
  "Unable to extract features. Please check audio file.".

(** [SuggestionEngine.generate] *)
Definition generate (self : SuggestionEngine) (features : gmap string pyval)
    : result (list string) :=
  let suggestions := [] in
  let extracted := default (VDict ∅) (features !! "extracted_features") in
  if negb (truthy extracted) then Ok [unable_message]
  else
    suggestions ← check_loudness self extracted suggestions;
    suggestions ← check_dynamic_range self extracted suggestions;
    suggestions ← check_spectral_centroid self extracted suggestions;
    suggestions ← check_spectral_rolloff self extracted suggestions;
    suggestions ← check_harmonic self extracted suggestions;
    suggestions ← check_tempo extracted suggestions;
    suggestions ← check_key extracted suggestions;
    overall_summary suggestions.

End Engine.

(** ** The feature extractor *)

(** [a / b] on two ints: the binary64 number nearest to the exact
    quotient. *)
Definition Z_to_SF (z : Z) : spec_float :=
  match z with
  | Z0 => S754_zero false
  | Z.pos p => S754_finite false p 0
  | Z.neg p => S754_finite true p 0
  end.

Definition int_true_div (a b : Z) : result float :=
  if b =? 0 then Raise ZeroDivisionError
  else
    match SFdiv prec emax (Z_to_SF a) (Z_to_SF b) with
    | S754_infinity _ => Raise OverflowError
    | sf => Ok (SF2Prim sf)
    end.

(** [a / b] on two Python floats. *)
Definition float_div (a b : float) : result float :=
  if PrimFloat.eqb b 0 then Raise ZeroDivisionError else Ok (a / b)%float.

(** What the extractor asks of librosa and numpy.  Each field stands
    for the library call (with the [float(...)] the source wraps around
    it) named in its comment; a call that raises returns [Raise]. *)
Record Backend : Type := {
  (* librosa.load(filepath, sr=target_sr, duration=None) *)
  load : string -> Z -> result (list float * Z);
  (* float(librosa.beat.beat_track(y=y, sr=sr)[0]) *)
  beat_track_tempo : list float -> Z -> result float;
  (* np.argmax(np.mean(librosa.feature.chroma_stft(y=y, sr=sr), axis=1)) *)
  chroma_argmax : list float -> Z -> result nat;
  (* float(np.mean(librosa.feature.rms(y=y))) *)
  rms_mean_of : list float -> result float;
  (* np.log10 *)
  log10 : float -> float;
  (* float(np.mean(librosa.feature.spectral_centroid(y=y, sr=sr))) *)
  spectral_centroid_mean_of : list float -> Z -> result float;
  (* float(np.mean(librosa.feature.spectral_rolloff(y=y, sr=sr))) *)
  spectral_rolloff_mean_of : list float -> Z -> result float;
  (* float(np.mean(librosa.feature.zero_crossing_rate(y))) *)
  zcr_mean_of : list float -> result float;
  (* float(np.mean(librosa.feature.spectral_bandwidth(y=y, sr=sr))) *)
  spectral_bandwidth_mean_of : list float -> Z -> result float;
  (* float(np.max(np.abs(y))) *)
  peak_of : list float -> result float;
  (* float(np.mean(librosa.feature.spectral_contrast(y=y, sr=sr))) *)
  spectral_contrast_mean_of : list float -> Z -> result float;
  (* float(np.mean(librosa.feature.mfcc(y=y, sr=sr, n_mfcc=13)[0])) *)
  mfcc_mean_of : list float -> Z -> result float;
  (* librosa.effects.hpss(y), then the two shares
     float(np.sum(np.abs(part)) / (np.sum(np.abs(y)) + 1e-10)) *)
  hpss_ratios : list float -> result (float * float)
}.

Record FeatureExtractor : Type := { target_sr : Z }.

(** [FeatureExtractor.__init__], with its default sample rate. *)
Definition new_extractor : FeatureExtractor := {| target_sr := 22050 |}.

Definition keys : list string :=
  ["C"; "C#"; "D"; "D#"; "E"; "F"; "F#"; "G"; "G#"; "A"; "A#"; "B"].

(** [keys[key_idx]] *)
Definition key_name (key_idx : nat) : result string :=
  match keys !! key_idx with
  | Some k => Ok k
  | None => Raise IndexError
  end.

(** [FeatureExtractor.extract] *)
Definition extract (lib : Backend) (self : FeatureExtractor) (filepath : string)
    : result (gmap string pyval) :=
  '(y, sr) ← load lib filepath (target_sr self);
  duration ← int_true_div (Z.of_nat (length y)) sr;
  tempo ← beat_track_tempo lib y sr;
  key_idx ← chroma_argmax lib y sr;
  estimated_key ← key_name key_idx;
  rms_mean ← rms_mean_of lib y;
  let rms_db := (20 * log10 lib (rms_mean + 1e-10))%float in
  let lufs_approx := (rms_db - 23.0)%float in
  spectral_centroid_mean ← spectral_centroid_mean_of lib y sr;
  spectral_rolloff_mean ← spectral_rolloff_mean_of lib y sr;
  nyquist ← int_true_div sr 2;
  rolloff_share ← float_div spectral_rolloff_mean nyquist;
  let spectral_rolloff_percent := (rolloff_share * 100)%float in
  zcr_mean ← zcr_mean_of lib y;
  spectral_bandwidth_mean ← spectral_bandwidth_mean_of lib y sr;
  peak ← peak_of lib y;
  let peak_db := (20 * log10 lib (peak + 1e-10))%float in
  let dynamic_range := (peak_db - rms_db)%float in
  spectral_contrast_mean ← spectral_contrast_mean_of lib y sr;
  mfcc_mean ← mfcc_mean_of lib y sr;
  '(harmonic_ratio, percussive_ratio) ← hpss_ratios lib y;
  let extracted_features : gmap string pyval := list_to_map
    [ ("tempo_bpm", VFloat (py_round tempo 2));
      ("estimated_key", VStr estimated_key);
      ("rms_db", VFloat (py_round rms_db 2));
      ("lufs_approx", VFloat (py_round lufs_approx 2));
      ("spectral_centroid_hz", VFloat (py_round spectral_centroid_mean 2));
      ("spectral_rolloff_percent", VFloat (py_round spectral_rolloff_percent 2));
      ("zero_crossing_rate", VFloat (py_round zcr_mean 4));
      ("spectral_bandwidth_hz", VFloat (py_round spectral_bandwidth_mean 2));
      ("dynamic_range_db", VFloat (py_round dynamic_range 2));
      ("spectral_contrast", VFloat (py_round spectral_contrast_mean 2));
      ("mfcc_mean", VFloat (py_round mfcc_mean 2));
      ("harmonic_ratio", VFloat (py_round harmonic_ratio 3));
      ("percussive_ratio", VFloat (py_round percussive_ratio 3)) ] in
  Ok (list_to_map
    [ ("duration_seconds", VFloat (py_round duration 2));
      ("sample_rate", VInt sr);
      ("extracted_features", VDict extracted_features);
      ("audio_data", VDict (list_to_map
         [ ("length_samples", VInt (Z.of_nat (length y)));
           ("peak_amplitude", VFloat (py_round peak 4));
           ("peak_db", VFloat (py_round peak_db 2)) ])) ]).

(** ** Vocabulary of the statements *)

(** The features document that holds [d] as its DescriptorSet. *)
Definition with_descriptors (d : gmap string pyval) : gmap string pyval :=
  {[ "extracted_features" := VDict d ]}.

(** The numeric fields the engine reads, and what it reads for a field:
    its value, or the int [0] when the field is missing. *)
Definition numeric_fields : list string :=
  [ "rms_db"; "lufs_approx"; "dynamic_range_db"; "spectral_centroid_hz";
    "spectral_rolloff_percent"; "harmonic_ratio"; "tempo_bpm" ].

Definition field (d : gmap string pyval) (key : string) : pyval :=
  default (VInt 0) (d !! key).

(** A DescriptorSet is schema-typed when each numeric field it holds is
    a float, as the data model declares it. *)
Definition float_or_absent (d : gmap string pyval) (key : string) : bool :=
  match d !! key with
  | None | Some (VFloat _) => true
  | Some _ => false
  end.

Definition schema_typed (d : gmap string pyval) : bool :=
  forallb (float_or_absent d) numeric_fields.

(** The favorable band of a check: neither below [lo] nor above [hi]. *)
Definition within (v : pyval) (lo hi : num) : bool :=
  match as_num v with
  | Some a => negb (num_lt a lo) && negb (num_lt hi a)
  | None => false
  end.

Definition not_below (v : pyval) (lo : num) : bool :=
  match as_num v with
  | Some a => negb (num_lt a lo)
  | None => false
  end.

Definition below (v : pyval) (lo : num) : bool :=
  match as_num v with
  | Some a => num_lt a lo
  | None => false
  end.

(** The six judged checks, with the thresholds of the table. *)
Definition judged_checks (d : gmap string pyval) : list bool :=
  [ within (field d "rms_db") (NFloat (-20.0)) (NFloat (-6.0));
    within (field d "dynamic_range_db") (NFloat 6.0) (NFloat 20.0);
    within (field d "spectral_centroid_hz") (NFloat 2000.0) (NFloat 4000.0);
    within (field d "spectral_rolloff_percent") (NFloat 60.0) (NFloat 90.0);
    not_below (field d "harmonic_ratio") (NFloat 0.5);
    within (field d "tempo_bpm") (NInt 60) (NInt 180) ].

Definition favorable_checks (d : gmap string pyval) : nat :=
  length (filter (fun b => b = true) (judged_checks d)).

(** The category marker of an entry: the text between the first pair
    of [**]. *)
Fixpoint after_stars (s : string) : option string :=
  match s with
  | String "*" ((String "*" rest) as s') => Some rest
  | String _ s' => after_stars s'
  | EmptyString => None
  end.

Fixpoint until_stars (s : string) : option string :=
  match s with
  | String "*" ((String "*" _) as s') => Some EmptyString
  | String c s' => String c <$> until_stars s'
  | EmptyString => None
  end.

Definition category_of (s : string) : option string :=
  after_stars s ≫= until_stars.

(** The tier marker of an entry: the check mark of a favorable entry
    (what the engine itself counts) or the icon of a warning. *)
Definition warning_icons : list string := ["🔊"; "🎚️"; "🎵"; "📊"; "🎸"; "⏱️"].

Definition is_warning (s : string) : bool :=
  existsb (fun icon => String.prefix icon s) warning_icons.

Definition count_favorable (l : list string) : nat :=
  length (filter (fun s => is_favorable s = true) l).

(** Substring test. *)
Fixpoint contains (pat s : string) : bool :=
  String.prefix pat s ||
  match s with
  | String _ s' => contains pat s'
  | EmptyString => false
  end.

(** [msg] shows [value] right after [label] and right before [unit]. *)
Definition embeds (label value unit msg : string) : Prop :=
  exists pre post, msg = pre +:+ label +:+ value +:+ unit +:+ post.

(** The single entry a check appends to an empty list. *)
Definition entry_of (r : result (list string)) : string :=
  match r with
  | Ok [e] => e
  | _ => ""
  end.

Definition loudness_entry (d : gmap string pyval) : string :=
  entry_of (check_loudness init (VDict d) []).
Definition dynamic_range_entry (d : gmap string pyval) : string :=
  entry_of (check_dynamic_range init (VDict d) []).
Definition centroid_entry (d : gmap string pyval) : string :=
  entry_of (check_spectral_centroid init (VDict d) []).
Definition rolloff_entry (d : gmap string pyval) : string :=
  entry_of (check_spectral_rolloff init (VDict d) []).
Definition harmonic_entry (d : gmap string pyval) : string :=
  entry_of (check_harmonic init (VDict d) []).
Definition tempo_entry (d : gmap string pyval) : string :=
  entry_of (check_tempo (VDict d) []).
Definition key_entry (py_repr : pyval -> string) (d : gmap string pyval) : string :=
  entry_of (check_key py_repr (VDict d) []).

Definition entries (py_repr : pyval -> string) (d : gmap string pyval) : list string :=
  [ loudness_entry d; dynamic_range_entry d; centroid_entry d; rolloff_entry d;
    harmonic_entry d; tempo_entry d; key_entry py_repr d ].

Definition banner (favorable : nat) : string :=
  if Nat.leb 5 favorable then positive_banner else improvement_banner.

(** What a run reads: the fields whose value it uses, each with the
    default of its [.get], and the thresholds it compares against. *)
Definition read_fields : list (string * pyval) :=
  [ ("rms_db", VInt 0); ("lufs_approx", VInt 0); ("dynamic_range_db", VInt 0);
    ("spectral_centroid_hz", VInt 0); ("spectral_rolloff_percent", VInt 0);
    ("harmonic_ratio", VInt 0); ("tempo_bpm", VInt 0);
    ("estimated_key", VStr "Unknown") ].

Definition used_thresholds : list string :=
  [ "rms_too_quiet"; "rms_too_loud"; "dynamic_range_low"; "dynamic_range_high";
    "spectral_centroid_low"; "spectral_centroid_high"; "spectral_rolloff_low";
    "spectral_rolloff_high"; "harmonic_ratio_low" ].

(** Two DescriptorSets the engine cannot tell apart, and two engines
    a run cannot tell apart. *)
Definition same_reads (d1 d2 : gmap string pyval) : Prop :=
  forall key dflt, In (key, dflt) read_fields ->
    default dflt (d1 !! key) = default dflt (d2 !! key).

Definition same_thresholds (s1 s2 : SuggestionEngine) : Prop :=
  forall key, In key used_thresholds -> thresholds s1 !! key = thresholds s2 !! key.

(** The default the engine's [.get] uses for a field. *)
Definition default_of (key : string) : pyval :=
  if String.eqb key "estimated_key" then VStr "Unknown" else VInt 0.

(** The engine's test for the "too quiet" suggestion. *)
Definition is_too_quiet (s : string) : bool :=
  String.prefix "🔊 **Loudness**: Track is quiet" s.

(** The key of a DescriptorSet is a string, where it is present. *)
Definition text_or_absent (d : gmap string pyval) (key : string) : bool :=
  match d !! key with
  | None | Some (VStr _) => true
  | Some _ => false
  end.

(** What the engine accepts without raising: no DescriptorSet, or one
    that is typed as the data model declares it, with floats in the
    numeric fields and a string as the key. *)
Definition well_formed_input (features : gmap string pyval) : bool :=
  match features !! "extracted_features" with
  | None => true
  | Some (VDict d) => schema_typed d && text_or_absent d "estimated_key"
  | Some _ => false
  end.

(** Sample inputs.  None of them holds a non-string [estimated_key],
    so a run on them never asks the interpreter for a [repr]; [no_repr]
    stands for it there. *)
Definition no_repr : pyval -> string := fun _ => "".

(** Five favorable checks out of the six judged: only the loudness is
    off (a hair under -20 dB). *)
Definition five_favorable : gmap string pyval :=
  list_to_map
    [ ("tempo_bpm", VFloat 120.19); ("estimated_key", VStr "A");
      ("rms_db", VFloat (-20.01)); ("lufs_approx", VFloat (-43.01));
      ("spectral_centroid_hz", VFloat 2500.5);
      ("spectral_rolloff_percent", VFloat 75.55);
      ("zero_crossing_rate", VFloat 0.0512);
      ("spectral_bandwidth_hz", VFloat 1800.25);
      ("dynamic_range_db", VFloat 12.34);
      ("spectral_contrast", VFloat 21.07); ("mfcc_mean", VFloat (-210.33));
      ("harmonic_ratio", VFloat 0.723); ("percussive_ratio", VFloat 0.301) ].

(** Four favorable checks: the dynamic range is too narrow as well. *)
Definition four_favorable : gmap string pyval :=
  <[ "dynamic_range_db" := VFloat 3.21 ]> five_favorable.

(** The loudness exactly on the threshold. *)
Definition on_threshold : gmap string pyval :=
  <[ "rms_db" := VFloat (-20.0) ]> five_favorable.

(** A DescriptorSet whose loudness is not a number. *)
Definition mistyped_loudness : gmap string pyval :=
  {[ "rms_db" := VStr "loud" ]}.

(** A DescriptorSet that holds the tempo and nothing else. *)
Definition only_tempo : gmap string pyval :=
  {[ "tempo_bpm" := VFloat 128.0 ]}.

(** The categories, in the order of the checks. *)
Definition category_order : list (option string) :=
  [ Some "Loudness"; Some "Dynamic Range"; Some "Frequency Balance";
    Some "High-Frequency Content"; Some "Harmonic Content"; Some "Tempo";
    Some "Key Detection" ].

(** What a schema-typed set hands to a check: a float, or the default
    int [0]. *)
Inductive plain : pyval -> Prop :=
| plain_float x : plain (VFloat x)
| plain_zero : plain (VInt 0).

(** *** The extractor's result *)

(** The fields of a DescriptorSet. *)
Definition descriptor_fields : list string :=
  [ "tempo_bpm"; "estimated_key"; "rms_db"; "lufs_approx"; "spectral_centroid_hz";
    "spectral_rolloff_percent"; "zero_crossing_rate"; "spectral_bandwidth_hz";
    "dynamic_range_db"; "spectral_contrast"; "mfcc_mean"; "harmonic_ratio";
    "percussive_ratio" ].

(** The decimals each numeric field is rounded to. *)
Definition precision : list (string * nat) :=
  [ ("tempo_bpm", 2%nat); ("rms_db", 2%nat); ("lufs_approx", 2%nat);
    ("spectral_centroid_hz", 2%nat); ("spectral_rolloff_percent", 2%nat);
    ("spectral_bandwidth_hz", 2%nat); ("dynamic_range_db", 2%nat);
    ("spectral_contrast", 2%nat); ("mfcc_mean", 2%nat);
    ("zero_crossing_rate", 4%nat);
    ("harmonic_ratio", 3%nat); ("percussive_ratio", 3%nat) ].

(** The measurements [extract] rounds, by the field each goes to:
    what the backend measured on the signal [y] at the rate [sr], and
    what [extract] computes from it. *)
Definition measurements (lib : Backend) (y : list float) (sr : Z)
    : list (string * result float) :=
  let rms_db :=
    rms_mean ← rms_mean_of lib y;
    Ok (20 * log10 lib (rms_mean + 1e-10))%float in
  let peak_db :=
    peak ← peak_of lib y;
    Ok (20 * log10 lib (peak + 1e-10))%float in
  [ ("tempo_bpm", beat_track_tempo lib y sr);
    ("rms_db", rms_db);
    ("lufs_approx", db ← rms_db; Ok (db - 23.0)%float);
    ("spectral_centroid_hz", spectral_centroid_mean_of lib y sr);
    ("spectral_rolloff_percent",
     rolloff ← spectral_rolloff_mean_of lib y sr;
     nyquist ← int_true_div sr 2;
     share ← float_div rolloff nyquist;
     Ok (share * 100)%float);
    ("zero_crossing_rate", zcr_mean_of lib y);
    ("spectral_bandwidth_hz", spectral_bandwidth_mean_of lib y sr);
    ("dynamic_range_db", peak ← peak_db; db ← rms_db; Ok (peak - db)%float);
    ("spectral_contrast", spectral_contrast_mean_of lib y sr);
    ("mfcc_mean", mfcc_mean_of lib y sr);
    ("harmonic_ratio", ratios ← hpss_ratios lib y; Ok (fst ratios));
    ("percussive_ratio", ratios ← hpss_ratios lib y; Ok (snd ratios)) ].

(** [n] is the integer nearest to the fraction [a / b] (with
    [0 < b]), the even one of the two when [a / b] lies half-way. *)
Definition nearest_integer (a b n : Z) : Prop :=
  Z.abs (2 * (a - n * b)) <= b
  /\ (Z.abs (2 * (a - n * b)) = b -> Z.even n = true).

(** The magnitude [m * 2^e] of a float, scaled by [10^nd]: a fraction
    of two integers, numerator first. *)
Definition scaled_fraction (nd : nat) (m : positive) (e : Z) : Z * Z :=
  if 0 <=? e then (Z.pos m * 2 ^ e * 10 ^ Z.of_nat nd, 1)
  else (Z.pos m * 10 ^ Z.of_nat nd, 2 ^ (- e)).

(** The binary64 number of the decimal [n / 10^nd] with the sign [s]:
    the correctly rounded quotient of the two integers, and the zero
    of that sign for [n = 0]. *)
Definition decimal (s : bool) (n : Z) (nd : nat) : float :=
  match n with
  | Z.pos p =>
      SF2Prim (SFdiv prec emax (S754_finite s p 0)
                 (S754_finite false (Z.to_pos (10 ^ Z.of_nat nd)) 0))
  | _ => SF2Prim (S754_zero s)
  end.

(** [f] is [x] rounded to [nd] decimals: the decimal [n / 10^nd]
    nearest to [x], half-way cases to the even [n], as a binary64
    number.  A zero, an infinity or NaN has no digits to drop. *)
Definition rounding_of (x : float) (nd : nat) (f : float) : Prop :=
  match Prim2SF x with
  | S754_finite s m e =>
      exists n,
        nearest_integer (fst (scaled_fraction nd m e))
          (snd (scaled_fraction nd m e)) n
        /\ f = decimal s n nd
  | _ => f = x
  end.

(** The typed error of the specification: an exception of class
    [DecodeError] that carries its cause. *)
Definition is_decode_error (e : exn) : bool :=
  String.eqb (exn_class e) "DecodeError" && bool_decide (is_Some (exn_cause e)).

(** [e] is what a call into the backend raised on this input. *)
Definition raised_by_backend (lib : Backend) (target : Z) (filepath : string)
    (e : exn) : Prop :=
  load lib filepath target = Raise e \/
  exists y sr, load lib filepath target = Ok (y, sr) /\
    (beat_track_tempo lib y sr = Raise e \/
     chroma_argmax lib y sr = Raise e \/
     rms_mean_of lib y = Raise e \/
     spectral_centroid_mean_of lib y sr = Raise e \/
     spectral_rolloff_mean_of lib y sr = Raise e \/
     zcr_mean_of lib y = Raise e \/
     spectral_bandwidth_mean_of lib y sr = Raise e \/
     peak_of lib y = Raise e \/
     spectral_contrast_mean_of lib y sr = Raise e \/
     mfcc_mean_of lib y sr = Raise e \/
     hpss_ratios lib y = Raise e).

(** [e] is what a division or the indexing of [keys] raised. *)
Definition raised_by_arithmetic (e : exn) : Prop :=
  e = ZeroDivisionError \/ e = OverflowError \/ e = IndexError.

(** A backend that answers with the measurements of one fixed
    recording: three samples at the requested rate.  Its [log10] is
    tabulated at the two arguments the run needs. *)
Definition tone_backend : Backend :=
  {| load := fun _ sr => Ok ([0.25; -0.5; 0.25]%float, sr);
     beat_track_tempo := fun _ _ => Ok 117.453125%float;
     chroma_argmax := fun _ _ => Ok 9%nat;
     rms_mean_of := fun _ => Ok 0.25%float;
     log10 := fun x =>
       if PrimFloat.eqb x (0.25 + 1e-10) then (-0.6020599911590645)%float
       else if PrimFloat.eqb x (0.5 + 1e-10) then (-0.30102999557618763)%float
       else nan;
     spectral_centroid_mean_of := fun _ _ => Ok 2210.4567%float;
     spectral_rolloff_mean_of := fun _ _ => Ok 4410.125%float;
     zcr_mean_of := fun _ => Ok 0.0399982%float;
     spectral_bandwidth_mean_of := fun _ _ => Ok 1500.005%float;
     peak_of := fun _ => Ok 0.5%float;
     spectral_contrast_mean_of := fun _ _ => Ok 20.0061%float;
     mfcc_mean_of := fun _ _ => Ok (-301.127)%float;
     hpss_ratios := fun _ => Ok (0.97654, 0.02346)%float |}.

(** The calls [extract] makes, in the order of the source, each with
    what it returned or raised; after a failed [load] there is nothing
    to call the others on.  A call that needs the result of an earlier
    one is listed with it. *)
Definition outcome {A} (r : result A) : result unit := r ≫= fun _ => Ok tt.

Definition extract_calls (lib : Backend) (self : FeatureExtractor)
    (filepath : string) : list (result unit) :=
  match load lib filepath (target_sr self) with
  | Raise e => [Raise e]
  | Ok (y, sr) =>
      [ Ok tt;
        outcome (int_true_div (Z.of_nat (length y)) sr);
        outcome (beat_track_tempo lib y sr);
        outcome (chroma_argmax lib y sr);
        outcome (key_idx ← chroma_argmax lib y sr; key_name key_idx);
        outcome (rms_mean_of lib y);
        outcome (spectral_centroid_mean_of lib y sr);
        outcome (spectral_rolloff_mean_of lib y sr);
        outcome (int_true_div sr 2);
        outcome (rolloff ← spectral_rolloff_mean_of lib y sr;
                 nyquist ← int_true_div sr 2;
                 float_div rolloff nyquist);
        outcome (zcr_mean_of lib y);
        outcome (spectral_bandwidth_mean_of lib y sr);
        outcome (peak_of lib y);
        outcome (spectral_contrast_mean_of lib y sr);
        outcome (mfcc_mean_of lib y sr);
        outcome (hpss_ratios lib y) ]
  end.

(** The exception of the first call that raised, if one did. *)
Fixpoint first_raise (calls : list (result unit)) : option exn :=
  match calls with
  | [] => None
  | Raise e :: _ => Some e
  | Ok _ :: rest => first_raise rest
  end.

(** The same backend when the file cannot be opened. *)
Definition missing_file_backend : Backend :=
  {| load := fun _ _ => Raise (Exn "FileNotFoundError" None);
     beat_track_tempo := beat_track_tempo tone_backend;
     chroma_argmax := chroma_argmax tone_backend;
     rms_mean_of := rms_mean_of tone_backend;
     log10 := log10 tone_backend;
     spectral_centroid_mean_of := spectral_centroid_mean_of tone_backend;
     spectral_rolloff_mean_of := spectral_rolloff_mean_of tone_backend;
     zcr_mean_of := zcr_mean_of tone_backend;
     spectral_bandwidth_mean_of := spectral_bandwidth_mean_of tone_backend;
     peak_of := peak_of tone_backend;
     spectral_contrast_mean_of := spectral_contrast_mean_of tone_backend;
     mfcc_mean_of := mfcc_mean_of tone_backend;
     hpss_ratios := hpss_ratios tone_backend |}.

(** The same backend when the peak of the signal cannot be taken, and
    when the file is read at a rate of zero. *)
Definition failing_peak_backend : Backend :=
  {| load := load tone_backend;
     beat_track_tempo := beat_track_tempo tone_backend;
     chroma_argmax := chroma_argmax tone_backend;
     rms_mean_of := rms_mean_of tone_backend;
     log10 := log10 tone_backend;
     spectral_centroid_mean_of := spectral_centroid_mean_of tone_backend;
     spectral_rolloff_mean_of := spectral_rolloff_mean_of tone_backend;
     zcr_mean_of := zcr_mean_of tone_backend;
     spectral_bandwidth_mean_of := spectral_bandwidth_mean_of tone_backend;
     peak_of := fun _ => Raise ValueError;
     spectral_contrast_mean_of := spectral_contrast_mean_of tone_backend;
     mfcc_mean_of := mfcc_mean_of tone_backend;
     hpss_ratios := hpss_ratios tone_backend |}.

Definition zero_rate_backend : Backend :=
  {| load := fun _ _ => Ok ([0.25; -0.5; 0.25]%float, 0);
     beat_track_tempo := beat_track_tempo tone_backend;
     chroma_argmax := chroma_argmax tone_backend;
     rms_mean_of := rms_mean_of tone_backend;
     log10 := log10 tone_backend;
     spectral_centroid_mean_of := spectral_centroid_mean_of tone_backend;
     spectral_rolloff_mean_of := spectral_rolloff_mean_of tone_backend;
     zcr_mean_of := zcr_mean_of tone_backend;
     spectral_bandwidth_mean_of := spectral_bandwidth_mean_of tone_backend;
     peak_of := peak_of tone_backend;
     spectral_contrast_mean_of := spectral_contrast_mean_of tone_backend;
     mfcc_mean_of := mfcc_mean_of tone_backend;
     hpss_ratios := hpss_ratios tone_backend |}.

(** *** More vocabulary for the engine *)

Definition is_dict (v : pyval) : bool :=
  match v with
  | VDict _ => true
  | _ => false
  end.

(** The keys of the fields a run uses. *)
Definition read_keys : list string := read_fields.*1.

(** The two thresholds of each band check (one for the harmonic
    ratio): the values on the edge of the favorable band. *)
Definition band_edges : list (string * list float) :=
  [ ("rms_db", [-20.0; -6.0]%float);
    ("dynamic_range_db", [6.0; 20.0]%float);
    ("spectral_centroid_hz", [2000.0; 4000.0]%float);
    ("spectral_rolloff_percent", [60.0; 90.0]%float);
    ("harmonic_ratio", [0.5]%float);
    ("tempo_bpm", [60.0; 180.0]%float) ].

(** The field a value of which is on an edge of its band, or is NaN. *)
Definition on_edge_or_nan (d : gmap string pyval) (key : string) : bool :=
  match d !! key, list_to_map (M := gmap string (list float)) band_edges !! key with
  | Some (VFloat x), Some edges =>
      PrimFloat.is_nan x || existsb (PrimFloat.eqb x) edges
  | _, _ => false
  end.

(** A DescriptorSet of NaNs, and one with every value on an edge. *)
Definition all_nan : gmap string pyval :=
  list_to_map
    [ ("rms_db", VFloat nan); ("lufs_approx", VFloat nan);
      ("dynamic_range_db", VFloat nan); ("spectral_centroid_hz", VFloat nan);
      ("spectral_rolloff_percent", VFloat nan); ("harmonic_ratio", VFloat nan);
      ("tempo_bpm", VFloat nan); ("estimated_key", VStr "C") ].

(** Too quiet, with a loudness proxy that is not a number. *)
Definition quiet_with_bad_lufs : gmap string pyval :=
  <[ "lufs_approx" := VStr "n/a" ]> five_favorable.

(** [five_favorable] with the five fields the engine never uses
    removed or replaced by junk. *)
Definition only_read_fields : gmap string pyval :=
  delete "zero_crossing_rate"
    (delete "spectral_bandwidth_hz"
       (<[ "spectral_contrast" := VNone ]>
          (<[ "mfcc_mean" := VStr "?" ]>
             (<[ "percussive_ratio" := VList [] ]> five_favorable)))).

(** ** The metrics module *)

(** The module owns one dict, [METRICS], and prints to the standard
    output; both are the state a call runs in.  A call returns its
    result, or the exception it raised, with the state it left. *)
Record world : Type := { METRICS : gmap string pyval; stdout : list string }.

Definition io (A : Type) : Type := world -> result A * world.

#[export] Instance io_ret : MRet io := fun _ a w => (Ok a, w).
#[export] Instance io_bind : MBind io := fun _ _ f m w =>
  match m w with
  | (Ok a, w') => f a w'
  | (Raise e, w') => (Raise e, w')
  end.

Definition lift {A} (r : result A) : io A := fun w => (r, w).

(** [METRICS[key]] and [METRICS[key] = v] *)
Definition metric_get (key : string) : io pyval := fun w =>
  match METRICS w !! key with
  | Some v => (Ok v, w)
  | None => (Raise KeyError, w)
  end.

Definition metric_set (key : string) (v : pyval) : io unit := fun w =>
  (Ok tt, {| METRICS := <[key := v]> (METRICS w); stdout := stdout w |}).

(** [**METRICS]: the entries of the dict, copied. *)
Definition read_METRICS : io (gmap string pyval) := fun w => (Ok (METRICS w), w).

(** [print(line)] *)
Definition print (line : string) : io unit := fun w =>
  (Ok tt, {| METRICS := METRICS w; stdout := stdout w ++ [line] |}).

(** [a + b] *)
Definition py_add (a b : pyval) : result pyval :=
  match a, b with
  | VStr s1, VStr s2 => Ok (VStr (s1 +:+ s2))
  | VList l1, VList l2 => Ok (VList (l1 ++ l2))
  | _, _ =>
      match as_num a, as_num b with
      | Some (NInt x), Some (NInt y) => Ok (VInt (x + y))
      | Some (NFloat x), Some (NFloat y) => Ok (VFloat (x + y)%float)
      | Some (NInt x), Some (NFloat y) =>
          fx ← int_to_float x; Ok (VFloat (fx + y)%float)
      | Some (NFloat x), Some (NInt y) =>
          fy ← int_to_float y; Ok (VFloat (x + fy)%float)
      | _, _ => Raise TypeError
      end
  end.

(** [a / b] *)
Definition py_truediv (a b : pyval) : result pyval :=
  match as_num a, as_num b with
  | Some (NInt x), Some (NInt y) => VFloat <$> int_true_div x y
  | Some (NFloat x), Some (NFloat y) => VFloat <$> float_div x y
  | Some (NInt x), Some (NFloat y) =>
      fx ← int_to_float x; VFloat <$> float_div fx y
  | Some (NFloat x), Some (NInt y) =>
      fy ← int_to_float y; VFloat <$> float_div x fy
  | _, _ => Raise TypeError
  end.

(** [round(v, nd)]: a float is rounded, an int comes back as it is. *)
Definition py_round_val (v : pyval) (nd : nat) : result pyval :=
  match v with
  | VFloat f => Ok (VFloat (py_round f nd))
  | VInt z => Ok (VInt z)
  | VBool b => Ok (VInt (Z.b2z b))
  | _ => Raise TypeError
  end.

Definition ENDPOINTS : list string :=
  [ "/api/health"; "/api/upload"; "/api/analyze/<file_id>";
    "/api/results/<file_id>"; "/api/visualize/<file_id>"; "/api/metrics" ].

(** [METRICS] as the module creates it, on the day [start_date]. *)
Definition METRICS_at_import (start_date : string) : gmap string pyval :=
  list_to_map
    [ ("tracks_processed", VInt 0);
      ("total_processing_time", VFloat 0.0);
      ("api_endpoints", VInt 0);
      ("features_extracted", VInt 0);
      ("visualizations", VInt 0);
      ("start_date", VStr start_date) ].

Definition world_at_import (start_date : string) : world :=
  {| METRICS := METRICS_at_import start_date; stdout := [] |}.

Definition newline : string := String "010" EmptyString.

(** The interpreter's limit on the decimal digits of an int it turns
    into a str ([sys.int_max_str_digits], 4300 unless it is changed),
    and the least magnitude that exceeds it. *)
Definition int_max_str_digits : Z := 4300.

Definition int_str_limit : Z := 10 ^ int_max_str_digits.

(** [str(z)] of an int: its decimal digits, or [ValueError] when
    there are more of them than the limit. *)
Definition int_str (z : Z) : result string :=
  if Z.abs z <? int_str_limit then Ok (pretty z) else Raise ValueError.

Section Metrics.

Variable py_repr : pyval -> string.

(** An f-string field without a format spec: an int is written in
    decimal, which raises beyond the digit limit, a str as it is. *)
Definition py_show (v : pyval) : result string :=
  match v with
  | VInt z => int_str z
  | _ => Ok (py_str py_repr v)
  end.

Definition initialize_metrics : io unit :=
  metric_set "api_endpoints" (VInt (Z.of_nat (length ENDPOINTS)));;
  print "📊 MixLens Metrics Initialized";;
  start_date ← metric_get "start_date";
  shown ← lift (py_show start_date);
  print ("   Start Date: " +:+ shown);;
  api_endpoints ← metric_get "api_endpoints";
  shown ← lift (py_show api_endpoints);
  print ("   API Endpoints: " +:+ shown).

Definition log_analysis (processing_time : float) : io unit :=
  tracks ← metric_get "tracks_processed";
  tracks' ← lift (py_add tracks (VInt 1));
  metric_set "tracks_processed" tracks';;
  total ← metric_get "total_processing_time";
  total' ← lift (py_add total (VFloat processing_time));
  metric_set "total_processing_time" total';;
  total ← metric_get "total_processing_time";
  tracks ← metric_get "tracks_processed";
  avg_time ← lift (py_truediv total tracks);
  tracks ← metric_get "tracks_processed";
  shown ← lift (py_show tracks);
  print ("✅ Analysis #" +:+ shown +:+ " completed");;
  print ("   Processing Time: " +:+ format_f 2 processing_time +:+ "s");;
  avg ← lift (py_format_f 2 avg_time);
  print ("   Average Time: " +:+ avg +:+ "s");;
  tracks ← metric_get "tracks_processed";
  shown ← lift (py_show tracks);
  print ("   Total Tracks: " +:+ shown).

(** [count > METRICS[key]], with an int [count], is [METRICS[key] < count]. *)
Definition update_features_count (count : Z) : io unit :=
  current ← metric_get "features_extracted";
  more ← lift (py_lt current (NInt count));
  if more : bool then
    metric_set "features_extracted" (VInt count);;
    stored ← metric_get "features_extracted";
    shown ← lift (py_show stored);
    print ("📈 Features Updated: " +:+ shown +:+ " analysis dimensions")
  else mret tt.

Definition update_visualizations_count (count : Z) : io unit :=
  current ← metric_get "visualizations";
  more ← lift (py_lt current (NInt count));
  if more : bool then
    metric_set "visualizations" (VInt count);;
    stored ← metric_get "visualizations";
    shown ← lift (py_show stored);
    print ("📊 Visualizations Updated: " +:+ shown +:+ " chart types")
  else mret tt.

Definition get_metrics_summary : io (gmap string pyval) :=
  let avg_time := VFloat 0.0 in
  tracks ← metric_get "tracks_processed";
  some ← lift (py_gt tracks (NInt 0));
  avg_time ←
    (if some : bool then
       total ← metric_get "total_processing_time";
       tracks ← metric_get "tracks_processed";
       lift (py_truediv total tracks)
     else mret avg_time);
  average ← lift (py_round_val avg_time 2);
  total ← metric_get "total_processing_time";
  rounded ← lift (py_round_val total 2);
  metrics ← read_METRICS;
  mret (<["total_processing_time_rounded" := rounded]>
          (<["average_processing_time" := average]> metrics)).

(** [summary[key]] *)
Definition summary_get (summary : gmap string pyval) (key : string) : io pyval :=
  lift (match summary !! key with
        | Some v => Ok v
        | None => Raise KeyError
        end).

Definition print_metrics_summary : io unit :=
  summary ← get_metrics_summary;
  print (newline +:+ str_repeat "=" 50);;
  print "📊 MIXLENS METRICS SUMMARY";;
  print (str_repeat "=" 50);;
  v ← summary_get summary "start_date";
  shown ← lift (py_show v);
  print ("Start Date: " +:+ shown);;
  v ← summary_get summary "tracks_processed";
  shown ← lift (py_show v);
  print ("Tracks Processed: " +:+ shown);;
  v ← summary_get summary "api_endpoints";
  shown ← lift (py_show v);
  print ("API Endpoints: " +:+ shown);;
  v ← summary_get summary "features_extracted";
  shown ← lift (py_show v);
  print ("Features Extracted: " +:+ shown);;
  v ← summary_get summary "visualizations";
  shown ← lift (py_show v);
  print ("Visualizations: " +:+ shown);;
  v ← summary_get summary "average_processing_time";
  s ← lift (py_format_f 2 v);
  print ("Average Processing Time: " +:+ s +:+ "s");;
  v ← summary_get summary "total_processing_time_rounded";
  s ← lift (py_format_f 2 v);
  print ("Total Processing Time: " +:+ s +:+ "s");;
  print (str_repeat "=" 50 +:+ newline).

End Metrics.

(** ** The pipeline: [AudioProcessor] *)

(** [len(v)]: a str counts its code points (the bytes of its UTF-8
    form that start one), numbers and [None] have no length. *)
Definition starts_code_point (c : ascii) : bool :=
  negb (N.land (N_of_ascii c) 192 =? 128)%N.

Fixpoint code_points (s : string) : nat :=
  match s with
  | EmptyString => O
  | String c s' => (Nat.b2n (starts_code_point c) + code_points s')%nat
  end.

Definition py_len (v : pyval) : result Z :=
  match v with
  | VStr s => Ok (Z.of_nat (code_points s))
  | VList l => Ok (Z.of_nat (length l))
  | VDict d => Ok (Z.of_nat (size d))
  | VNone | VBool _ | VInt _ | VFloat _ => Raise TypeError
  end.

(** [s.split(sep)] on a one-character separator: the pieces between
    the separators, at least one piece. *)
Fixpoint split_on (sep : ascii) (s : string) : list string :=
  match s with
  | EmptyString => [EmptyString]
  | String c s' =>
      if Ascii.eqb c sep then EmptyString :: split_on sep s'
      else
        match split_on sep s' with
        | piece :: pieces => String c piece :: pieces
        | [] => [String c EmptyString]
        end
  end.

(** [l[-1]] and [l[0]] *)
Definition last_item {A} (l : list A) : result A :=
  match last l with
  | Some x => Ok x
  | None => Raise IndexError
  end.

Definition first_item {A} (l : list A) : result A :=
  match head l with
  | Some x => Ok x
  | None => Raise IndexError
  end.

(** [filepath.split('/')[-1].split('.')[0]] *)
Definition file_id_of (filepath : string) : result string :=
  name ← last_item (split_on "/" filepath);
  first_item (split_on "." name).

Record AudioProcessor : Type := {
  feature_extractor : FeatureExtractor;
  suggestion_engine : SuggestionEngine
}.

(** [AudioProcessor.__init__] *)
Definition new_processor : AudioProcessor :=
  {| feature_extractor := new_extractor; suggestion_engine := init |}.

(** [AudioProcessor.analyze] *)
Definition analyze (lib : Backend) (py_repr : pyval -> string)
    (self : AudioProcessor) (filepath : string) : io (gmap string pyval) :=
  features ← lift (extract lib (feature_extractor self) filepath);
  let extracted_features := default (VDict ∅) (features !! "extracted_features") in
  feature_count ← lift (py_len extracted_features);
  (if 0 <? feature_count
   then update_features_count py_repr feature_count
   else mret tt);;
  suggestions ← lift (generate py_repr (suggestion_engine self) features);
  file_id ← lift (file_id_of filepath);
  mret (list_to_map
          [ ("file_id", VStr file_id);
            ("features", VDict features);
            ("suggestions", VList (VStr <$> suggestions));
            ("status", VStr "completed") ]).

(** ** The upload filter of the web service *)

Definition ALLOWED_EXTENSIONS : list string := ["wav"; "mp3"; "flac"; "m4a"; "aac"].

(** ['.' in filename] *)
Fixpoint has_char (c : ascii) (s : string) : bool :=
  match s with
  | EmptyString => false
  | String c' s' => Ascii.eqb c' c || has_char c s'
  end.

(** [s.rsplit(sep, 1)]: [s] cut at its last separator, or [s] alone
    when it has none. *)
Fixpoint cut_at_last (sep : ascii) (s : string) : option (string * string) :=
  match s with
  | EmptyString => None
  | String c s' =>
      match cut_at_last sep s' with
      | Some (before, after) => Some (String c before, after)
      | None => if Ascii.eqb c sep then Some (EmptyString, s') else None
      end
  end.

Definition rsplit_once (sep : ascii) (s : string) : list string :=
  match cut_at_last sep s with
  | Some (before, after) => [before; after]
  | None => [s]
  end.

(** [l[i]] *)
Definition item {A} (l : list A) (i : nat) : result A :=
  match l !! i with
  | Some x => Ok x
  | None => Raise IndexError
  end.

(** [s.lower()], on the letters A to Z.  Python lowers every cased
    code point; no code point outside A to Z lowers to a string of the
    letters and digits the extensions are made of, so the membership
    test below is decided by these letters alone. *)
Definition lower_char (c : ascii) : ascii :=
  let n := N_of_ascii c in
  if ((65 <=? n) && (n <=? 90))%N then ascii_of_N (n + 32) else c.

Fixpoint lower (s : string) : string :=
  match s with
  | EmptyString => EmptyString
  | String c s' => String (lower_char c) (lower s')
  end.

Definition is_allowed (ext : string) : bool :=
  existsb (String.eqb ext) ALLOWED_EXTENSIONS.

(** [allowed_file] *)
Definition allowed_file (filename : string) : result bool :=
  if has_char "." filename then
    ext ← item (rsplit_once "." filename) 1;
    Ok (is_allowed (lower ext))
  else Ok false.

(** *** Vocabulary for the metrics and the pipeline *)

(** The state [METRICS] is in between two calls of the module's
    functions: every entry is there, with a value of its type, the
    number of tracks is not negative, and each count has few enough
    digits to be printed. *)
Definition metrics_ok (m : gmap string pyval) : Prop :=
  (exists n, m !! "tracks_processed" = Some (VInt n) /\ 0 <= n)
  /\ (exists t, m !! "total_processing_time" = Some (VFloat t))
  /\ (exists a, m !! "api_endpoints" = Some (VInt a) /\ Z.abs a < int_str_limit)
  /\ (exists f, m !! "features_extracted" = Some (VInt f) /\ Z.abs f < int_str_limit)
  /\ (exists v, m !! "visualizations" = Some (VInt v) /\ Z.abs v < int_str_limit)
  /\ (exists s, m !! "start_date" = Some (VStr s)).

(** A call of one of the module's functions, and a session of such
    calls, run in order until one raises. *)
Inductive call : Type :=
| Initialize
| LogAnalysis (processing_time : float)
| UpdateFeatures (count : Z)
| UpdateVisualizations (count : Z)
| GetSummary
| PrintSummary.

Definition run_call (py_repr : pyval -> string) (c : call) : io unit :=
  match c with
  | Initialize => initialize_metrics py_repr
  | LogAnalysis t => log_analysis py_repr t
  | UpdateFeatures n => update_features_count py_repr n
  | UpdateVisualizations n => update_visualizations_count py_repr n
  | GetSummary => get_metrics_summary;; mret tt
  | PrintSummary => print_metrics_summary py_repr
  end.

Fixpoint run_calls (py_repr : pyval -> string) (calls : list call) : io unit :=
  match calls with
  | [] => mret tt
  | c :: rest => run_call py_repr c;; run_calls py_repr rest
  end.

Definition analyses (calls : list call) : list float :=
  omap (fun c => match c with LogAnalysis t => Some t | _ => None end) calls.

Definition feature_counts (calls : list call) : list Z :=
  omap (fun c => match c with UpdateFeatures n => Some n | _ => None end) calls.

Definition visualization_counts (calls : list call) : list Z :=
  omap (fun c => match c with UpdateVisualizations n => Some n | _ => None end) calls.

(** The sum Python accumulates, in the order of the calls. *)
Definition float_sum (times : list float) : float :=
  fold_left PrimFloat.add times 0%float.

Definition running_max (counts : list Z) : Z := fold_left Z.max counts 0.

(** A sample session. *)
Definition sample_session : list call :=
  [ Initialize; LogAnalysis 1.5; UpdateFeatures 13; GetSummary;
    LogAnalysis 2.25; UpdateFeatures 13; UpdateVisualizations 4; PrintSummary ].

(** A count of one digit more than the interpreter converts. *)
Definition huge_count : Z := int_str_limit.

(** A string without the character [c]. *)
Definition lacks (c : ascii) (s : string) : bool := negb (has_char c s).

(** The path under which the web service stores an upload:
    [os.path.join(folder, f"{file_id}.{ext}")]. *)
Definition upload_path (folder file_id ext : string) : string :=
  folder +:+ "/" +:+ file_id +:+ "." +:+ ext.

(** * Properties *)

(** ** The runtime *)

Lemma bind_ok {A B} (a : A) (f : A -> result B) : (Ok a ≫= f) = f a.
Proof. reflexivity. Qed.

Lemma py_get_dict d key dflt :
  py_get (VDict d) key dflt = Ok (default dflt (d !! key)).
Proof. reflexivity. Qed.

Lemma float_or_absent_plain d key :
  float_or_absent d key = true -> plain (field d key).
Proof.
  unfold float_or_absent, field.
  destruct (d !! key) as [[]|]; simpl; intros; try discriminate; constructor.
Qed.

Lemma schema_typed_plain d key :
  schema_typed d = true -> In key numeric_fields -> plain (field d key).
Proof.
  unfold schema_typed. rewrite forallb_forall. intros H Hin.
  apply float_or_absent_plain, H, Hin.
Qed.

Lemma threshold_init key t :
  thresholds init !! key = Some t -> threshold init key = Ok (NFloat t).
Proof. unfold threshold. intros ->. reflexivity. Qed.

(** The formatting and the rounding, on values Python prints as
    [-20.0], [2000], [2002], [-0.0], [0.30], [100.0], [nan], and
    rounds to [2.67], [0.12], [-0.0], [0.1235]. *)
Example format_f_samples :
  [ format_f 1 (-20.01); format_f 0 2000.5; format_f 0 2001.5;
    format_f 1 (-0.04); format_f 2 (0.1 + 0.2); format_f 1 99.95;
    format_f 1 nan ]
  = [ "-20.0"; "2000"; "2002"; "-0.0"; "0.30"; "100.0"; "nan" ].
Proof. vm_compute. reflexivity. Qed.

Example py_round_samples :
  [ py_round 2.675 2; py_round 0.125 2; py_round (-0.001) 2; py_round 0.12345 4 ]
  = [ 2.67; 0.12; -0; 0.1235 ]%float.
Proof. vm_compute. reflexivity. Qed.

Example format_of_default_zero :
  (py_format_f 1 (VInt 0), py_format_f 0 (VInt 0)) = (Ok "0.0", Ok "0").
Proof. vm_compute. reflexivity. Qed.

(** ** The checks on a schema-typed set *)

(** Replace the lookups in the thresholds of [init], and the
    comparisons of the default [0], by their values. *)
Ltac eval_thresholds :=
  repeat match goal with
  | |- context [threshold init ?k] =>
      let r := eval vm_compute in (threshold init k) in
      change (threshold init k) with r
  end.

Ltac eval_closed_numbers :=
  repeat match goal with
  | |- context [Z_compare_float ?z ?f] =>
      tryif is_var f then fail else
      let r := eval vm_compute in (Z_compare_float z f) in
      change (Z_compare_float z f) with r
  | |- context [int_to_float ?z] =>
      let r := eval vm_compute in (int_to_float z) in
      change (int_to_float z) with r
  end.

Ltac split_branches :=
  repeat match goal with
  | |- context [if ?b then _ else _] => destruct b
  end.

(** Open a check on a set whose field is plain: a float [x], or the
    default [0]. *)
Ltac open_check :=
  unfold field in *; rewrite ?py_get_dict, ?bind_ok; eval_thresholds;
  repeat match goal with
  | H : plain (default _ _) |- _ => destruct H
  end;
  cbn -[int_to_float Z_compare_float format_f]; eval_closed_numbers;
  cbn -[Z_compare_float format_f].

Lemma check_loudness_run d sugg :
  plain (field d "rms_db") -> plain (field d "lufs_approx") ->
  check_loudness init (VDict d) sugg = Ok (sugg ++ [loudness_entry d]).
Proof.
  unfold loudness_entry, check_loudness. intros H1 H2.
  open_check; split_branches; reflexivity.
Qed.

Lemma check_dynamic_range_run d sugg :
  plain (field d "dynamic_range_db") ->
  check_dynamic_range init (VDict d) sugg = Ok (sugg ++ [dynamic_range_entry d]).
Proof.
  unfold dynamic_range_entry, check_dynamic_range. intros H1.
  open_check; split_branches; reflexivity.
Qed.

Lemma check_spectral_centroid_run d sugg :
  plain (field d "spectral_centroid_hz") ->
  check_spectral_centroid init (VDict d) sugg = Ok (sugg ++ [centroid_entry d]).
Proof.
  unfold centroid_entry, check_spectral_centroid. intros H1.
  open_check; split_branches; reflexivity.
Qed.

Lemma check_spectral_rolloff_run d sugg :
  plain (field d "spectral_rolloff_percent") ->
  check_spectral_rolloff init (VDict d) sugg = Ok (sugg ++ [rolloff_entry d]).
Proof.
  unfold rolloff_entry, check_spectral_rolloff. intros H1.
  open_check; split_branches; reflexivity.
Qed.

Lemma check_harmonic_run d sugg :
  plain (field d "harmonic_ratio") ->
  check_harmonic init (VDict d) sugg = Ok (sugg ++ [harmonic_entry d]).
Proof.
  unfold harmonic_entry, check_harmonic. intros H1.
  open_check; split_branches; reflexivity.
Qed.

Lemma check_tempo_run d sugg :
  plain (field d "tempo_bpm") ->
  check_tempo (VDict d) sugg = Ok (sugg ++ [tempo_entry d]).
Proof.
  unfold tempo_entry, check_tempo. intros H1.
  open_check; split_branches; reflexivity.
Qed.

Lemma check_key_run py_repr d sugg :
  check_key py_repr (VDict d) sugg = Ok (sugg ++ [key_entry py_repr d]).
Proof. reflexivity. Qed.

(** ** What each entry says *)

Ltac entry_fact :=
  intros;
  unfold loudness_entry, dynamic_range_entry, centroid_entry, rolloff_entry,
    harmonic_entry, tempo_entry, key_entry, check_loudness, check_dynamic_range,
    check_spectral_centroid, check_spectral_rolloff, check_harmonic, check_tempo,
    check_key, within, not_below, below;
  open_check; split_branches; reflexivity.

(** An entry carries the check mark exactly when its value is in the
    favorable band. *)
Lemma loudness_entry_favorable d :
  plain (field d "rms_db") -> plain (field d "lufs_approx") ->
  is_favorable (loudness_entry d)
  = within (field d "rms_db") (NFloat (-20.0)) (NFloat (-6.0)).
Proof. entry_fact. Qed.

Lemma dynamic_range_entry_favorable d :
  plain (field d "dynamic_range_db") ->
  is_favorable (dynamic_range_entry d)
  = within (field d "dynamic_range_db") (NFloat 6.0) (NFloat 20.0).
Proof. entry_fact. Qed.

Lemma centroid_entry_favorable d :
  plain (field d "spectral_centroid_hz") ->
  is_favorable (centroid_entry d)
  = within (field d "spectral_centroid_hz") (NFloat 2000.0) (NFloat 4000.0).
Proof. entry_fact. Qed.

Lemma rolloff_entry_favorable d :
  plain (field d "spectral_rolloff_percent") ->
  is_favorable (rolloff_entry d)
  = within (field d "spectral_rolloff_percent") (NFloat 60.0) (NFloat 90.0).
Proof. entry_fact. Qed.

Lemma harmonic_entry_favorable d :
  plain (field d "harmonic_ratio") ->
  is_favorable (harmonic_entry d)
  = not_below (field d "harmonic_ratio") (NFloat 0.5).
Proof. entry_fact. Qed.

Lemma tempo_entry_favorable d :
  plain (field d "tempo_bpm") ->
  is_favorable (tempo_entry d)
  = within (field d "tempo_bpm") (NInt 60) (NInt 180).
Proof. entry_fact. Qed.

Lemma key_entry_favorable py_repr d : is_favorable (key_entry py_repr d) = false.
Proof. reflexivity. Qed.

(** An entry that is not favorable carries a warning icon. *)
Lemma loudness_entry_warning d :
  plain (field d "rms_db") -> plain (field d "lufs_approx") ->
  is_warning (loudness_entry d) = negb (is_favorable (loudness_entry d)).
Proof. entry_fact. Qed.

Lemma dynamic_range_entry_warning d :
  plain (field d "dynamic_range_db") ->
  is_warning (dynamic_range_entry d) = negb (is_favorable (dynamic_range_entry d)).
Proof. entry_fact. Qed.

Lemma centroid_entry_warning d :
  plain (field d "spectral_centroid_hz") ->
  is_warning (centroid_entry d) = negb (is_favorable (centroid_entry d)).
Proof. entry_fact. Qed.

Lemma rolloff_entry_warning d :
  plain (field d "spectral_rolloff_percent") ->
  is_warning (rolloff_entry d) = negb (is_favorable (rolloff_entry d)).
Proof. entry_fact. Qed.

Lemma harmonic_entry_warning d :
  plain (field d "harmonic_ratio") ->
  is_warning (harmonic_entry d) = negb (is_favorable (harmonic_entry d)).
Proof. entry_fact. Qed.

Lemma tempo_entry_warning d :
  plain (field d "tempo_bpm") ->
  is_warning (tempo_entry d) = negb (is_favorable (tempo_entry d)).
Proof. entry_fact. Qed.

Lemma key_entry_warning py_repr d : is_warning (key_entry py_repr d) = false.
Proof. reflexivity. Qed.

(** The category marker of each entry. *)
Lemma loudness_entry_category d :
  plain (field d "rms_db") -> plain (field d "lufs_approx") ->
  category_of (loudness_entry d) = Some "Loudness".
Proof. entry_fact. Qed.

Lemma dynamic_range_entry_category d :
  plain (field d "dynamic_range_db") ->
  category_of (dynamic_range_entry d) = Some "Dynamic Range".
Proof. entry_fact. Qed.

Lemma centroid_entry_category d :
  plain (field d "spectral_centroid_hz") ->
  category_of (centroid_entry d) = Some "Frequency Balance".
Proof. entry_fact. Qed.

Lemma rolloff_entry_category d :
  plain (field d "spectral_rolloff_percent") ->
  category_of (rolloff_entry d) = Some "High-Frequency Content".
Proof. entry_fact. Qed.

Lemma harmonic_entry_category d :
  plain (field d "harmonic_ratio") ->
  category_of (harmonic_entry d) = Some "Harmonic Content".
Proof. entry_fact. Qed.

Lemma tempo_entry_category d :
  plain (field d "tempo_bpm") ->
  category_of (tempo_entry d) = Some "Tempo".
Proof. entry_fact. Qed.

Lemma key_entry_category py_repr d :
  category_of (key_entry py_repr d) = Some "Key Detection".
Proof. reflexivity. Qed.

(** ** The banner *)

(** [7 * 0.7] in binary64 is a little under 4.9: a count reaches it
    exactly when it is at least 5. *)
Lemma reaches_bound (n : nat) :
  num_le (NFloat (7 * 0.7)%float) (NInt (Z.of_nat n)) = Nat.leb 5 n.
Proof.
  unfold num_le, Z_compare_float.
  change (Prim2SF (7 * 0.7)%float) with (S754_finite false 5516909543528857 (-50)).
  cbv beta iota.
  change (0 <=? -50) with false. cbv beta iota.
  change (2 ^ (- -50)) with 1125899906842624.
  destruct (Nat.leb_spec 5 n) as [H|H];
    destruct (Z.compare_spec (Z.of_nat n * 1125899906842624) 5516909543528857);
    first [reflexivity | lia].
Qed.

Lemma overall_summary_run sugg :
  overall_summary sugg = Ok (banner (count_favorable sugg) :: sugg).
Proof.
  unfold overall_summary.
  change (num_mul (NInt 7) (NFloat 0.7)) with (Ok (NFloat (7 * 0.7)%float)).
  rewrite bind_ok, reaches_bound. unfold banner, count_favorable.
  destruct (Nat.leb 5 _); reflexivity.
Qed.

(** ** A whole run on a schema-typed, non-empty set *)

Lemma truthy_dict d : d <> ∅ -> truthy (VDict d) = true.
Proof.
  intros H. simpl. rewrite bool_decide_eq_false_2 by exact H. reflexivity.
Qed.

Lemma count_favorable_cons e l :
  count_favorable (e :: l) = (Nat.b2n (is_favorable e) + count_favorable l)%nat.
Proof.
  unfold count_favorable. rewrite filter_cons.
  destruct (decide (is_favorable e = true)) as [->|H]; [reflexivity|].
  apply not_true_is_false in H. rewrite H. reflexivity.
Qed.

Lemma count_true_cons b l :
  length (filter (fun b => b = true) (b :: l))
  = (Nat.b2n b + length (filter (fun b => b = true) l))%nat.
Proof.
  rewrite filter_cons. destruct (decide (b = true)) as [->|H]; [reflexivity|].
  apply not_true_is_false in H. rewrite H. reflexivity.
Qed.

Lemma generate_run py_repr features d :
  features !! "extracted_features" = Some (VDict d) ->
  d <> ∅ ->
  schema_typed d = true ->
  generate py_repr init features
  = Ok (banner (favorable_checks d) :: entries py_repr d).
Proof.
  intros Hf Hne Hty. unfold generate. rewrite Hf.
  change (default (VDict ∅) (Some (VDict d))) with (VDict d).
  rewrite truthy_dict by exact Hne. cbn [negb].
  assert (Hp : forall key, In key numeric_fields -> plain (field d key))
    by (intros; apply schema_typed_plain; assumption).
  pose proof (Hp "rms_db" ltac:(simpl; tauto)) as H1.
  pose proof (Hp "lufs_approx" ltac:(simpl; tauto)) as H2.
  pose proof (Hp "dynamic_range_db" ltac:(simpl; tauto)) as H3.
  pose proof (Hp "spectral_centroid_hz" ltac:(simpl; tauto)) as H4.
  pose proof (Hp "spectral_rolloff_percent" ltac:(simpl; tauto)) as H5.
  pose proof (Hp "harmonic_ratio" ltac:(simpl; tauto)) as H6.
  pose proof (Hp "tempo_bpm" ltac:(simpl; tauto)) as H7.
  rewrite check_loudness_run, bind_ok by assumption.
  rewrite check_dynamic_range_run, bind_ok by assumption.
  rewrite check_spectral_centroid_run, bind_ok by assumption.
  rewrite check_spectral_rolloff_run, bind_ok by assumption.
  rewrite check_harmonic_run, bind_ok by assumption.
  rewrite check_tempo_run, bind_ok by assumption.
  rewrite check_key_run, bind_ok.
  rewrite overall_summary_run. cbn [app].
  change [loudness_entry d; dynamic_range_entry d; centroid_entry d;
          rolloff_entry d; harmonic_entry d; tempo_entry d; key_entry py_repr d]
    with (entries py_repr d).
  f_equal. f_equal. f_equal.
  unfold entries, favorable_checks, judged_checks.
  rewrite !count_favorable_cons, !count_true_cons.
  rewrite loudness_entry_favorable, dynamic_range_entry_favorable,
    centroid_entry_favorable, rolloff_entry_favorable,
    harmonic_entry_favorable, tempo_entry_favorable, key_entry_favorable
    by assumption.
  cbn. lia.
Qed.

Lemma nonempty_by_lookup (d : gmap string pyval) key v :
  d !! key = Some v -> d <> ∅.
Proof. intros H ->. rewrite lookup_empty in H. discriminate. Qed.

(** * The claims *)

(** C1. On every non-empty, schema-typed DescriptorSet the engine puts
    the overall banner first; the banner is the positive one exactly
    when the number of favorable checks is at least 70% of the fixed 7
    (so with 5, and not with 4).  The count is the number of entries
    that carry the check mark, and the bound does not move with the
    number of entries: [overall_summary] applies it to any list. *)
Theorem banner_by_fixed_count py_repr features d :
  features !! "extracted_features" = Some (VDict d) ->
  d <> ∅ ->
  schema_typed d = true ->
  exists rest,
    generate py_repr init features
    = Ok ((if 7 * 7 <=? 10 * Z.of_nat (favorable_checks d)
           then positive_banner else improvement_banner) :: rest)
    /\ count_favorable rest = favorable_checks d
    /\ (favorable_checks d = 5%nat ->
        generate py_repr init features = Ok (positive_banner :: rest))
    /\ (favorable_checks d = 4%nat ->
        generate py_repr init features = Ok (improvement_banner :: rest))
    /\ (forall sugg,
          overall_summary sugg
          = Ok ((if 7 * 7 <=? 10 * Z.of_nat (count_favorable sugg)
                 then positive_banner else improvement_banner) :: sugg)).
Proof.
  intros Hf Hne Hty.
  assert (Hb : forall n, banner n
      = if 7 * 7 <=? 10 * Z.of_nat n then positive_banner else improvement_banner).
  { intros n. unfold banner.
    destruct (Nat.leb_spec 5 n); destruct (Z.leb_spec (7 * 7) (10 * Z.of_nat n));
      first [reflexivity | lia]. }
  exists (entries py_repr d).
  pose proof (generate_run py_repr features d Hf Hne Hty) as Hrun.
  split; [rewrite Hrun, Hb; reflexivity|].
  split.
  { pose proof (overall_summary_run (entries py_repr d)) as Hs.
    assert (Hp : forall key, In key numeric_fields -> plain (field d key))
      by (intros; apply schema_typed_plain; assumption).
    unfold entries, favorable_checks, judged_checks.
    rewrite !count_favorable_cons, !count_true_cons.
    rewrite loudness_entry_favorable, dynamic_range_entry_favorable,
      centroid_entry_favorable, rolloff_entry_favorable,
      harmonic_entry_favorable, tempo_entry_favorable, key_entry_favorable
      by (apply Hp; simpl; tauto).
    cbn. lia. }
  split; [intros H5; rewrite Hrun, H5; reflexivity|].
  split; [intros H4; rewrite Hrun, H4; reflexivity|].
  intros sugg. rewrite overall_summary_run, Hb. reflexivity.
Qed.

Lemma banner_by_fixed_count_witness :
  exists rest,
    generate no_repr init (with_descriptors five_favorable)
    = Ok ((if 7 * 7 <=? 10 * Z.of_nat (favorable_checks five_favorable)
           then positive_banner else improvement_banner) :: rest)
    /\ count_favorable rest = favorable_checks five_favorable
    /\ (favorable_checks five_favorable = 5%nat ->
        generate no_repr init (with_descriptors five_favorable)
        = Ok (positive_banner :: rest))
    /\ (favorable_checks five_favorable = 4%nat ->
        generate no_repr init (with_descriptors five_favorable)
        = Ok (improvement_banner :: rest))
    /\ (forall sugg,
          overall_summary sugg
          = Ok ((if 7 * 7 <=? 10 * Z.of_nat (count_favorable sugg)
                 then positive_banner else improvement_banner) :: sugg)).
Proof.
  apply (banner_by_fixed_count no_repr (with_descriptors five_favorable) five_favorable).
  - vm_compute; reflexivity.
  - apply (nonempty_by_lookup _ "rms_db" (VFloat (-20.01))). vm_compute; reflexivity.
  - vm_compute; reflexivity.
Defined.

(** The two scenarios of the banner, evaluated. *)
Example five_of_seven_is_positive :
  favorable_checks five_favorable = 5%nat /\
  head <$> generate no_repr init (with_descriptors five_favorable)
  = Ok (Some positive_banner).
Proof. vm_compute. split; reflexivity. Qed.

Example four_of_seven_needs_improvement :
  favorable_checks four_favorable = 4%nat /\
  head <$> generate no_repr init (with_descriptors four_favorable)
  = Ok (Some improvement_banner).
Proof. vm_compute. split; reflexivity. Qed.

(** ** The "too quiet" suggestion *)

Lemma loudness_entry_too_quiet d :
  plain (field d "rms_db") -> plain (field d "lufs_approx") ->
  is_too_quiet (loudness_entry d) = below (field d "rms_db") (NFloat (-20.0)).
Proof. entry_fact. Qed.

Lemma dynamic_range_entry_not_too_quiet d :
  plain (field d "dynamic_range_db") -> is_too_quiet (dynamic_range_entry d) = false.
Proof. entry_fact. Qed.

Lemma centroid_entry_not_too_quiet d :
  plain (field d "spectral_centroid_hz") -> is_too_quiet (centroid_entry d) = false.
Proof. entry_fact. Qed.

Lemma rolloff_entry_not_too_quiet d :
  plain (field d "spectral_rolloff_percent") -> is_too_quiet (rolloff_entry d) = false.
Proof. entry_fact. Qed.

Lemma harmonic_entry_not_too_quiet d :
  plain (field d "harmonic_ratio") -> is_too_quiet (harmonic_entry d) = false.
Proof. entry_fact. Qed.

Lemma tempo_entry_not_too_quiet d :
  plain (field d "tempo_bpm") -> is_too_quiet (tempo_entry d) = false.
Proof. entry_fact. Qed.

Lemma banner_not_too_quiet n : is_too_quiet (banner n) = false.
Proof. unfold banner. destruct (Nat.leb 5 n); reflexivity. Qed.

Lemma too_quiet_iff_below py_repr d :
  schema_typed d = true ->
  existsb is_too_quiet (banner (favorable_checks d) :: entries py_repr d)
  = below (field d "rms_db") (NFloat (-20.0)).
Proof.
  intros Hty.
  assert (Hp : forall key, In key numeric_fields -> plain (field d key))
    by (intros; apply schema_typed_plain; assumption).
  unfold entries. cbn [existsb].
  rewrite banner_not_too_quiet, loudness_entry_too_quiet,
    dynamic_range_entry_not_too_quiet, centroid_entry_not_too_quiet,
    rolloff_entry_not_too_quiet, harmonic_entry_not_too_quiet,
    tempo_entry_not_too_quiet by (apply Hp; simpl; tauto).
  change (is_too_quiet (key_entry py_repr d)) with false.
  cbn. rewrite !orb_false_r. reflexivity.
Qed.

(** C2. The loudness check is a strict [<] against -20.0 dB: the
    engine emits the "too quiet" suggestion exactly when [rms_db] is
    below -20.0; it does not at [rms_db = -20.0] and it does at
    [rms_db = -20.01]. *)
Theorem too_quiet_is_strict py_repr features d x :
  features !! "extracted_features" = Some (VDict d) ->
  schema_typed d = true ->
  d !! "rms_db" = Some (VFloat x) ->
  exists out,
    generate py_repr init features = Ok out
    /\ existsb is_too_quiet out = (x <? -20.0)%float
    /\ (x = (-20.0)%float -> existsb is_too_quiet out = false)
    /\ (x = (-20.01)%float -> existsb is_too_quiet out = true).
Proof.
  intros Hf Hty Hx.
  exists (banner (favorable_checks d) :: entries py_repr d).
  assert (Hq : existsb is_too_quiet (banner (favorable_checks d) :: entries py_repr d)
               = (x <? -20.0)%float).
  { rewrite too_quiet_iff_below by exact Hty. unfold field. rewrite Hx. reflexivity. }
  split.
  { apply generate_run; [exact Hf | | exact Hty].
    apply (nonempty_by_lookup _ _ _ Hx). }
  split; [exact Hq|].
  split; intros ->; rewrite Hq; vm_compute; reflexivity.
Qed.

Lemma too_quiet_is_strict_witness :
  exists out,
    generate no_repr init (with_descriptors on_threshold) = Ok out
    /\ existsb is_too_quiet out = (-20.0 <? -20.0)%float
    /\ ((-20.0)%float = (-20.0)%float -> existsb is_too_quiet out = false)
    /\ ((-20.0)%float = (-20.01)%float -> existsb is_too_quiet out = true).
Proof.
  apply (too_quiet_is_strict no_repr (with_descriptors on_threshold) on_threshold).
  - vm_compute; reflexivity.
  - vm_compute; reflexivity.
  - vm_compute; reflexivity.
Defined.

Example too_quiet_just_below :
  existsb is_too_quiet <$> generate no_repr init (with_descriptors five_favorable)
  = Ok true.
Proof. vm_compute. reflexivity. Qed.

Example not_too_quiet_on_threshold :
  existsb is_too_quiet <$> generate no_repr init (with_descriptors on_threshold)
  = Ok false.
Proof. vm_compute. reflexivity. Qed.

(** ** What a run depends on *)

Ltac use_same_reads Hd Ht :=
  rewrite ?py_get_dict, ?bind_ok; unfold threshold;
  repeat match goal with
  | |- context [default ?dflt (?d !! ?key)] =>
      lazymatch type of Hd with
      | same_reads d _ => rewrite (Hd key dflt) by (simpl; tauto)
      end
  | |- context [thresholds ?s !! ?key] =>
      lazymatch type of Ht with
      | same_thresholds s _ => rewrite (Ht key) by (simpl; tauto)
      end
  end;
  reflexivity.

Section SameReads.
Variables (s1 s2 : SuggestionEngine) (d1 d2 : gmap string pyval).
Hypothesis Ht : same_thresholds s1 s2.
Hypothesis Hd : same_reads d1 d2.

Lemma check_loudness_ext sugg :
  check_loudness s1 (VDict d1) sugg = check_loudness s2 (VDict d2) sugg.
Proof. unfold check_loudness. use_same_reads Hd Ht. Qed.

Lemma check_dynamic_range_ext sugg :
  check_dynamic_range s1 (VDict d1) sugg = check_dynamic_range s2 (VDict d2) sugg.
Proof. unfold check_dynamic_range. use_same_reads Hd Ht. Qed.

Lemma check_spectral_centroid_ext sugg :
  check_spectral_centroid s1 (VDict d1) sugg
  = check_spectral_centroid s2 (VDict d2) sugg.
Proof. unfold check_spectral_centroid. use_same_reads Hd Ht. Qed.

Lemma check_spectral_rolloff_ext sugg :
  check_spectral_rolloff s1 (VDict d1) sugg
  = check_spectral_rolloff s2 (VDict d2) sugg.
Proof. unfold check_spectral_rolloff. use_same_reads Hd Ht. Qed.

Lemma check_harmonic_ext sugg :
  check_harmonic s1 (VDict d1) sugg = check_harmonic s2 (VDict d2) sugg.
Proof. unfold check_harmonic. use_same_reads Hd Ht. Qed.

Lemma check_tempo_ext sugg :
  check_tempo (VDict d1) sugg = check_tempo (VDict d2) sugg.
Proof. unfold check_tempo. use_same_reads Hd Ht. Qed.

Lemma check_key_ext py_repr sugg :
  check_key py_repr (VDict d1) sugg = check_key py_repr (VDict d2) sugg.
Proof. unfold check_key. use_same_reads Hd Ht. Qed.

Lemma generate_ext py_repr f1 f2 :
  f1 !! "extracted_features" = Some (VDict d1) ->
  f2 !! "extracted_features" = Some (VDict d2) ->
  (d1 = ∅ <-> d2 = ∅) ->
  generate py_repr s1 f1 = generate py_repr s2 f2.
Proof.
  intros H1 H2 Hempty. unfold generate. rewrite H1, H2.
  change (default (VDict ∅) (Some (VDict d1))) with (VDict d1).
  change (default (VDict ∅) (Some (VDict d2))) with (VDict d2).
  assert (Htr : truthy (VDict d1) = truthy (VDict d2)).
  { simpl. f_equal. apply bool_decide_ext. exact Hempty. }
  rewrite Htr. destruct (negb (truthy (VDict d2))); [reflexivity|].
  rewrite check_loudness_ext.
  destruct (check_loudness s2 (VDict d2) []) as [sugg|e]; [|reflexivity].
  rewrite !bind_ok, check_dynamic_range_ext.
  destruct (check_dynamic_range s2 (VDict d2) sugg) as [sugg1|e]; [|reflexivity].
  rewrite !bind_ok, check_spectral_centroid_ext.
  destruct (check_spectral_centroid s2 (VDict d2) sugg1) as [sugg2|e]; [|reflexivity].
  rewrite !bind_ok, check_spectral_rolloff_ext.
  destruct (check_spectral_rolloff s2 (VDict d2) sugg2) as [sugg3|e]; [|reflexivity].
  rewrite !bind_ok, check_harmonic_ext.
  destruct (check_harmonic s2 (VDict d2) sugg3) as [sugg4|e]; [|reflexivity].
  rewrite !bind_ok, check_tempo_ext.
  destruct (check_tempo (VDict d2) sugg4) as [sugg5|e]; [|reflexivity].
  rewrite !bind_ok, check_key_ext.
  reflexivity.
Qed.
End SameReads.

(** ** The number an entry shows *)

Ltac show_embedded :=
  lazymatch goal with
  | |- embeds ?label ?v ?unit (entry_of (Ok [?lit +:+ _])) =>
      let n := eval vm_compute in (String.length lit - String.length label)%nat in
      let pre := eval vm_compute in (substring 0 n lit) in
      exists pre; eexists; cbn; reflexivity
  end.

Ltac entry_embeds H :=
  unfold loudness_entry, dynamic_range_entry, centroid_entry, rolloff_entry,
    harmonic_entry, tempo_entry, check_loudness, check_dynamic_range,
    check_spectral_centroid, check_spectral_rolloff, check_harmonic, check_tempo;
  unfold field in *; rewrite ?py_get_dict, ?bind_ok; rewrite ?H; eval_thresholds;
  repeat match goal with
  | Hp : plain (default _ _) |- _ => destruct Hp
  end;
  cbn -[int_to_float Z_compare_float format_f]; eval_closed_numbers;
  cbn -[Z_compare_float format_f];
  split_branches; show_embedded.

Lemma loudness_entry_embeds d x :
  d !! "rms_db" = Some (VFloat x) -> plain (field d "lufs_approx") ->
  embeds "RMS: " (format_f 1 x) " dB" (loudness_entry d).
Proof. intros H Hl. entry_embeds H. Qed.

Lemma dynamic_range_entry_embeds d x :
  d !! "dynamic_range_db" = Some (VFloat x) ->
  embeds "Range: " (format_f 1 x) " dB" (dynamic_range_entry d).
Proof. intros H. entry_embeds H. Qed.

Lemma centroid_entry_embeds d x :
  d !! "spectral_centroid_hz" = Some (VFloat x) ->
  embeds "Centroid: " (format_f 0 x) " Hz" (centroid_entry d).
Proof. intros H. entry_embeds H. Qed.

Lemma rolloff_entry_embeds d x :
  d !! "spectral_rolloff_percent" = Some (VFloat x) ->
  embeds "Rolloff: " (format_f 1 x) "%" (rolloff_entry d).
Proof. intros H. entry_embeds H. Qed.

Lemma harmonic_entry_embeds d x :
  d !! "harmonic_ratio" = Some (VFloat x) ->
  embeds "(" (format_f 1 (x * 100)%float) "%)" (harmonic_entry d).
Proof. intros H. entry_embeds H. Qed.

Lemma tempo_entry_embeds d x :
  d !! "tempo_bpm" = Some (VFloat x) ->
  embeds "" (format_f 1 x) " BPM" (tempo_entry d).
Proof. intros H. entry_embeds H. Qed.

(** C5. As stated the claim fails: the loudness received as -20.01 (a
    value with two decimals, which [round(_, 2)] leaves alone) is
    shown as -20.0, and no entry shows -20.01. *)
Lemma loudness_is_shown_rerounded :
  five_favorable !! "rms_db" = Some (VFloat (-20.01))
  /\ py_round (-20.01) 2 = (-20.01)%float
  /\ format_f 2 (-20.01) = "-20.01"
  /\ (fun out => (out !! 1%nat, existsb (contains "-20.01") out))
       <$> generate no_repr init (with_descriptors five_favorable)
     = Ok (Some ("🔊 **Loudness**: Track is quiet (RMS: -20.0 dB). " +:+
                 "Consider normalizing or increasing gain to improve perceived loudness."),
           false).
Proof. vm_compute. repeat split; reflexivity. Qed.

(** C5, amended. Each judged entry shows the value that triggered it
    at the display precision of its template: one decimal for the
    loudness, the dynamic range, the rolloff, the tempo and the
    harmonic share (the ratio times 100), none for the centroid. *)
Theorem entries_show_display_precision py_repr features d :
  features !! "extracted_features" = Some (VDict d) ->
  d <> ∅ ->
  schema_typed d = true ->
  exists b e1 e2 e3 e4 e5 e6 k,
    generate py_repr init features = Ok [b; e1; e2; e3; e4; e5; e6; k]
    /\ (forall x, d !! "rms_db" = Some (VFloat x) ->
          embeds "RMS: " (format_f 1 x) " dB" e1)
    /\ (forall x, d !! "dynamic_range_db" = Some (VFloat x) ->
          embeds "Range: " (format_f 1 x) " dB" e2)
    /\ (forall x, d !! "spectral_centroid_hz" = Some (VFloat x) ->
          embeds "Centroid: " (format_f 0 x) " Hz" e3)
    /\ (forall x, d !! "spectral_rolloff_percent" = Some (VFloat x) ->
          embeds "Rolloff: " (format_f 1 x) "%" e4)
    /\ (forall x, d !! "harmonic_ratio" = Some (VFloat x) ->
          embeds "(" (format_f 1 (x * 100)%float) "%)" e5)
    /\ (forall x, d !! "tempo_bpm" = Some (VFloat x) ->
          embeds "" (format_f 1 x) " BPM" e6).
Proof.
  intros Hf Hne Hty.
  exists (banner (favorable_checks d)), (loudness_entry d), (dynamic_range_entry d),
    (centroid_entry d), (rolloff_entry d), (harmonic_entry d), (tempo_entry d),
    (key_entry py_repr d).
  split; [exact (generate_run py_repr features d Hf Hne Hty)|].
  repeat split; intros x Hx.
  - apply loudness_entry_embeds; [exact Hx|].
    apply schema_typed_plain; [exact Hty | simpl; tauto].
  - apply dynamic_range_entry_embeds, Hx.
  - apply centroid_entry_embeds, Hx.
  - apply rolloff_entry_embeds, Hx.
  - apply harmonic_entry_embeds, Hx.
  - apply tempo_entry_embeds, Hx.
Qed.

Lemma five_favorable_nonempty : five_favorable <> ∅.
Proof.
  apply (nonempty_by_lookup _ "rms_db" (VFloat (-20.01))). vm_compute; reflexivity.
Defined.

Lemma entries_show_display_precision_witness :
  exists b e1 e2 e3 e4 e5 e6 k,
    generate no_repr init (with_descriptors five_favorable)
    = Ok [b; e1; e2; e3; e4; e5; e6; k]
    /\ (forall x, five_favorable !! "rms_db" = Some (VFloat x) ->
          embeds "RMS: " (format_f 1 x) " dB" e1)
    /\ (forall x, five_favorable !! "dynamic_range_db" = Some (VFloat x) ->
          embeds "Range: " (format_f 1 x) " dB" e2)
    /\ (forall x, five_favorable !! "spectral_centroid_hz" = Some (VFloat x) ->
          embeds "Centroid: " (format_f 0 x) " Hz" e3)
    /\ (forall x, five_favorable !! "spectral_rolloff_percent" = Some (VFloat x) ->
          embeds "Rolloff: " (format_f 1 x) "%" e4)
    /\ (forall x, five_favorable !! "harmonic_ratio" = Some (VFloat x) ->
          embeds "(" (format_f 1 (x * 100)%float) "%)" e5)
    /\ (forall x, five_favorable !! "tempo_bpm" = Some (VFloat x) ->
          embeds "" (format_f 1 x) " BPM" e6).
Proof.
  apply (entries_show_display_precision no_repr (with_descriptors five_favorable)
           five_favorable).
  - vm_compute; reflexivity.
  - exact five_favorable_nonempty.
  - vm_compute; reflexivity.
Defined.

(** C6. After the banner come the seven entries in the fixed order of
    the categories.  The last one, Key Detection, is there once, is
    neither favorable nor a warning, and adds nothing to the count the
    banner is chosen by: that count is taken over the six judged
    entries, each of which is favorable or a warning. *)
Theorem entries_in_fixed_order py_repr features d :
  features !! "extracted_features" = Some (VDict d) ->
  d <> ∅ ->
  schema_typed d = true ->
  exists b e1 e2 e3 e4 e5 e6 k,
    generate py_repr init features = Ok [b; e1; e2; e3; e4; e5; e6; k]
    /\ category_of b = Some "Overall"
    /\ category_of <$> [e1; e2; e3; e4; e5; e6; k] = category_order
    /\ Forall (fun e => is_warning e = negb (is_favorable e)) [e1; e2; e3; e4; e5; e6]
    /\ is_favorable k = false /\ is_warning k = false
    /\ b = banner (count_favorable [e1; e2; e3; e4; e5; e6])
    /\ count_favorable [e1; e2; e3; e4; e5; e6; k]
       = count_favorable [e1; e2; e3; e4; e5; e6].
Proof.
  intros Hf Hne Hty.
  assert (Hp : forall key, In key numeric_fields -> plain (field d key))
    by (intros; apply schema_typed_plain; assumption).
  pose proof (Hp "rms_db" ltac:(simpl; tauto)) as H1.
  pose proof (Hp "lufs_approx" ltac:(simpl; tauto)) as H2.
  pose proof (Hp "dynamic_range_db" ltac:(simpl; tauto)) as H3.
  pose proof (Hp "spectral_centroid_hz" ltac:(simpl; tauto)) as H4.
  pose proof (Hp "spectral_rolloff_percent" ltac:(simpl; tauto)) as H5.
  pose proof (Hp "harmonic_ratio" ltac:(simpl; tauto)) as H6.
  pose proof (Hp "tempo_bpm" ltac:(simpl; tauto)) as H7.
  exists (banner (favorable_checks d)), (loudness_entry d), (dynamic_range_entry d),
    (centroid_entry d), (rolloff_entry d), (harmonic_entry d), (tempo_entry d),
    (key_entry py_repr d).
  assert (Hcount : count_favorable
            [loudness_entry d; dynamic_range_entry d; centroid_entry d;
             rolloff_entry d; harmonic_entry d; tempo_entry d]
          = favorable_checks d).
  { unfold favorable_checks, judged_checks.
    rewrite !count_favorable_cons, !count_true_cons.
    rewrite loudness_entry_favorable, dynamic_range_entry_favorable,
      centroid_entry_favorable, rolloff_entry_favorable,
      harmonic_entry_favorable, tempo_entry_favorable by assumption.
    reflexivity. }
  split; [exact (generate_run py_repr features d Hf Hne Hty)|].
  split; [unfold banner; destruct (Nat.leb 5 _); reflexivity|].
  split.
  { cbn [fmap list_fmap]. unfold category_order.
    rewrite loudness_entry_category, dynamic_range_entry_category,
      centroid_entry_category, rolloff_entry_category, harmonic_entry_category,
      tempo_entry_category, key_entry_category by assumption.
    reflexivity. }
  split.
  { repeat constructor.
    - apply loudness_entry_warning; assumption.
    - apply dynamic_range_entry_warning; assumption.
    - apply centroid_entry_warning; assumption.
    - apply rolloff_entry_warning; assumption.
    - apply harmonic_entry_warning; assumption.
    - apply tempo_entry_warning; assumption. }
  split; [apply key_entry_favorable|].
  split; [apply key_entry_warning|].
  split; [rewrite Hcount; reflexivity|].
  rewrite !count_favorable_cons, key_entry_favorable. cbn. lia.
Qed.

Lemma entries_in_fixed_order_witness :
  exists b e1 e2 e3 e4 e5 e6 k,
    generate no_repr init (with_descriptors five_favorable)
    = Ok [b; e1; e2; e3; e4; e5; e6; k]
    /\ category_of b = Some "Overall"
    /\ category_of <$> [e1; e2; e3; e4; e5; e6; k] = category_order
    /\ Forall (fun e => is_warning e = negb (is_favorable e)) [e1; e2; e3; e4; e5; e6]
    /\ is_favorable k = false /\ is_warning k = false
    /\ b = banner (count_favorable [e1; e2; e3; e4; e5; e6])
    /\ count_favorable [e1; e2; e3; e4; e5; e6; k]
       = count_favorable [e1; e2; e3; e4; e5; e6].
Proof.
  apply (entries_in_fixed_order no_repr (with_descriptors five_favorable)
           five_favorable).
  - vm_compute; reflexivity.
  - exact five_favorable_nonempty.
  - vm_compute; reflexivity.
Defined.

(** C3. As stated the claim fails: a DescriptorSet whose [rms_db] is
    a string makes the first comparison raise [TypeError]. *)
Lemma generate_raises_on_mistyped_field :
  generate no_repr init (with_descriptors mistyped_loudness) = Raise TypeError.
Proof. vm_compute. reflexivity. Qed.

Lemma key_entry_of_text py_repr d :
  text_or_absent d "estimated_key" = true ->
  key_entry py_repr d = key_entry no_repr d.
Proof.
  unfold text_or_absent, key_entry, check_key. rewrite !py_get_dict.
  destruct (d !! "estimated_key") as [[]|]; try discriminate; reflexivity.
Qed.

(** C3, amended. [generate] never raises on a well-formed input: no
    DescriptorSet, or one whose numeric fields are floats and whose
    key is a string, where they are present.  Nothing is asked of the
    interpreter's [str] on such an input, so the list returned is the
    same whatever it would answer.  For a missing or empty
    DescriptorSet the list is the unable-to-extract message alone. *)
Theorem generate_total_on_well_formed features :
  well_formed_input features = true ->
  (exists out, forall py_repr, generate py_repr init features = Ok out)
  /\ (features !! "extracted_features" = None
      \/ features !! "extracted_features" = Some (VDict ∅) ->
      forall py_repr, generate py_repr init features = Ok [unable_message]).
Proof.
  unfold well_formed_input. intros Hwf.
  assert (Hempty : truthy (VDict ∅) = false).
  { simpl. rewrite bool_decide_eq_true_2 by reflexivity. reflexivity. }
  split.
  - destruct (features !! "extracted_features") as [v|] eqn:Hf.
    + destruct v as [| | | | | |d]; try discriminate.
      apply andb_prop in Hwf as [Hty Hkey].
      destruct (decide (d = ∅)) as [->|Hne].
      * exists [unable_message]. intros py_repr. unfold generate. rewrite Hf.
        change (default (VDict ∅) (Some (VDict ∅))) with (VDict ∅).
        rewrite Hempty. reflexivity.
      * exists (banner (favorable_checks d) :: entries no_repr d).
        intros py_repr.
        rewrite (generate_run py_repr features d Hf Hne Hty).
        unfold entries. rewrite (key_entry_of_text py_repr d Hkey). reflexivity.
    + exists [unable_message]. intros py_repr. unfold generate. rewrite Hf.
      change (default (VDict ∅) None) with (VDict ∅).
      rewrite Hempty. reflexivity.
  - intros [Hf|Hf] py_repr; unfold generate; rewrite Hf.
    + change (default (VDict ∅) None) with (VDict ∅).
      rewrite Hempty. reflexivity.
    + change (default (VDict ∅) (Some (VDict ∅))) with (VDict ∅).
      rewrite Hempty. reflexivity.
Qed.

Lemma generate_total_on_well_formed_witness :
  (exists out,
     forall py_repr, generate py_repr init (with_descriptors five_favorable) = Ok out)
  /\ (with_descriptors five_favorable !! "extracted_features" = None
      \/ with_descriptors five_favorable !! "extracted_features" = Some (VDict ∅) ->
      forall py_repr,
        generate py_repr init (with_descriptors five_favorable) = Ok [unable_message]).
Proof.
  apply (generate_total_on_well_formed (with_descriptors five_favorable)).
  vm_compute; reflexivity.
Defined.

(** A set typed as the data model has it, and the two inputs without
    one, are well-formed; the set with a string for [rms_db] is not. *)
Example well_formed_samples :
  well_formed_input <$>
    [ with_descriptors five_favorable; with_descriptors ∅; ∅;
      with_descriptors only_tempo; with_descriptors mistyped_loudness ]
  = [ true; true; true; true; false ].
Proof. vm_compute. reflexivity. Qed.

Example generate_without_descriptors :
  generate no_repr init ∅ = Ok [unable_message].
Proof. vm_compute. reflexivity. Qed.

Example generate_with_empty_descriptors :
  generate no_repr init (with_descriptors ∅) = Ok [unable_message].
Proof. vm_compute. reflexivity. Qed.

(** C8. As stated the claim fails: from a DescriptorSet without
    [rms_db] the engine still emits a judged Loudness entry, computed
    from the default 0. *)
Lemma missing_loudness_is_judged :
  only_tempo !! "rms_db" = None
  /\ (fun out => out !! 1%nat)
       <$> generate no_repr init (with_descriptors only_tempo)
     = Ok (Some ("🔊 **Loudness**: Track may be too loud (RMS: 0.0 dB). " +:+
                 "Watch for clipping and consider reducing gain slightly.")).
Proof. vm_compute. split; reflexivity. Qed.

(** C8, amended. A field missing from a non-empty DescriptorSet is
    read as its default (the int 0; "Unknown" for the key): the run is
    the one on the set with that default filled in, judged entries
    included. *)
Theorem missing_field_reads_as_default py_repr self features features' d key :
  features !! "extracted_features" = Some (VDict d) ->
  features' !! "extracted_features" = Some (VDict (<[key := default_of key]> d)) ->
  d <> ∅ ->
  d !! key = None ->
  generate py_repr self features = generate py_repr self features'.
Proof.
  intros Hf Hf' Hne Hmiss.
  apply (generate_ext self self d (<[key := default_of key]> d)); try assumption.
  - intros k _. reflexivity.
  - intros k dflt Hin.
    destruct (decide (key = k)) as [->|Hk].
    + rewrite lookup_insert_eq, Hmiss.
      simpl in Hin.
      repeat (destruct Hin as [Hin|Hin]; [inversion Hin; subst; reflexivity|]).
      destruct Hin.
    + rewrite lookup_insert_ne by exact Hk. reflexivity.
  - split; [intros ->; contradiction|].
    intros H. exfalso. exact (insert_non_empty _ _ _ H).
Qed.

Lemma missing_field_reads_as_default_witness :
  generate no_repr init (with_descriptors only_tempo)
  = generate no_repr init
      (with_descriptors (<["rms_db" := default_of "rms_db"]> only_tempo)).
Proof.
  apply (missing_field_reads_as_default no_repr init
           (with_descriptors only_tempo)
           (with_descriptors (<["rms_db" := default_of "rms_db"]> only_tempo))
           only_tempo "rms_db").
  - vm_compute; reflexivity.
  - vm_compute; reflexivity.
  - apply (nonempty_by_lookup _ "tempo_bpm" (VFloat 128.0)). vm_compute; reflexivity.
  - vm_compute; reflexivity.
Defined.

(** C10. The output does not depend on [percussive_ratio]: two
    non-empty DescriptorSets that agree on every other field give the
    same run, on any engine; and the threshold
    [percussive_ratio_high] may be set to anything without changing
    the run. *)
Theorem percussive_ratio_is_ignored py_repr self features1 features2 d1 d2 :
  features1 !! "extracted_features" = Some (VDict d1) ->
  features2 !! "extracted_features" = Some (VDict d2) ->
  d1 <> ∅ ->
  d2 <> ∅ ->
  (forall key, key <> "percussive_ratio" -> d1 !! key = d2 !! key) ->
  generate py_repr self features1 = generate py_repr self features2
  /\ (forall t,
       generate py_repr
         {| thresholds := <["percussive_ratio_high" := t]> (thresholds self) |}
         features1
       = generate py_repr self features1).
Proof.
  intros Hf1 Hf2 Hne1 Hne2 Hsame. split.
  - apply (generate_ext self self d1 d2); try assumption.
    + intros k _. reflexivity.
    + intros k dflt Hin. rewrite (Hsame k); [reflexivity|].
      simpl in Hin.
      repeat (destruct Hin as [Hin|Hin]; [inversion Hin; subst; discriminate|]).
      destruct Hin.
    + split; intros ->; contradiction.
  - intros t.
    apply (generate_ext _ self d1 d1); try assumption.
    + intros k Hin. cbn [thresholds].
      rewrite lookup_insert_ne; [reflexivity|].
      simpl in Hin.
      repeat (destruct Hin as [Hin|Hin]; [subst; discriminate|]).
      destruct Hin.
    + intros k dflt _. reflexivity.
    + reflexivity.
Qed.

Lemma percussive_ratio_is_ignored_witness :
  generate no_repr init (with_descriptors five_favorable)
  = generate no_repr init
      (with_descriptors (<["percussive_ratio" := VFloat 0.95]> five_favorable))
  /\ (forall t,
       generate no_repr
         {| thresholds := <["percussive_ratio_high" := t]> (thresholds init) |}
         (with_descriptors five_favorable)
       = generate no_repr init (with_descriptors five_favorable)).
Proof.
  apply (percussive_ratio_is_ignored no_repr init
           (with_descriptors five_favorable)
           (with_descriptors (<["percussive_ratio" := VFloat 0.95]> five_favorable))
           five_favorable
           (<["percussive_ratio" := VFloat 0.95]> five_favorable)).
  - vm_compute; reflexivity.
  - vm_compute; reflexivity.
  - exact five_favorable_nonempty.
  - apply insert_non_empty.
  - intros key Hkey. rewrite lookup_insert_ne by congruence. reflexivity.
Defined.

(** ** The extractor *)

Lemma int_true_div_raises a b e :
  int_true_div a b = Raise e -> raised_by_arithmetic e.
Proof.
  unfold int_true_div, raised_by_arithmetic.
  destruct (b =? 0); [intros [= <-]; tauto|].
  destruct (SFdiv prec emax (Z_to_SF a) (Z_to_SF b)); try discriminate.
  intros [= <-]; tauto.
Qed.

Lemma float_div_raises a b e :
  float_div a b = Raise e -> raised_by_arithmetic e.
Proof.
  unfold float_div, raised_by_arithmetic.
  destruct (PrimFloat.eqb b 0); [intros [= <-]; tauto | discriminate].
Qed.

Lemma key_name_raises i e : key_name i = Raise e -> raised_by_arithmetic e.
Proof.
  unfold key_name, raised_by_arithmetic.
  destruct (keys !! i); [discriminate | intros [= <-]; tauto].
Qed.

(** The run of [extract], one call after the other: either a call
    raised, and that exception is the result, or every call returned
    and the result holds the DescriptorSet built from the rounded
    measurements. *)
Lemma extract_run lib self filepath :
  match extract lib self filepath with
  | Raise e =>
      raised_by_backend lib (target_sr self) filepath e \/ raised_by_arithmetic e
  | Ok r =>
      exists tempo key rms_db lufs centroid rolloff zcr bandwidth range contrast
             mfcc harmonic percussive,
        r !! "extracted_features" = Some (VDict (list_to_map
          [ ("tempo_bpm", VFloat (py_round tempo 2));
            ("estimated_key", VStr key);
            ("rms_db", VFloat (py_round rms_db 2));
            ("lufs_approx", VFloat (py_round lufs 2));
            ("spectral_centroid_hz", VFloat (py_round centroid 2));
            ("spectral_rolloff_percent", VFloat (py_round rolloff 2));
            ("zero_crossing_rate", VFloat (py_round zcr 4));
            ("spectral_bandwidth_hz", VFloat (py_round bandwidth 2));
            ("dynamic_range_db", VFloat (py_round range 2));
            ("spectral_contrast", VFloat (py_round contrast 2));
            ("mfcc_mean", VFloat (py_round mfcc 2));
            ("harmonic_ratio", VFloat (py_round harmonic 3));
            ("percussive_ratio", VFloat (py_round percussive 3)) ]))
  end.
Proof.
  unfold extract.
  destruct (load lib filepath (target_sr self)) as [[y sr]|e] eqn:Hload;
    cbn [mbind result_bind]; [|left; left; exact Hload].
  destruct (int_true_div (Z.of_nat (length y)) sr) as [duration|e] eqn:Hdur;
    cbn [mbind result_bind]; [|right; exact (int_true_div_raises _ _ _ Hdur)].
  destruct (beat_track_tempo lib y sr) as [tempo|e] eqn:H1;
    cbn [mbind result_bind]; [|left; right; exists y, sr; tauto].
  destruct (chroma_argmax lib y sr) as [key_idx|e] eqn:H2;
    cbn [mbind result_bind]; [|left; right; exists y, sr; tauto].
  destruct (key_name key_idx) as [key|e] eqn:Hkey;
    cbn [mbind result_bind]; [|right; exact (key_name_raises _ _ Hkey)].
  destruct (rms_mean_of lib y) as [rms_mean|e] eqn:H3;
    cbn [mbind result_bind]; [|left; right; exists y, sr; tauto].
  destruct (spectral_centroid_mean_of lib y sr) as [centroid|e] eqn:H4;
    cbn [mbind result_bind]; [|left; right; exists y, sr; tauto].
  destruct (spectral_rolloff_mean_of lib y sr) as [rolloff_mean|e] eqn:H5;
    cbn [mbind result_bind]; [|left; right; exists y, sr; tauto].
  destruct (int_true_div sr 2) as [nyquist|e] eqn:Hny;
    cbn [mbind result_bind]; [|right; exact (int_true_div_raises _ _ _ Hny)].
  destruct (float_div rolloff_mean nyquist) as [share|e] eqn:Hshare;
    cbn [mbind result_bind]; [|right; exact (float_div_raises _ _ _ Hshare)].
  destruct (zcr_mean_of lib y) as [zcr|e] eqn:H6;
    cbn [mbind result_bind]; [|left; right; exists y, sr; tauto].
  destruct (spectral_bandwidth_mean_of lib y sr) as [bandwidth|e] eqn:H7;
    cbn [mbind result_bind]; [|left; right; exists y, sr; tauto].
  destruct (peak_of lib y) as [peak|e] eqn:H8;
    cbn [mbind result_bind]; [|left; right; exists y, sr; tauto].
  destruct (spectral_contrast_mean_of lib y sr) as [contrast|e] eqn:H9;
    cbn [mbind result_bind]; [|left; right; exists y, sr; tauto].
  destruct (mfcc_mean_of lib y sr) as [mfcc|e] eqn:H10;
    cbn [mbind result_bind]; [|left; right; exists y, sr; tauto].
  destruct (hpss_ratios lib y) as [[harmonic percussive]|e] eqn:H11;
    cbn [mbind result_bind]; [|left; right; exists y, sr; tauto].
  do 13 eexists.
  cbn [list_to_map foldr uncurry fst snd].
  rewrite lookup_insert_ne by discriminate.
  rewrite lookup_insert_ne by discriminate.
  rewrite lookup_insert_eq. reflexivity.
Qed.

(** C4. As stated the claim fails: when the file cannot be opened the
    caller gets the backend's own exception, not a [DecodeError]
    carrying it. *)
Lemma missing_file_is_not_a_decode_error :
  extract missing_file_backend new_extractor "missing.wav"
  = Raise (Exn "FileNotFoundError" None)
  /\ is_decode_error (Exn "FileNotFoundError" None) = false.
Proof. vm_compute. split; reflexivity. Qed.

(** C4, amended. [extract] fails exactly when one of its calls does,
    and then with the exception of the first call that failed, as
    that call raised it: a backend call, one of the two divisions
    [len(y) / sr] and [rolloff / (sr / 2)], or the indexing of [keys].
    Nothing is wrapped around the exception and no failure is
    swallowed.  When no call fails [extract] returns, and what it
    returns holds a DescriptorSet with all its thirteen fields. *)
Theorem extract_raises_the_first_failure lib self filepath :
  match first_raise (extract_calls lib self filepath) with
  | Some e => extract lib self filepath = Raise e
  | None =>
      exists r d,
        extract lib self filepath = Ok r
        /\ r !! "extracted_features" = Some (VDict d)
        /\ dom d = list_to_set descriptor_fields
  end.
Proof.
  unfold extract_calls, extract.
  destruct (load lib filepath (target_sr self)) as [[y sr]|e];
    cbn [mbind result_bind first_raise outcome]; [|reflexivity].
  destruct (int_true_div (Z.of_nat (length y)) sr) as [duration|e];
    cbn [mbind result_bind first_raise outcome]; [|reflexivity].
  destruct (beat_track_tempo lib y sr) as [tempo|e];
    cbn [mbind result_bind first_raise outcome]; [|reflexivity].
  destruct (chroma_argmax lib y sr) as [key_idx|e];
    cbn [mbind result_bind first_raise outcome]; [|reflexivity].
  destruct (key_name key_idx) as [key|e];
    cbn [mbind result_bind first_raise outcome]; [|reflexivity].
  destruct (rms_mean_of lib y) as [rms_mean|e];
    cbn [mbind result_bind first_raise outcome]; [|reflexivity].
  destruct (spectral_centroid_mean_of lib y sr) as [centroid|e];
    cbn [mbind result_bind first_raise outcome]; [|reflexivity].
  destruct (spectral_rolloff_mean_of lib y sr) as [rolloff_mean|e];
    cbn [mbind result_bind first_raise outcome]; [|reflexivity].
  destruct (int_true_div sr 2) as [nyquist|e];
    cbn [mbind result_bind first_raise outcome]; [|reflexivity].
  destruct (float_div rolloff_mean nyquist) as [share|e];
    cbn [mbind result_bind first_raise outcome]; [|reflexivity].
  destruct (zcr_mean_of lib y) as [zcr|e];
    cbn [mbind result_bind first_raise outcome]; [|reflexivity].
  destruct (spectral_bandwidth_mean_of lib y sr) as [bandwidth|e];
    cbn [mbind result_bind first_raise outcome]; [|reflexivity].
  destruct (peak_of lib y) as [peak|e];
    cbn [mbind result_bind first_raise outcome]; [|reflexivity].
  destruct (spectral_contrast_mean_of lib y sr) as [contrast|e];
    cbn [mbind result_bind first_raise outcome]; [|reflexivity].
  destruct (mfcc_mean_of lib y sr) as [mfcc|e];
    cbn [mbind result_bind first_raise outcome]; [|reflexivity].
  destruct (hpss_ratios lib y) as [[harmonic percussive]|e];
    cbn [mbind result_bind first_raise outcome]; [|reflexivity].
  eexists _, _. split; [reflexivity|]. split.
  - cbn [list_to_map foldr uncurry fst snd].
    rewrite lookup_insert_ne by discriminate.
    rewrite lookup_insert_ne by discriminate.
    rewrite lookup_insert_eq. reflexivity.
  - rewrite !dom_insert_L, dom_empty_L. reflexivity.
Qed.

Lemma extract_raises_the_first_failure_witness :
  extract failing_peak_backend new_extractor "tone.wav" = Raise ValueError.
Proof.
  pose proof (extract_raises_the_first_failure failing_peak_backend new_extractor
                "tone.wav") as Hrun.
  exact Hrun.
Defined.

(** The calls of three runs: the peak that cannot be taken is the
    thirteenth, a rate of zero fails the first division, and on the
    sample recording no call fails. *)
Example first_raise_samples :
  first_raise <$>
    [ extract_calls failing_peak_backend new_extractor "tone.wav";
      extract_calls zero_rate_backend new_extractor "tone.wav";
      extract_calls missing_file_backend new_extractor "missing.wav";
      extract_calls tone_backend new_extractor "tone.wav" ]
  = [ Some ValueError; Some ZeroDivisionError;
      Some (Exn "FileNotFoundError" None); None ].
Proof. vm_compute. reflexivity. Qed.

Example extract_at_rate_zero :
  extract zero_rate_backend new_extractor "tone.wav" = Raise ZeroDivisionError.
Proof. vm_compute. reflexivity. Qed.

Example extract_returns_all_fields :
  (fun r => match r !! "extracted_features" with
            | Some (VDict d) => bool_decide (dom d = list_to_set descriptor_fields)
            | _ => false
            end) <$> extract tone_backend new_extractor "tone.wav"
  = Ok true.
Proof. vm_compute. reflexivity. Qed.

(** *** Rounding *)

Lemma div_half_even_nearest a b :
  0 < b -> nearest_integer a b (div_half_even a b).
Proof.
  intros Hb. unfold nearest_integer, div_half_even.
  pose proof (Z.div_mod a b ltac:(lia)) as Hdiv.
  pose proof (Z.mod_pos_bound a b Hb) as Hmod.
  set (q := a / b) in *. set (r := a mod b) in *.
  destruct (Z.compare_spec (2 * r) b) as [Heq|Hlt|Hgt].
  - destruct (Z.even q) eqn:Hev.
    + split; [|intros _; exact Hev]. replace (a - q * b) with r by lia. lia.
    + split.
      * replace (a - (q + 1) * b) with (r - b) by lia. lia.
      * intros _. rewrite Z.even_add, Hev. reflexivity.
  - replace (a - q * b) with r by lia. split; lia.
  - replace (a - (q + 1) * b) with (r - b) by lia. split; lia.
Qed.

Lemma scaled_fraction_denominator nd m e : 0 < snd (scaled_fraction nd m e).
Proof.
  unfold scaled_fraction. destruct (0 <=? e) eqn:He; cbn [snd]; [lia|].
  apply Z.pow_pos_nonneg; [lia|]. apply Z.leb_gt in He. lia.
Qed.

Lemma scaled_digits_nearest nd m e :
  nearest_integer (fst (scaled_fraction nd m e)) (snd (scaled_fraction nd m e))
    (scaled_digits nd m e).
Proof.
  pose proof (scaled_fraction_denominator nd m e) as Hpos. revert Hpos.
  unfold scaled_fraction, scaled_digits.
  destruct (0 <=? e) eqn:He; cbn [fst snd]; intros Hpos.
  - unfold nearest_integer. rewrite Z.mul_1_r, Z.sub_diag. simpl. lia.
  - apply div_half_even_nearest, Hpos.
Qed.

(** The integer nearest to a fraction, half-way cases to even, is one
    integer. *)
Lemma nearest_integer_unique a b n1 n2 :
  0 < b -> nearest_integer a b n1 -> nearest_integer a b n2 -> n1 = n2.
Proof.
  unfold nearest_integer. intros Hb [H1 E1] [H2 E2].
  assert (Hd : Z.abs (n1 - n2) <= 1) by nia.
  destruct (Z.eq_dec n1 n2) as [|Hne]; [assumption|exfalso].
  assert (Hone : n1 = n2 + 1 \/ n2 = n1 + 1) by lia.
  assert (T1 : Z.abs (2 * (a - n1 * b)) = b) by nia.
  assert (T2 : Z.abs (2 * (a - n2 * b)) = b) by nia.
  specialize (E1 T1). specialize (E2 T2).
  destruct Hone as [->| ->].
  - rewrite Z.even_add in E1. rewrite E2 in E1. discriminate.
  - rewrite Z.even_add in E2. rewrite E1 in E2. discriminate.
Qed.

(** [round(x, nd)] is the rounding of [x] to [nd] decimals, and
    nothing else is. *)
Lemma py_round_is_rounding x nd : rounding_of x nd (py_round x nd).
Proof.
  unfold rounding_of, py_round.
  destruct (Prim2SF x) as [s|s| |s m e]; try reflexivity.
  exists (scaled_digits nd m e). split; [apply scaled_digits_nearest|].
  unfold decimal. destruct (scaled_digits nd m e); reflexivity.
Qed.

Lemma rounding_of_unique x nd f1 f2 :
  rounding_of x nd f1 -> rounding_of x nd f2 -> f1 = f2.
Proof.
  unfold rounding_of. destruct (Prim2SF x) as [s|s| |s m e]; try congruence.
  intros (n1 & H1 & ->) (n2 & H2 & ->). f_equal.
  exact (nearest_integer_unique _ _ _ _ (scaled_fraction_denominator nd m e) H1 H2).
Qed.

(** The decimals 12.34, -0.5, 0.1235 and 2.67 as binary64 numbers;
    2.67 is the rounding of 2.675 (which lies below the half-way
    point, as a binary64 number) and of 2.67 itself, 0.12 that of
    0.125 (half-way, to the even digit), and 117.453125 is not a
    rounding to 2 decimals of anything. *)
Example decimal_samples :
  [ decimal false 1234 2; decimal true 5 1; decimal false 1235 4; decimal false 267 2 ]
  = [ 12.34; -0.5; 0.1235; 2.67 ]%float.
Proof. vm_compute. reflexivity. Qed.

Example rounding_samples :
  rounding_of 2.675 2 2.67 /\ rounding_of 2.67 2 2.67 /\ rounding_of 0.125 2 0.12
  /\ ~ rounding_of 2.675 2 2.675 /\ ~ rounding_of 2.675 2 2.68.
Proof.
  assert (E1 : py_round 2.675 2 = 2.67%float) by (vm_compute; reflexivity).
  assert (E2 : py_round 2.67 2 = 2.67%float) by (vm_compute; reflexivity).
  assert (E3 : py_round 0.125 2 = 0.12%float) by (vm_compute; reflexivity).
  pose proof (py_round_is_rounding 2.675 2) as H1. rewrite E1 in H1.
  pose proof (py_round_is_rounding 2.67 2) as H2. rewrite E2 in H2.
  pose proof (py_round_is_rounding 0.125 2) as H3. rewrite E3 in H3.
  split; [exact H1|]. split; [exact H2|]. split; [exact H3|].
  split; intros H; pose proof (rounding_of_unique _ _ _ _ H H1) as Heq;
    apply (f_equal Prim2SF) in Heq; vm_compute in Heq; discriminate.
Qed.

(** C7. Every numeric field of the DescriptorSet that [extract]
    returns is its measurement rounded to the decimals of the field:
    the binary64 number of the decimal nearest to what was measured,
    with 2 decimals, but 4 for [zero_crossing_rate] and 3 for the
    harmonic and percussive ratios; and the set holds no other field
    than those and the key. *)
Theorem descriptors_are_rounded lib self filepath r :
  extract lib self filepath = Ok r ->
  exists d y sr,
    load lib filepath (target_sr self) = Ok (y, sr)
    /\ r !! "extracted_features" = Some (VDict d)
    /\ (forall key nd, In (key, nd) precision ->
          exists x f,
            In (key, Ok x) (measurements lib y sr)
            /\ d !! key = Some (VFloat f)
            /\ rounding_of x nd f)
    /\ (forall key v, d !! key = Some v ->
          key = "estimated_key" \/ exists nd, In (key, nd) precision).
Proof.
  intros Hok. unfold extract in Hok.
  destruct (load lib filepath (target_sr self)) as [[y sr]|e];
    cbn [mbind result_bind] in Hok; [|discriminate].
  destruct (int_true_div (Z.of_nat (length y)) sr) as [duration|e];
    cbn [mbind result_bind] in Hok; [|discriminate].
  destruct (beat_track_tempo lib y sr) as [tempo|e] eqn:H1;
    cbn [mbind result_bind] in Hok; [|discriminate].
  destruct (chroma_argmax lib y sr) as [key_idx|e];
    cbn [mbind result_bind] in Hok; [|discriminate].
  destruct (key_name key_idx) as [key|e];
    cbn [mbind result_bind] in Hok; [|discriminate].
  destruct (rms_mean_of lib y) as [rms_mean|e] eqn:H2;
    cbn [mbind result_bind] in Hok; [|discriminate].
  destruct (spectral_centroid_mean_of lib y sr) as [centroid|e] eqn:H3;
    cbn [mbind result_bind] in Hok; [|discriminate].
  destruct (spectral_rolloff_mean_of lib y sr) as [rolloff_mean|e] eqn:H4;
    cbn [mbind result_bind] in Hok; [|discriminate].
  destruct (int_true_div sr 2) as [nyquist|e] eqn:H5;
    cbn [mbind result_bind] in Hok; [|discriminate].
  destruct (float_div rolloff_mean nyquist) as [share|e] eqn:H6;
    cbn [mbind result_bind] in Hok; [|discriminate].
  destruct (zcr_mean_of lib y) as [zcr|e] eqn:H7;
    cbn [mbind result_bind] in Hok; [|discriminate].
  destruct (spectral_bandwidth_mean_of lib y sr) as [bandwidth|e] eqn:H8;
    cbn [mbind result_bind] in Hok; [|discriminate].
  destruct (peak_of lib y) as [peak|e] eqn:H9;
    cbn [mbind result_bind] in Hok; [|discriminate].
  destruct (spectral_contrast_mean_of lib y sr) as [contrast|e] eqn:H10;
    cbn [mbind result_bind] in Hok; [|discriminate].
  destruct (mfcc_mean_of lib y sr) as [mfcc|e] eqn:H11;
    cbn [mbind result_bind] in Hok; [|discriminate].
  destruct (hpss_ratios lib y) as [[harmonic percussive]|e] eqn:H12;
    cbn [mbind result_bind] in Hok; [|discriminate].
  injection Hok as <-.
  eexists _, y, sr. split; [reflexivity|].
  split.
  { cbn [list_to_map foldr uncurry fst snd].
    rewrite lookup_insert_ne by discriminate.
    rewrite lookup_insert_ne by discriminate.
    rewrite lookup_insert_eq. reflexivity. }
  split.
  - intros k nd Hin. unfold measurements.
    rewrite H1, H2, H3, H4, H7, H8, H9, H10, H11, H12.
    cbn [mbind result_bind fst snd]. rewrite H5. cbn [mbind result_bind].
    rewrite H6. cbn [mbind result_bind].
    simpl in Hin.
    repeat (destruct Hin as [Hin|Hin];
      [ inversion Hin; subst; eexists _, _; split;
        [ cbn [In]; repeat first [left; reflexivity | right]
        | split;
          [ repeat (rewrite lookup_insert_ne by discriminate);
            rewrite lookup_insert_eq; reflexivity
          | apply py_round_is_rounding ] ] | ]).
    destruct Hin.
  - intros k v Hk. 
    repeat (rewrite lookup_insert_Some in Hk; destruct Hk as [[<- <-]|[_ Hk]];
      [ first [ left; reflexivity | right; eexists; simpl; tauto ] | ]).
    rewrite lookup_empty in Hk. discriminate.
Qed.

Lemma descriptors_are_rounded_witness :
  exists r d y sr,
    extract tone_backend new_extractor "tone.wav" = Ok r
    /\ load tone_backend "tone.wav" (target_sr new_extractor) = Ok (y, sr)
    /\ r !! "extracted_features" = Some (VDict d)
    /\ (forall key nd, In (key, nd) precision ->
          exists x f,
            In (key, Ok x) (measurements tone_backend y sr)
            /\ d !! key = Some (VFloat f)
            /\ rounding_of x nd f)
    /\ (forall key v, d !! key = Some v ->
          key = "estimated_key" \/ exists nd, In (key, nd) precision).
Proof.
  destruct (extract tone_backend new_extractor "tone.wav") as [r|e] eqn:Hrun;
    [|vm_compute in Hrun; discriminate].
  destruct (descriptors_are_rounded tone_backend new_extractor "tone.wav" r Hrun)
    as (d & y & sr & Hload & Hd & Hrounded & Hfields).
  exists r, d, y, sr. split; [reflexivity|]. repeat (split; [assumption|]).
  assumption.
Defined.

(** On the sample recording the tempo measured is 117.453125 and the
    zero-crossing rate 0.0399982; the fields hold 117.45 and 0.04. *)
Example tone_fields_are_rounded :
  (fun r => match r !! "extracted_features" with
            | Some (VDict d) => [d !! "tempo_bpm"; d !! "zero_crossing_rate"]
            | _ => []
            end) <$> extract tone_backend new_extractor "tone.wav"
  = Ok [Some (VFloat 117.45); Some (VFloat 0.04)].
Proof. vm_compute. reflexivity. Qed.

(** * More on the engine *)

(** ** The shape of the output *)

Ltac open_binds H :=
  repeat first
    [ discriminate H
    | match type of H with
      | context [match ?m with Ok _ => _ | Raise _ => _ end] =>
          destruct m; cbn [mbind result_bind] in H
      | context [if ?b then _ else _] => destruct b
      end ].

Ltac one_entry :=
  intros until 1;
  match goal with
  | H : _ = Ok _ |- _ =>
      unfold check_loudness, check_dynamic_range, check_spectral_centroid,
        check_spectral_rolloff, check_harmonic, check_tempo, check_key, append in H;
      unfold mbind, result_bind in H;
      open_binds H; injection H as <-; eexists; reflexivity
  end.

Lemma check_loudness_appends_one self extracted sugg out :
  check_loudness self extracted sugg = Ok out -> exists e, out = sugg ++ [e].
Proof. one_entry. Qed.

Lemma check_dynamic_range_appends_one self extracted sugg out :
  check_dynamic_range self extracted sugg = Ok out -> exists e, out = sugg ++ [e].
Proof. one_entry. Qed.

Lemma check_spectral_centroid_appends_one self extracted sugg out :
  check_spectral_centroid self extracted sugg = Ok out -> exists e, out = sugg ++ [e].
Proof. one_entry. Qed.

Lemma check_spectral_rolloff_appends_one self extracted sugg out :
  check_spectral_rolloff self extracted sugg = Ok out -> exists e, out = sugg ++ [e].
Proof. one_entry. Qed.

Lemma check_harmonic_appends_one self extracted sugg out :
  check_harmonic self extracted sugg = Ok out -> exists e, out = sugg ++ [e].
Proof. one_entry. Qed.

Lemma check_tempo_appends_one extracted sugg out :
  check_tempo extracted sugg = Ok out -> exists e, out = sugg ++ [e].
Proof. one_entry. Qed.

Lemma check_key_appends_one py_repr extracted sugg out :
  check_key py_repr extracted sugg = Ok out -> exists e, out = sugg ++ [e].
Proof. one_entry. Qed.

(** X1. Whatever the input and the thresholds, a list that [generate]
    returns is either the single unable-to-extract message or a banner
    (one of the two) followed by exactly seven entries: a run that
    raises half way returns nothing. *)
Theorem generate_returns_one_or_eight py_repr self features out :
  generate py_repr self features = Ok out ->
  out = [unable_message]
  \/ exists b rest,
       out = b :: rest /\ length rest = 7%nat
       /\ (b = positive_banner \/ b = improvement_banner).
Proof.
  unfold generate. intros H.
  destruct (negb (truthy _)); [injection H as <-; left; reflexivity|].
  right.
  destruct (check_loudness _ _ _) as [s1|] eqn:H1; [|discriminate H].
  cbn [mbind result_bind] in H.
  destruct (check_dynamic_range _ _ _) as [s2|] eqn:H2; [|discriminate H].
  cbn [mbind result_bind] in H.
  destruct (check_spectral_centroid _ _ _) as [s3|] eqn:H3; [|discriminate H].
  cbn [mbind result_bind] in H.
  destruct (check_spectral_rolloff _ _ _) as [s4|] eqn:H4; [|discriminate H].
  cbn [mbind result_bind] in H.
  destruct (check_harmonic _ _ _) as [s5|] eqn:H5; [|discriminate H].
  cbn [mbind result_bind] in H.
  destruct (check_tempo _ _) as [s6|] eqn:H6; [|discriminate H].
  cbn [mbind result_bind] in H.
  destruct (check_key _ _ _) as [s7|] eqn:H7; [|discriminate H].
  cbn [mbind result_bind] in H.
  apply check_loudness_appends_one in H1 as [e1 ->].
  apply check_dynamic_range_appends_one in H2 as [e2 ->].
  apply check_spectral_centroid_appends_one in H3 as [e3 ->].
  apply check_spectral_rolloff_appends_one in H4 as [e4 ->].
  apply check_harmonic_appends_one in H5 as [e5 ->].
  apply check_tempo_appends_one in H6 as [e6 ->].
  apply check_key_appends_one in H7 as [e7 ->].
  rewrite overall_summary_run in H. injection H as <-.
  eexists _, _. split; [reflexivity|]. split; [reflexivity|].
  unfold banner. destruct (Nat.leb 5 _); tauto.
Qed.

Lemma generate_returns_one_or_eight_witness :
  banner 5 :: entries no_repr five_favorable = [unable_message]
  \/ exists b rest,
       banner 5 :: entries no_repr five_favorable = b :: rest
       /\ length rest = 7%nat
       /\ (b = positive_banner \/ b = improvement_banner).
Proof.
  apply (generate_returns_one_or_eight no_repr init (with_descriptors five_favorable)).
  vm_compute; reflexivity.
Defined.

(** X2. The DescriptorSet entry is tested for truth, not for being a
    dict: any falsy value there ([None], [0], [""], an empty list or
    dict) gives the unable-to-extract message, and a truthy value that
    is not a dict makes the first [.get] raise [AttributeError]. *)
Theorem descriptors_entry_by_truth py_repr self features v :
  features !! "extracted_features" = Some v ->
  (truthy v = false -> generate py_repr self features = Ok [unable_message])
  /\ (truthy v = true -> is_dict v = false ->
      generate py_repr self features = Raise AttributeError).
Proof.
  intros Hf. unfold generate. rewrite Hf.
  change (default (VDict ∅) (Some v)) with v.
  split.
  - intros ->. reflexivity.
  - intros -> Hd. cbn [negb].
    destruct v; try discriminate Hd; reflexivity.
Qed.

Lemma descriptors_entry_by_truth_witness :
  (truthy VNone = false ->
   generate no_repr init {[ "extracted_features" := VNone ]} = Ok [unable_message])
  /\ (truthy VNone = true -> is_dict VNone = false ->
      generate no_repr init {[ "extracted_features" := VNone ]}
      = Raise AttributeError).
Proof.
  apply (descriptors_entry_by_truth no_repr init {[ "extracted_features" := VNone ]}).
  vm_compute; reflexivity.
Defined.

Example descriptors_as_a_list_raise :
  generate no_repr init {[ "extracted_features" := VList [VFloat 1.5] ]}
  = Raise AttributeError.
Proof. vm_compute. reflexivity. Qed.

(** ** The bands *)

Lemma entries_favorable py_repr d :
  schema_typed d = true ->
  is_favorable <$> [ loudness_entry d; dynamic_range_entry d; centroid_entry d;
                     rolloff_entry d; harmonic_entry d; tempo_entry d ]
  = judged_checks d
  /\ is_favorable (key_entry py_repr d) = false.
Proof.
  intros Hty.
  assert (Hp : forall key, In key numeric_fields -> plain (field d key))
    by (intros; apply schema_typed_plain; assumption).
  split; [|reflexivity].
  cbn [fmap list_fmap]. unfold judged_checks.
  rewrite loudness_entry_favorable, dynamic_range_entry_favorable,
    centroid_entry_favorable, rolloff_entry_favorable,
    harmonic_entry_favorable, tempo_entry_favorable
    by (apply Hp; simpl; tauto).
  reflexivity.
Qed.

(** X3. The threshold table.  On a schema-typed set each judged entry
    carries the check mark exactly when its value is neither below the
    low threshold nor above the high one: -20/-6 dB for the loudness,
    6/20 dB for the dynamic range, 2000/4000 Hz for the centroid,
    60/90 % for the rolloff, 60/180 BPM for the tempo, and not below
    0.5 for the harmonic ratio (which has no upper threshold). *)
Theorem entries_are_judged_by_band py_repr features d :
  features !! "extracted_features" = Some (VDict d) ->
  d <> ∅ ->
  schema_typed d = true ->
  exists b e1 e2 e3 e4 e5 e6 k,
    generate py_repr init features = Ok [b; e1; e2; e3; e4; e5; e6; k]
    /\ is_favorable e1 = within (field d "rms_db") (NFloat (-20.0)) (NFloat (-6.0))
    /\ is_favorable e2 = within (field d "dynamic_range_db") (NFloat 6.0) (NFloat 20.0)
    /\ is_favorable e3
       = within (field d "spectral_centroid_hz") (NFloat 2000.0) (NFloat 4000.0)
    /\ is_favorable e4
       = within (field d "spectral_rolloff_percent") (NFloat 60.0) (NFloat 90.0)
    /\ is_favorable e5 = not_below (field d "harmonic_ratio") (NFloat 0.5)
    /\ is_favorable e6 = within (field d "tempo_bpm") (NInt 60) (NInt 180).
Proof.
  intros Hf Hne Hty.
  assert (Hp : forall key, In key numeric_fields -> plain (field d key))
    by (intros; apply schema_typed_plain; assumption).
  exists (banner (favorable_checks d)), (loudness_entry d), (dynamic_range_entry d),
    (centroid_entry d), (rolloff_entry d), (harmonic_entry d), (tempo_entry d),
    (key_entry py_repr d).
  split; [exact (generate_run py_repr features d Hf Hne Hty)|].
  split; [apply loudness_entry_favorable; apply Hp; simpl; tauto|].
  split; [apply dynamic_range_entry_favorable; apply Hp; simpl; tauto|].
  split; [apply centroid_entry_favorable; apply Hp; simpl; tauto|].
  split; [apply rolloff_entry_favorable; apply Hp; simpl; tauto|].
  split; [apply harmonic_entry_favorable; apply Hp; simpl; tauto|].
  apply tempo_entry_favorable; apply Hp; simpl; tauto.
Qed.

Lemma entries_are_judged_by_band_witness :
  exists b e1 e2 e3 e4 e5 e6 k,
    generate no_repr init (with_descriptors four_favorable)
    = Ok [b; e1; e2; e3; e4; e5; e6; k]
    /\ is_favorable e1
       = within (field four_favorable "rms_db") (NFloat (-20.0)) (NFloat (-6.0))
    /\ is_favorable e2
       = within (field four_favorable "dynamic_range_db") (NFloat 6.0) (NFloat 20.0)
    /\ is_favorable e3
       = within (field four_favorable "spectral_centroid_hz")
           (NFloat 2000.0) (NFloat 4000.0)
    /\ is_favorable e4
       = within (field four_favorable "spectral_rolloff_percent")
           (NFloat 60.0) (NFloat 90.0)
    /\ is_favorable e5 = not_below (field four_favorable "harmonic_ratio") (NFloat 0.5)
    /\ is_favorable e6 = within (field four_favorable "tempo_bpm") (NInt 60) (NInt 180).
Proof.
  apply (entries_are_judged_by_band no_repr (with_descriptors four_favorable)
           four_favorable).
  - vm_compute; reflexivity.
  - apply insert_non_empty.
  - vm_compute; reflexivity.
Defined.

(** ** Floats on the edge of a band, and NaN *)

Lemma SFcompare_refl_finite s m e :
  SFcompare (S754_finite s m e) (S754_finite s m e) = Some Eq.
Proof.
  simpl. rewrite Z.compare_refl, Pos.compare_cont_refl. destruct s; reflexivity.
Qed.

Lemma is_nan_eq x : PrimFloat.is_nan x = true -> x = nan.
Proof.
  unfold PrimFloat.is_nan. rewrite FloatAxioms.eqb_spec. unfold SFeqb. intros H.
  apply Prim2SF_inj. change (Prim2SF nan) with S754_nan.
  destruct (Prim2SF x) as [s|s| |s m e]; try reflexivity; exfalso.
  - simpl in H. discriminate.
  - destruct s; simpl in H; discriminate.
  - rewrite SFcompare_refl_finite in H. discriminate.
Qed.

Lemma eqb_finite_eq x c s m e :
  Prim2SF c = S754_finite s m e -> PrimFloat.eqb x c = true -> x = c.
Proof.
  intros Hc. rewrite FloatAxioms.eqb_spec, Hc. unfold SFeqb. intros H.
  apply Prim2SF_inj. rewrite Hc.
  destruct (Prim2SF x) as [sx|sx| |sx mx ex]; cbn [SFcompare] in H.
  - destruct s; discriminate.
  - destruct sx; discriminate.
  - discriminate.
  - destruct sx, s; try discriminate;
      destruct (Z.compare_spec ex e) as [Heq| |]; try discriminate;
      rewrite Pos.compare_cont_spec in H;
      destruct (Pos.compare_spec mx m) as [Hm| |]; try discriminate;
      subst; reflexivity.
Qed.

Ltac edge_cases H :=
  unfold on_edge_or_nan in H;
  match type of H with
  | context [?d !! ?key] =>
      destruct (d !! key) as [[| | |x| | |]|] eqn:Hx; try discriminate H
  end;
  match type of H with
  | context [list_to_map ?l !! ?key] =>
      let r := eval vm_compute in (list_to_map (M := gmap string (list float)) l !! key) in
      change (list_to_map l !! key) with r in H
  end;
  cbn [existsb] in H;
  repeat (apply orb_prop in H; destruct H as [H|H]);
  try discriminate H;
  [ apply is_nan_eq in H
  | eapply eqb_finite_eq in H; [|vm_compute; reflexivity] .. ];
  match type of H with ?y = _ => subst y end.

Ltac favorable_on_edge lemma :=
  intros Hp H; rewrite lemma by exact Hp; clear Hp;
  edge_cases H; unfold field;
  match goal with
  | Hx : _ !! _ = Some (VFloat _) |- _ => rewrite Hx
  end;
  vm_compute; reflexivity.

Lemma loudness_edge d :
  plain (field d "rms_db") /\ plain (field d "lufs_approx") ->
  on_edge_or_nan d "rms_db" = true -> is_favorable (loudness_entry d) = true.
Proof.
  intros [Hp Hl] H. rewrite loudness_entry_favorable by assumption.
  clear Hp Hl. edge_cases H; unfold field;
    match goal with
    | Hx : _ !! _ = Some (VFloat _) |- _ => rewrite Hx
    end;
    vm_compute; reflexivity.
Qed.

Lemma dynamic_range_edge d :
  plain (field d "dynamic_range_db") ->
  on_edge_or_nan d "dynamic_range_db" = true ->
  is_favorable (dynamic_range_entry d) = true.
Proof. favorable_on_edge dynamic_range_entry_favorable. Qed.

Lemma centroid_edge d :
  plain (field d "spectral_centroid_hz") ->
  on_edge_or_nan d "spectral_centroid_hz" = true ->
  is_favorable (centroid_entry d) = true.
Proof. favorable_on_edge centroid_entry_favorable. Qed.

Lemma rolloff_edge d :
  plain (field d "spectral_rolloff_percent") ->
  on_edge_or_nan d "spectral_rolloff_percent" = true ->
  is_favorable (rolloff_entry d) = true.
Proof. favorable_on_edge rolloff_entry_favorable. Qed.

Lemma harmonic_edge d :
  plain (field d "harmonic_ratio") ->
  on_edge_or_nan d "harmonic_ratio" = true ->
  is_favorable (harmonic_entry d) = true.
Proof. favorable_on_edge harmonic_entry_favorable. Qed.

Lemma tempo_edge d :
  plain (field d "tempo_bpm") ->
  on_edge_or_nan d "tempo_bpm" = true ->
  is_favorable (tempo_entry d) = true.
Proof. favorable_on_edge tempo_entry_favorable. Qed.

(** X4. Every band is closed, and NaN is inside every band: on a
    schema-typed set, a judged field whose value equals one of its
    thresholds, or is NaN, gives a favorable entry (both comparisons
    of the check are strict and false on NaN).  When that is so for
    all six judged fields the banner is the positive one. *)
Theorem edges_and_nan_are_favorable py_repr features d :
  features !! "extracted_features" = Some (VDict d) ->
  d <> ∅ ->
  schema_typed d = true ->
  exists b e1 e2 e3 e4 e5 e6 k,
    generate py_repr init features = Ok [b; e1; e2; e3; e4; e5; e6; k]
    /\ (on_edge_or_nan d "rms_db" = true -> is_favorable e1 = true)
    /\ (on_edge_or_nan d "dynamic_range_db" = true -> is_favorable e2 = true)
    /\ (on_edge_or_nan d "spectral_centroid_hz" = true -> is_favorable e3 = true)
    /\ (on_edge_or_nan d "spectral_rolloff_percent" = true -> is_favorable e4 = true)
    /\ (on_edge_or_nan d "harmonic_ratio" = true -> is_favorable e5 = true)
    /\ (on_edge_or_nan d "tempo_bpm" = true -> is_favorable e6 = true)
    /\ (forallb (on_edge_or_nan d)
          [ "rms_db"; "dynamic_range_db"; "spectral_centroid_hz";
            "spectral_rolloff_percent"; "harmonic_ratio"; "tempo_bpm" ] = true ->
        b = positive_banner).
Proof.
  intros Hf Hne Hty.
  assert (Hp : forall key, In key numeric_fields -> plain (field d key))
    by (intros; apply schema_typed_plain; assumption).
  pose proof (Hp "rms_db" ltac:(simpl; tauto)) as H1.
  pose proof (Hp "lufs_approx" ltac:(simpl; tauto)) as H2.
  pose proof (Hp "dynamic_range_db" ltac:(simpl; tauto)) as H3.
  pose proof (Hp "spectral_centroid_hz" ltac:(simpl; tauto)) as H4.
  pose proof (Hp "spectral_rolloff_percent" ltac:(simpl; tauto)) as H5.
  pose proof (Hp "harmonic_ratio" ltac:(simpl; tauto)) as H6.
  pose proof (Hp "tempo_bpm" ltac:(simpl; tauto)) as H7.
  exists (banner (favorable_checks d)), (loudness_entry d), (dynamic_range_entry d),
    (centroid_entry d), (rolloff_entry d), (harmonic_entry d), (tempo_entry d),
    (key_entry py_repr d).
  split; [exact (generate_run py_repr features d Hf Hne Hty)|].
  split; [apply loudness_edge; split; assumption|].
  split; [apply dynamic_range_edge; assumption|].
  split; [apply centroid_edge; assumption|].
  split; [apply rolloff_edge; assumption|].
  split; [apply harmonic_edge; assumption|].
  split; [apply tempo_edge; assumption|].
  intros Hall. cbn [forallb] in Hall.
  repeat (apply andb_prop in Hall; destruct Hall as [? Hall]).
  assert (Hsix : favorable_checks d = 6%nat).
  { unfold favorable_checks, judged_checks.
    rewrite <- loudness_entry_favorable, <- dynamic_range_entry_favorable,
      <- centroid_entry_favorable, <- rolloff_entry_favorable,
      <- harmonic_entry_favorable, <- tempo_entry_favorable by assumption.
    rewrite loudness_edge, dynamic_range_edge, centroid_edge, rolloff_edge,
      harmonic_edge, tempo_edge by (try split; assumption).
    reflexivity. }
  rewrite Hsix. reflexivity.
Qed.

Lemma edges_and_nan_are_favorable_witness :
  exists b e1 e2 e3 e4 e5 e6 k,
    generate no_repr init (with_descriptors all_nan)
    = Ok [b; e1; e2; e3; e4; e5; e6; k]
    /\ (on_edge_or_nan all_nan "rms_db" = true -> is_favorable e1 = true)
    /\ (on_edge_or_nan all_nan "dynamic_range_db" = true -> is_favorable e2 = true)
    /\ (on_edge_or_nan all_nan "spectral_centroid_hz" = true -> is_favorable e3 = true)
    /\ (on_edge_or_nan all_nan "spectral_rolloff_percent" = true ->
        is_favorable e4 = true)
    /\ (on_edge_or_nan all_nan "harmonic_ratio" = true -> is_favorable e5 = true)
    /\ (on_edge_or_nan all_nan "tempo_bpm" = true -> is_favorable e6 = true)
    /\ (forallb (on_edge_or_nan all_nan)
          [ "rms_db"; "dynamic_range_db"; "spectral_centroid_hz";
            "spectral_rolloff_percent"; "harmonic_ratio"; "tempo_bpm" ] = true ->
        b = positive_banner).
Proof.
  apply (edges_and_nan_are_favorable no_repr (with_descriptors all_nan) all_nan).
  - vm_compute; reflexivity.
  - apply (nonempty_by_lookup _ "rms_db" (VFloat nan)). vm_compute; reflexivity.
  - vm_compute; reflexivity.
Defined.

Example nan_everywhere_is_praised :
  forallb (on_edge_or_nan all_nan)
    [ "rms_db"; "dynamic_range_db"; "spectral_centroid_hz";
      "spectral_rolloff_percent"; "harmonic_ratio"; "tempo_bpm" ] = true
  /\ (fun out => (head out, out !! 1%nat))
       <$> generate no_repr init (with_descriptors all_nan)
     = Ok (Some positive_banner,
           Some ("✅ **Loudness**: Good level (RMS: nan dB, LUFS approx: nan). " +:+
                 "Track has appropriate loudness for modern production.")).
Proof. vm_compute. split; reflexivity. Qed.

(** ** The fields a run does not use *)

(** X5. Of the thirteen fields only eight are used: the output (or
    the exception) is the same for two non-empty DescriptorSets that
    agree on [rms_db], [lufs_approx], [dynamic_range_db],
    [spectral_centroid_hz], [spectral_rolloff_percent],
    [harmonic_ratio], [tempo_bpm] and [estimated_key], whatever
    [zero_crossing_rate], [spectral_bandwidth_hz], [spectral_contrast],
    [mfcc_mean], [percussive_ratio] or any other key hold, on any
    engine. *)
Theorem unread_fields_are_ignored py_repr self features1 features2 d1 d2 :
  features1 !! "extracted_features" = Some (VDict d1) ->
  features2 !! "extracted_features" = Some (VDict d2) ->
  d1 <> ∅ ->
  d2 <> ∅ ->
  (forall key, In key read_keys -> d1 !! key = d2 !! key) ->
  generate py_repr self features1 = generate py_repr self features2.
Proof.
  intros Hf1 Hf2 Hne1 Hne2 Hsame.
  apply (generate_ext self self d1 d2); try assumption.
  - intros k _. reflexivity.
  - intros k dflt Hin. rewrite (Hsame k); [reflexivity|].
    unfold read_keys. apply (in_map fst) in Hin. exact Hin.
  - split; intros ->; contradiction.
Qed.

Lemma unread_fields_are_ignored_witness :
  generate no_repr init (with_descriptors five_favorable)
  = generate no_repr init (with_descriptors only_read_fields).
Proof.
  apply (unread_fields_are_ignored no_repr init (with_descriptors five_favorable)
           (with_descriptors only_read_fields) five_favorable only_read_fields).
  - vm_compute; reflexivity.
  - vm_compute; reflexivity.
  - exact five_favorable_nonempty.
  - apply (nonempty_by_lookup _ "rms_db" (VFloat (-20.01))). vm_compute; reflexivity.
  - intros key Hin. simpl in Hin.
    repeat (destruct Hin as [<-|Hin]; [vm_compute; reflexivity|]).
    destruct Hin.
Defined.

(** ** The loudness proxy *)

Ltac skip_lufs :=
  intros;
  unfold check_dynamic_range, check_spectral_centroid, check_spectral_rolloff,
    check_harmonic, check_tempo, check_key;
  rewrite ?py_get_dict; rewrite ?lookup_insert_ne by discriminate; reflexivity.

Lemma check_dynamic_range_skips_lufs self d v sugg :
  check_dynamic_range self (VDict (<["lufs_approx" := v]> d)) sugg
  = check_dynamic_range self (VDict d) sugg.
Proof. skip_lufs. Qed.

Lemma check_spectral_centroid_skips_lufs self d v sugg :
  check_spectral_centroid self (VDict (<["lufs_approx" := v]> d)) sugg
  = check_spectral_centroid self (VDict d) sugg.
Proof. skip_lufs. Qed.

Lemma check_spectral_rolloff_skips_lufs self d v sugg :
  check_spectral_rolloff self (VDict (<["lufs_approx" := v]> d)) sugg
  = check_spectral_rolloff self (VDict d) sugg.
Proof. skip_lufs. Qed.

Lemma check_harmonic_skips_lufs self d v sugg :
  check_harmonic self (VDict (<["lufs_approx" := v]> d)) sugg
  = check_harmonic self (VDict d) sugg.
Proof. skip_lufs. Qed.

Lemma check_tempo_skips_lufs d v sugg :
  check_tempo (VDict (<["lufs_approx" := v]> d)) sugg = check_tempo (VDict d) sugg.
Proof. skip_lufs. Qed.

Lemma check_key_skips_lufs py_repr d v sugg :
  check_key py_repr (VDict (<["lufs_approx" := v]> d)) sugg
  = check_key py_repr (VDict d) sugg.
Proof. skip_lufs. Qed.

Lemma check_loudness_skips_lufs d v sugg :
  within (field d "rms_db") (NFloat (-20.0)) (NFloat (-6.0)) = false ->
  check_loudness init (VDict (<["lufs_approx" := v]> d)) sugg
  = check_loudness init (VDict d) sugg.
Proof.
  unfold within, field, check_loudness. intros H.
  rewrite !py_get_dict, !bind_ok.
  rewrite lookup_insert_ne by discriminate. rewrite lookup_insert_eq.
  eval_thresholds. cbn [mbind result_bind].
  unfold py_lt, py_gt.
  destruct (as_num (default (VInt 0) (d !! "rms_db"))) as [a|]; [|reflexivity].
  cbn [mbind result_bind].
  destruct (num_lt a (NFloat (-20))); [reflexivity|].
  destruct (num_lt (NFloat (-6)) a); [reflexivity|].
  discriminate H.
Qed.

(** X6. [lufs_approx] is used by one template only, the favorable
    Loudness entry.  When the loudness is outside its band (or is not
    a number), [lufs_approx] may hold anything, a non-number included,
    without changing the output or the exception. *)
Theorem lufs_counts_only_in_the_band py_repr features features' d v :
  features !! "extracted_features" = Some (VDict d) ->
  features' !! "extracted_features" = Some (VDict (<["lufs_approx" := v]> d)) ->
  d <> ∅ ->
  within (field d "rms_db") (NFloat (-20.0)) (NFloat (-6.0)) = false ->
  generate py_repr init features' = generate py_repr init features.
Proof.
  intros Hf Hf' Hne Hout. unfold generate. rewrite Hf, Hf'.
  change (default (VDict ∅) (Some (VDict d))) with (VDict d).
  change (default (VDict ∅) (Some (VDict (<["lufs_approx" := v]> d))))
    with (VDict (<["lufs_approx" := v]> d)).
  rewrite !truthy_dict by (first [exact Hne | apply insert_non_empty]).
  cbn [negb].
  rewrite check_loudness_skips_lufs by exact Hout.
  destruct (check_loudness init (VDict d) []) as [s1|]; [|reflexivity].
  rewrite !bind_ok, check_dynamic_range_skips_lufs.
  destruct (check_dynamic_range init (VDict d) s1) as [s2|]; [|reflexivity].
  rewrite !bind_ok, check_spectral_centroid_skips_lufs.
  destruct (check_spectral_centroid init (VDict d) s2) as [s3|]; [|reflexivity].
  rewrite !bind_ok, check_spectral_rolloff_skips_lufs.
  destruct (check_spectral_rolloff init (VDict d) s3) as [s4|]; [|reflexivity].
  rewrite !bind_ok, check_harmonic_skips_lufs.
  destruct (check_harmonic init (VDict d) s4) as [s5|]; [|reflexivity].
  rewrite !bind_ok, check_tempo_skips_lufs.
  destruct (check_tempo (VDict d) s5) as [s6|]; [|reflexivity].
  rewrite !bind_ok, check_key_skips_lufs.
  reflexivity.
Qed.

Lemma lufs_counts_only_in_the_band_witness :
  generate no_repr init (with_descriptors quiet_with_bad_lufs)
  = generate no_repr init (with_descriptors five_favorable).
Proof.
  apply (lufs_counts_only_in_the_band no_repr (with_descriptors five_favorable)
           (with_descriptors quiet_with_bad_lufs) five_favorable (VStr "n/a")).
  - vm_compute; reflexivity.
  - vm_compute; reflexivity.
  - exact five_favorable_nonempty.
  - vm_compute; reflexivity.
Defined.

(** Inside the band the same junk makes the run raise. *)
Example bad_lufs_in_the_band_raises :
  generate no_repr init
    (with_descriptors (<["lufs_approx" := VStr "n/a"]> on_threshold))
  = Raise ValueError.
Proof. vm_compute. reflexivity. Qed.

(** * The metrics module *)

(** ** [float(n)] of a count *)

Lemma digits2_pos_size p : digits2_pos p = Pos.size p.
Proof. induction p; simpl; congruence. Qed.

Lemma digits2_pos_iter_xO p d :
  digits2_pos (Pos.iter xO p d) = (digits2_pos p + d)%positive.
Proof.
  induction d as [|d IH] using Pos.peano_ind.
  - simpl. lia.
  - rewrite Pos.iter_succ. simpl. rewrite IH. lia.
Qed.

Lemma digits2_pos_small p : Z.pos p < 2 ^ 53 -> (digits2_pos p <= 53)%positive.
Proof.
  intros H. rewrite digits2_pos_size.
  pose proof (Pos.size_le p) as Hs.
  assert (Hz : 2 ^ Z.pos (Pos.size p) <= 2 * Z.pos p).
  { rewrite <- Pos2Z.inj_pow. change (2 * Z.pos p) with (Z.pos p~0). lia. }
  assert (Hlt : 2 ^ Z.pos (Pos.size p) < 2 ^ 54).
  { change (2 ^ 54) with (2 * 2 ^ 53). lia. }
  apply Z.pow_lt_mono_r_iff in Hlt; lia.
Qed.

(** A count below 2^53 converts exactly, to a float that is not zero. *)
Lemma binary_normalize_small p :
  Z.pos p < 2 ^ 53 ->
  exists m e,
    binary_normalize prec emax (Z.pos p) 0 false = S754_finite false m e
    /\ SpecFloat.valid_binary prec emax (S754_finite false m e) = true.
Proof.
  intros Hp. apply digits2_pos_small in Hp.
  unfold binary_normalize, binary_round.
  set (dg := digits2_pos p) in *.
  assert (Hfexp : fexp prec emax (Z.pos dg + 0) = Z.pos dg - 53).
  { unfold fexp, SpecFloat.emin, prec, emax. lia. }
  rewrite Hfexp. unfold shl_align.
  assert (Haux : forall mz ez,
            digits2_pos mz = 53%positive -> -52 <= ez <= 0 ->
            binary_round_aux prec emax false (Z.pos mz) ez loc_Exact
            = S754_finite false mz ez
            /\ SpecFloat.valid_binary prec emax (S754_finite false mz ez) = true).
  { intros mz ez Hd He.
    assert (Hf : fexp prec emax (Z.pos (digits2_pos mz) + ez) = ez).
    { rewrite Hd. unfold fexp, SpecFloat.emin, prec, emax. lia. }
    split.
    - unfold binary_round_aux, shr_fexp. cbn [Zdigits2 shr_record_of_loc].
      rewrite Hf, Z.sub_diag. cbn [shr shr_m loc_of_shr_record round_nearest_even].
      cbn [Zdigits2]. rewrite Hf, Z.sub_diag. cbn [shr shr_m].
      assert (Hle : (ez <=? emax - prec) = true)
        by (apply Z.leb_le; unfold emax, prec; lia).
      rewrite Hle. reflexivity.
    - unfold SpecFloat.valid_binary, bounded, canonical_mantissa. rewrite Hf.
      rewrite Z.eqb_refl. apply Z.leb_le. unfold emax, prec. lia. }
  destruct (Z.pos dg - 53 - 0) as [|q|q] eqn:Hq.
  - exists p, 0. apply Haux; [|lia]. fold dg. lia.
  - lia.
  - exists (Pos.iter xO p q), (Z.pos dg - 53). apply Haux; [|lia].
    rewrite digits2_pos_iter_xO. fold dg. lia.
Qed.

Lemma int_to_float_count n :
  0 < n < 2 ^ 53 ->
  exists f, int_to_float n = Ok f /\ PrimFloat.eqb f 0 = false.
Proof.
  intros [Hpos Hlt]. destruct n as [|p|p]; try lia.
  destruct (binary_normalize_small p Hlt) as (m & e & Hn & Hv).
  exists (SF2Prim (S754_finite false m e)). unfold int_to_float. rewrite Hn.
  split; [reflexivity|].
  rewrite FloatAxioms.eqb_spec, Prim2SF_SF2Prim by exact Hv.
  reflexivity.
Qed.

(** ** Running a call *)

Lemma io_bind_get {B} key v (f : pyval -> io B) w :
  METRICS w !! key = Some v -> (metric_get key ≫= f) w = f v w.
Proof. intros H. unfold mbind, io_bind, metric_get. rewrite H. reflexivity. Qed.

Lemma io_bind_set {B} key v (f : unit -> io B) w :
  (metric_set key v ≫= f) w
  = f tt {| METRICS := <[key := v]> (METRICS w); stdout := stdout w |}.
Proof. reflexivity. Qed.

Lemma io_bind_print {B} line (f : unit -> io B) w :
  (print line ≫= f) w
  = f tt {| METRICS := METRICS w; stdout := stdout w ++ [line] |}.
Proof. reflexivity. Qed.

Lemma io_bind_lift {A B} (a : A) (f : A -> io B) w : (lift (Ok a) ≫= f) w = f a w.
Proof. reflexivity. Qed.

Lemma io_bind_ret {A B} (a : A) (f : A -> io B) w : (mret a ≫= f) w = f a w.
Proof. reflexivity. Qed.

Lemma io_bind_read {B} (f : gmap string pyval -> io B) w :
  (read_METRICS ≫= f) w = f (METRICS w) w.
Proof. reflexivity. Qed.

Lemma io_bind_assoc {A B C} (m : io A) (f : A -> io B) (g : B -> io C) w :
  ((m ≫= f) ≫= g) w = (m ≫= fun a => f a ≫= g) w.
Proof. unfold mbind, io_bind. destruct (m w) as [[a|e] w']; reflexivity. Qed.

Lemma world_eta w : {| METRICS := METRICS w; stdout := stdout w |} = w.
Proof. destruct w; reflexivity. Qed.

Ltac lookup_metrics :=
  cbn [METRICS stdout];
  repeat first
    [ rewrite lookup_insert_eq
    | rewrite lookup_insert_ne by discriminate ].

(** Run the next steps of a call in a state whose entries are known. *)
Ltac io_step :=
  first
    [ rewrite io_bind_assoc
    | rewrite io_bind_set
    | rewrite io_bind_print
    | rewrite io_bind_lift
    | rewrite io_bind_ret
    | rewrite io_bind_read
    | erewrite io_bind_get by (lookup_metrics; first [eassumption | reflexivity]) ].

Lemma py_truediv_count t n :
  0 < n < 2 ^ 53 ->
  exists f, int_to_float n = Ok f
            /\ py_truediv (VFloat t) (VInt n) = Ok (VFloat (t / f)%float).
Proof.
  intros Hn. destruct (int_to_float_count n Hn) as (f & Hf & Hz).
  exists f. split; [exact Hf|].
  unfold py_truediv. cbn [as_num]. rewrite Hf. cbn [mbind result_bind].
  unfold float_div. rewrite Hz. reflexivity.
Qed.

(** ** Printing an int *)

Lemma int_str_limit_large : 2 ^ 53 < int_str_limit.
Proof. vm_compute. reflexivity. Qed.

Lemma int_str_fits z : Z.abs z < int_str_limit -> int_str z = Ok (pretty z).
Proof.
  intros H. unfold int_str.
  destruct (Z.ltb_spec (Z.abs z) int_str_limit); [reflexivity | lia].
Qed.

Lemma int_str_exceeds z : int_str_limit <= Z.abs z -> int_str z = Raise ValueError.
Proof.
  intros H. unfold int_str.
  destruct (Z.ltb_spec (Z.abs z) int_str_limit); [lia | reflexivity].
Qed.

Lemma int_str_small z : Z.abs z < 2 ^ 53 -> int_str z = Ok (pretty z).
Proof.
  intros H. apply int_str_fits. pose proof int_str_limit_large. lia.
Qed.

(** ** What each function does to a well-formed state *)

Lemma initialize_metrics_run py_repr w s :
  METRICS w !! "start_date" = Some (VStr s) ->
  initialize_metrics py_repr w
  = (Ok tt,
     {| METRICS := <["api_endpoints" := VInt 6]> (METRICS w);
        stdout := stdout w ++ [ "📊 MixLens Metrics Initialized";
                                "   Start Date: " +:+ s;
                                "   API Endpoints: 6" ] |}).
Proof.
  intros Hs. unfold initialize_metrics.
  change (Z.of_nat (length ENDPOINTS)) with 6.
  repeat first
    [ io_step
    | progress cbn [py_show py_str]
    | rewrite (int_str_small 6) by (vm_compute; reflexivity) ].
  unfold print. cbn [METRICS stdout].
  rewrite <- !app_assoc. reflexivity.
Qed.

Lemma update_count_max old count :
  (if old <? count then VInt count else VInt old) = VInt (Z.max old count).
Proof. destruct (Z.ltb_spec old count); f_equal; lia. Qed.

(** The count is stored before its line is built: when the line
    cannot be built, the call raises with the new count in place. *)
Lemma update_features_count_any py_repr count w old :
  METRICS w !! "features_extracted" = Some (VInt old) ->
  update_features_count py_repr count w
  = (if (old <? count) && negb (Z.abs count <? int_str_limit)
     then Raise ValueError else Ok tt,
     {| METRICS := <["features_extracted" := VInt (Z.max old count)]> (METRICS w);
        stdout := stdout w ++
          (if (old <? count) && (Z.abs count <? int_str_limit)
           then ["📈 Features Updated: " +:+ pretty count +:+ " analysis dimensions"]
           else []) |}).
Proof.
  intros Hold. unfold update_features_count.
  io_step. cbn [py_lt as_num num_lt]. io_step.
  rewrite <- update_count_max.
  destruct (old <? count); cbn [andb].
  - repeat io_step. cbn [py_show]. unfold int_str.
    destruct (Z.abs count <? int_str_limit); cbn [negb].
    + io_step. unfold print. reflexivity.
    + rewrite app_nil_r. reflexivity.
  - rewrite app_nil_r, insert_id by exact Hold. rewrite world_eta. reflexivity.
Qed.

Lemma update_features_count_run py_repr count w old :
  METRICS w !! "features_extracted" = Some (VInt old) ->
  (old < count -> Z.abs count < int_str_limit) ->
  update_features_count py_repr count w
  = (Ok tt,
     {| METRICS := <["features_extracted" := VInt (Z.max old count)]> (METRICS w);
        stdout := stdout w ++
          (if old <? count
           then ["📈 Features Updated: " +:+ pretty count +:+ " analysis dimensions"]
           else []) |}).
Proof.
  intros Hold Hfits. rewrite (update_features_count_any _ _ _ _ Hold).
  destruct (Z.ltb_spec old count) as [Hgrows|_]; [|reflexivity].
  apply Hfits, Z.ltb_lt in Hgrows. rewrite Hgrows. reflexivity.
Qed.

(** The count is stored before its line is built: when the line
    cannot be built, the call raises with the new count in place. *)
Lemma update_visualizations_count_any py_repr count w old :
  METRICS w !! "visualizations" = Some (VInt old) ->
  update_visualizations_count py_repr count w
  = (if (old <? count) && negb (Z.abs count <? int_str_limit)
     then Raise ValueError else Ok tt,
     {| METRICS := <["visualizations" := VInt (Z.max old count)]> (METRICS w);
        stdout := stdout w ++
          (if (old <? count) && (Z.abs count <? int_str_limit)
           then ["📊 Visualizations Updated: " +:+ pretty count +:+ " chart types"]
           else []) |}).
Proof.
  intros Hold. unfold update_visualizations_count.
  io_step. cbn [py_lt as_num num_lt]. io_step.
  rewrite <- update_count_max.
  destruct (old <? count); cbn [andb].
  - repeat io_step. cbn [py_show]. unfold int_str.
    destruct (Z.abs count <? int_str_limit); cbn [negb].
    + io_step. unfold print. reflexivity.
    + rewrite app_nil_r. reflexivity.
  - rewrite app_nil_r, insert_id by exact Hold. rewrite world_eta. reflexivity.
Qed.

Lemma update_visualizations_count_run py_repr count w old :
  METRICS w !! "visualizations" = Some (VInt old) ->
  (old < count -> Z.abs count < int_str_limit) ->
  update_visualizations_count py_repr count w
  = (Ok tt,
     {| METRICS := <["visualizations" := VInt (Z.max old count)]> (METRICS w);
        stdout := stdout w ++
          (if old <? count
           then ["📊 Visualizations Updated: " +:+ pretty count +:+ " chart types"]
           else []) |}).
Proof.
  intros Hold Hfits. rewrite (update_visualizations_count_any _ _ _ _ Hold).
  destruct (Z.ltb_spec old count) as [Hgrows|_]; [|reflexivity].
  apply Hfits, Z.ltb_lt in Hgrows. rewrite Hgrows. reflexivity.
Qed.

Lemma log_analysis_run py_repr processing_time w n t :
  METRICS w !! "tracks_processed" = Some (VInt n) ->
  METRICS w !! "total_processing_time" = Some (VFloat t) ->
  0 <= n -> n + 1 < 2 ^ 53 ->
  exists f,
    int_to_float (n + 1) = Ok f
    /\ log_analysis py_repr processing_time w
       = (Ok tt,
          {| METRICS :=
               <["total_processing_time" := VFloat (t + processing_time)%float]>
                 (<["tracks_processed" := VInt (n + 1)]> (METRICS w));
             stdout := stdout w ++
               [ "✅ Analysis #" +:+ pretty (n + 1) +:+ " completed";
                 "   Processing Time: " +:+ format_f 2 processing_time +:+ "s";
                 "   Average Time: "
                   +:+ format_f 2 ((t + processing_time) / f)%float +:+ "s";
                 "   Total Tracks: " +:+ pretty (n + 1) ] |}).
Proof.
  intros Hn Ht Hpos Hsmall.
  destruct (py_truediv_count (t + processing_time)%float (n + 1) ltac:(lia))
    as (f & Hf & Hdiv).
  exists f. split; [exact Hf|].
  unfold log_analysis.
  io_step. cbn [py_add as_num]. io_step. io_step.
  io_step. cbn [py_add as_num]. io_step. io_step.
  io_step. io_step. rewrite Hdiv. io_step.
  repeat first
    [ io_step
    | progress cbn [py_format_f py_show]
    | rewrite (int_str_small (n + 1)) by lia ].
  unfold print. cbn [METRICS stdout]. rewrite <- !app_assoc. reflexivity.
Qed.

Lemma get_metrics_summary_run w n t :
  METRICS w !! "tracks_processed" = Some (VInt n) ->
  METRICS w !! "total_processing_time" = Some (VFloat t) ->
  0 <= n < 2 ^ 53 ->
  exists avg,
    (n = 0 -> avg = 0%float)
    /\ (0 < n -> exists f, int_to_float n = Ok f /\ avg = (t / f)%float)
    /\ get_metrics_summary w
       = (Ok (<["total_processing_time_rounded" := VFloat (py_round t 2)]>
                (<["average_processing_time" := VFloat (py_round avg 2)]>
                   (METRICS w))), w).
Proof.
  intros Hn Ht Hrange. unfold get_metrics_summary.
  destruct (Z.ltb_spec 0 n) as [Hpos|Hzero].
  - destruct (py_truediv_count t n ltac:(lia)) as (f & Hf & Hdiv).
    exists (t / f)%float. split; [lia|]. split; [intros _; exists f; tauto|].
    io_step. cbn [py_gt as_num num_lt]. io_step.
    assert (Hlt : (0 <? n) = true) by (apply Z.ltb_lt; lia). rewrite Hlt.
    repeat io_step. rewrite Hdiv. io_step.
    cbn [py_round_val]. repeat io_step. reflexivity.
  - exists 0%float. split; [reflexivity|]. split; [lia|].
    io_step. cbn [py_gt as_num num_lt]. io_step.
    assert (Hlt : (0 <? n) = false) by (apply Z.ltb_ge; lia). rewrite Hlt.
    io_step. cbn [py_round_val]. repeat io_step. reflexivity.
Qed.

Lemma io_bind_run {A B} (m : io A) (f : A -> io B) w a w' :
  m w = (Ok a, w') -> (m ≫= f) w = f a w'.
Proof. intros H. unfold mbind, io_bind. rewrite H. reflexivity. Qed.

Lemma print_metrics_summary_run py_repr w n t :
  metrics_ok (METRICS w) ->
  METRICS w !! "tracks_processed" = Some (VInt n) ->
  METRICS w !! "total_processing_time" = Some (VFloat t) ->
  n < 2 ^ 53 ->
  exists lines,
    length lines = 11%nat
    /\ print_metrics_summary py_repr w
       = (Ok tt, {| METRICS := METRICS w; stdout := stdout w ++ lines |}).
Proof.
  intros (Htracks & Htotal & (a & Ha & Hafits) & (fe & Hfe & Hfefits)
          & (v & Hv & Hvfits) & (s & Hs)) Hn Ht Hsmall.
  destruct Htracks as (n' & Hn' & Hpos).
  assert (n' = n) as -> by congruence.
  destruct (get_metrics_summary_run w n t Hn Ht ltac:(lia)) as (avg & _ & _ & Hrun).
  unfold print_metrics_summary.
  erewrite io_bind_run by exact Hrun.
  unfold summary_get.
  repeat first
    [ rewrite lookup_insert_eq
    | rewrite lookup_insert_ne by discriminate ].
  rewrite Hs, Hn, Ha, Hfe, Hv.
  repeat first
    [ io_step
    | progress cbn [py_format_f py_show py_str]
    | rewrite (int_str_small n) by lia
    | rewrite (int_str_fits a) by exact Hafits
    | rewrite (int_str_fits fe) by exact Hfefits
    | rewrite (int_str_fits v) by exact Hvfits ].
  unfold print. cbn [METRICS stdout]. rewrite <- !app_assoc.
  eexists. split; [|reflexivity]. reflexivity.
Qed.

(** ** A session *)

Lemma metrics_ok_at_import start_date : metrics_ok (METRICS_at_import start_date).
Proof.
  pose proof int_str_limit_large.
  unfold metrics_ok, METRICS_at_import.
  repeat split; eexists; try split; try (vm_compute; reflexivity); lia.
Qed.

Ltac keep_ok :=
  repeat split; eexists; try split;
  try (lookup_metrics; first [eassumption | reflexivity]); try lia.

(** A premise of the induction step: an entry of the new state, its
    well-formedness, or a bound on what is left of the session. *)
Ltac session_premise :=
  first
    [ solve [lookup_metrics; first [assumption | reflexivity]]
    | solve [keep_ok]
    | lia
    | solve [intros; auto with datatypes] ].

Lemma run_calls_from py_repr calls :
  forall w n t fe v,
    metrics_ok (METRICS w) ->
    METRICS w !! "tracks_processed" = Some (VInt n) ->
    METRICS w !! "total_processing_time" = Some (VFloat t) ->
    METRICS w !! "features_extracted" = Some (VInt fe) ->
    METRICS w !! "visualizations" = Some (VInt v) ->
    n + Z.of_nat (length (analyses calls)) < 2 ^ 53 ->
    (forall c, In c (feature_counts calls) -> c < int_str_limit) ->
    (forall c, In c (visualization_counts calls) -> c < int_str_limit) ->
    exists w',
      run_calls py_repr calls w = (Ok tt, w')
      /\ metrics_ok (METRICS w')
      /\ METRICS w' !! "tracks_processed"
         = Some (VInt (n + Z.of_nat (length (analyses calls))))
      /\ METRICS w' !! "total_processing_time"
         = Some (VFloat (fold_left PrimFloat.add (analyses calls) t))
      /\ METRICS w' !! "features_extracted"
         = Some (VInt (fold_left Z.max (feature_counts calls) fe))
      /\ METRICS w' !! "visualizations"
         = Some (VInt (fold_left Z.max (visualization_counts calls) v))
      /\ METRICS w' !! "start_date" = METRICS w !! "start_date".
Proof.
  pose proof int_str_limit_large as Hlarge.
  induction calls as [|c rest IH]; intros w n t fe v Hok Hn Ht Hfe Hv Hsmall Hfc Hvc.
  - exists w. cbn. rewrite Z.add_0_r. tauto.
  - pose proof Hok as (Htracks & _ & (a & Ha & Hafits) & (fe' & Hfe' & Hfefits)
                       & (v' & Hv' & Hvfits) & (s & Hs)).
    destruct Htracks as (n' & Hn' & Hpos).
    assert (n' = n) as -> by congruence.
    assert (fe' = fe) as -> by congruence.
    assert (v' = v) as -> by congruence.
    pose proof (Nat2Z.is_nonneg (length (analyses rest))) as Hlen.
    cbn [run_calls].
    destruct c as [|pt|count|count| |]; cbn [run_call];
      unfold analyses, feature_counts, visualization_counts in *;
      cbn [omap list_omap length fold_left] in Hsmall, Hfc, Hvc |- *;
      fold (analyses rest) (feature_counts rest) (visualization_counts rest) in *.
    + (* initialize_metrics *)
      erewrite io_bind_run by (apply initialize_metrics_run; exact Hs).
      match goal with
      | |- context [run_calls py_repr rest ?w1] =>
          destruct (IH w1 n t fe v) as (w' & Hrun & Hok' & H1 & H2 & H3 & H4 & H5)
      end; try session_premise.
      exists w'. split; [exact Hrun|]. split; [exact Hok'|].
      revert H5. lookup_metrics. tauto.
    + (* log_analysis *)
      destruct (log_analysis_run py_repr pt w n t Hn Ht Hpos ltac:(lia))
        as (f & _ & Hrun1).
      erewrite io_bind_run by exact Hrun1.
      match goal with
      | |- context [run_calls py_repr rest ?w1] =>
          destruct (IH w1 (n + 1) (t + pt)%float fe v)
            as (w' & Hrun & Hok' & H1 & H2 & H3 & H4 & H5)
      end; try session_premise.
      exists w'. split; [exact Hrun|]. split; [exact Hok'|].
      replace (n + Z.of_nat (S (length (analyses rest))))
        with (n + 1 + Z.of_nat (length (analyses rest))) by lia.
      revert H5. lookup_metrics. tauto.
    + (* update_features_count *)
      pose proof (Hfc count (or_introl eq_refl)) as Hcount.
      erewrite io_bind_run by (apply update_features_count_run; [exact Hfe | lia]).
      match goal with
      | |- context [run_calls py_repr rest ?w1] =>
          destruct (IH w1 n t (Z.max fe count) v)
            as (w' & Hrun & Hok' & H1 & H2 & H3 & H4 & H5)
      end; try session_premise.
      exists w'. split; [exact Hrun|]. split; [exact Hok'|].
      revert H5. lookup_metrics. tauto.
    + (* update_visualizations_count *)
      pose proof (Hvc count (or_introl eq_refl)) as Hcount.
      erewrite io_bind_run by (apply update_visualizations_count_run; [exact Hv | lia]).
      match goal with
      | |- context [run_calls py_repr rest ?w1] =>
          destruct (IH w1 n t fe (Z.max v count))
            as (w' & Hrun & Hok' & H1 & H2 & H3 & H4 & H5)
      end; try session_premise.
      exists w'. split; [exact Hrun|]. split; [exact Hok'|].
      revert H5. lookup_metrics. tauto.
    + (* get_metrics_summary *)
      destruct (get_metrics_summary_run w n t Hn Ht ltac:(lia))
        as (avg & _ & _ & Hrun1).
      rewrite (io_bind_run _ _ _ _ _ (io_bind_run _ _ _ _ _ Hrun1)).
      apply IH; first [assumption | lia].
    + (* print_metrics_summary *)
      destruct (print_metrics_summary_run py_repr w n t Hok Hn Ht ltac:(lia))
        as (lines & _ & Hrun1).
      erewrite io_bind_run by exact Hrun1.
      destruct (IH {| METRICS := METRICS w; stdout := stdout w ++ lines |} n t fe v)
        as (w' & Hrun & Hrest); try assumption.
      exists w'. split; [exact Hrun|]. exact Hrest.
Qed.
(** X7. No session of calls to the module's functions raises, as long
    as fewer than 2^53 analyses are logged and no count it is given
    has more digits than the interpreter prints (4300): started from
    the imported module, any sequence of [initialize_metrics],
    [log_analysis], [update_features_count],
    [update_visualizations_count], [get_metrics_summary] and
    [print_metrics_summary] runs to its end and leaves [METRICS]
    well-formed, with [tracks_processed] the number of analyses
    logged, [total_processing_time] the sum of their times, and the
    two counts the largest value they were given (0 at least).  In
    particular [log_analysis] never divides by zero, as it counts the
    track before it divides. *)
Theorem session_never_raises py_repr start_date calls :
  Z.of_nat (length (analyses calls)) < 2 ^ 53 ->
  (forall count, In count (feature_counts calls) -> count < int_str_limit) ->
  (forall count, In count (visualization_counts calls) -> count < int_str_limit) ->
  exists w',
    run_calls py_repr calls (world_at_import start_date) = (Ok tt, w')
    /\ metrics_ok (METRICS w')
    /\ METRICS w' !! "tracks_processed"
       = Some (VInt (Z.of_nat (length (analyses calls))))
    /\ METRICS w' !! "total_processing_time"
       = Some (VFloat (float_sum (analyses calls)))
    /\ METRICS w' !! "features_extracted"
       = Some (VInt (running_max (feature_counts calls)))
    /\ METRICS w' !! "visualizations"
       = Some (VInt (running_max (visualization_counts calls)))
    /\ METRICS w' !! "start_date" = Some (VStr start_date).
Proof.
  intros Hsmall Hfeatures Hvisualizations.
  destruct (run_calls_from py_repr calls (world_at_import start_date) 0 0%float 0 0
              (metrics_ok_at_import start_date)
              ltac:(vm_compute; reflexivity) ltac:(vm_compute; reflexivity)
              ltac:(vm_compute; reflexivity) ltac:(vm_compute; reflexivity)
              ltac:(lia) Hfeatures Hvisualizations)
    as (w' & Hrun & Hok & H1 & H2 & H3 & H4 & H5).
  exists w'. split; [exact Hrun|]. split; [exact Hok|].
  rewrite Z.add_0_l in H1. repeat split; assumption.
Qed.

Lemma session_never_raises_witness :
  exists w',
    run_calls no_repr sample_session (world_at_import "Nov 03, 2026") = (Ok tt, w')
    /\ metrics_ok (METRICS w')
    /\ METRICS w' !! "tracks_processed"
       = Some (VInt (Z.of_nat (length (analyses sample_session))))
    /\ METRICS w' !! "total_processing_time"
       = Some (VFloat (float_sum (analyses sample_session)))
    /\ METRICS w' !! "features_extracted"
       = Some (VInt (running_max (feature_counts sample_session)))
    /\ METRICS w' !! "visualizations"
       = Some (VInt (running_max (visualization_counts sample_session)))
    /\ METRICS w' !! "start_date" = Some (VStr "Nov 03, 2026").
Proof.
  apply (session_never_raises no_repr "Nov 03, 2026" sample_session).
  - vm_compute. reflexivity.
  - simpl. intros count [<-|[<-|[]]]; vm_compute; reflexivity.
  - simpl. intros count [<-|[]]; vm_compute; reflexivity.
Defined.

(** A session that is given a count of 4301 digits stops there: the
    count is stored, and the call raises when it builds its line. *)
Example session_stops_at_a_huge_count :
  run_calls no_repr [Initialize; UpdateFeatures huge_count; PrintSummary]
    (world_at_import "Nov 03, 2026")
  = (Raise ValueError,
     {| METRICS :=
          <["features_extracted" := VInt huge_count]>
            (<["api_endpoints" := VInt 6]> (METRICS_at_import "Nov 03, 2026"));
        stdout := [ "📊 MixLens Metrics Initialized";
                    "   Start Date: Nov 03, 2026";
                    "   API Endpoints: 6" ] |}).
Proof.
  cbn [run_calls run_call].
  erewrite io_bind_run by (apply initialize_metrics_run; vm_compute; reflexivity).
  unfold mbind at 1, io_bind.
  rewrite (update_features_count_any _ _ _ 0) by (vm_compute; reflexivity).
  replace (0 <? huge_count) with true by (vm_compute; reflexivity).
  replace (Z.abs huge_count <? int_str_limit) with false by (vm_compute; reflexivity).
  cbn [andb negb METRICS stdout]. rewrite app_nil_r.
  replace (Z.max 0 huge_count) with huge_count by (vm_compute; reflexivity).
  reflexivity.
Qed.

Lemma app_one_neq {A} (l : list A) x : l ++ [x] <> l.
Proof.
  intros H. apply (f_equal (@length A)) in H. rewrite length_app in H.
  simpl in H. lia.
Qed.

(** X8. The two counts only grow.  [update_features_count] and
    [update_visualizations_count] leave in [METRICS] the larger of the
    stored count and the given one and touch no other entry.  They
    return, unless the count grew to an int of more digits than the
    interpreter prints (4300): that count is stored all the same, and
    the call then raises [ValueError] when it builds its line.  The
    line is printed exactly when the count grew and could be shown. *)
Theorem counts_only_grow py_repr w count features visualizations :
  METRICS w !! "features_extracted" = Some (VInt features) ->
  METRICS w !! "visualizations" = Some (VInt visualizations) ->
  (exists r w',
     update_features_count py_repr count w = (r, w')
     /\ METRICS w' = <["features_extracted" := VInt (Z.max features count)]> (METRICS w)
     /\ (r = Ok tt \/ r = Raise ValueError)
     /\ (r = Raise ValueError <-> features < count /\ int_str_limit <= Z.abs count)
     /\ (stdout w' = stdout w <-> count <= features \/ int_str_limit <= Z.abs count))
  /\ (exists r w',
        update_visualizations_count py_repr count w = (r, w')
        /\ METRICS w'
           = <["visualizations" := VInt (Z.max visualizations count)]> (METRICS w)
        /\ (r = Ok tt \/ r = Raise ValueError)
        /\ (r = Raise ValueError
            <-> visualizations < count /\ int_str_limit <= Z.abs count)
        /\ (stdout w' = stdout w
            <-> count <= visualizations \/ int_str_limit <= Z.abs count)).
Proof.
  intros Hf Hv. split.
  - eexists _, _. split; [apply update_features_count_any; exact Hf|].
    split; [reflexivity|]. cbn [stdout].
    destruct (Z.ltb_spec features count);
      destruct (Z.ltb_spec (Z.abs count) int_str_limit); cbn [andb negb];
      rewrite ?app_nil_r;
      (split; [tauto|]);
      (split; [split; [discriminate || lia | discriminate || lia || reflexivity]|]);
      first [ split; [intros H'; exfalso; exact (app_one_neq _ _ H') | lia]
            | split; [lia | reflexivity] ].
  - eexists _, _. split; [apply update_visualizations_count_any; exact Hv|].
    split; [reflexivity|]. cbn [stdout].
    destruct (Z.ltb_spec visualizations count);
      destruct (Z.ltb_spec (Z.abs count) int_str_limit); cbn [andb negb];
      rewrite ?app_nil_r;
      (split; [tauto|]);
      (split; [split; [discriminate || lia | discriminate || lia || reflexivity]|]);
      first [ split; [intros H'; exfalso; exact (app_one_neq _ _ H') | lia]
            | split; [lia | reflexivity] ].
Qed.

Lemma counts_only_grow_witness :
  (exists r w',
     update_features_count no_repr 13 (world_at_import "Nov 03, 2026") = (r, w')
     /\ METRICS w'
        = <["features_extracted" := VInt (Z.max 0 13)]>
            (METRICS (world_at_import "Nov 03, 2026"))
     /\ (r = Ok tt \/ r = Raise ValueError)
     /\ (r = Raise ValueError <-> 0 < 13 /\ int_str_limit <= Z.abs 13)
     /\ (stdout w' = stdout (world_at_import "Nov 03, 2026")
         <-> 13 <= 0 \/ int_str_limit <= Z.abs 13))
  /\ (exists r w',
        update_visualizations_count no_repr 13 (world_at_import "Nov 03, 2026")
        = (r, w')
        /\ METRICS w'
           = <["visualizations" := VInt (Z.max 0 13)]>
               (METRICS (world_at_import "Nov 03, 2026"))
        /\ (r = Ok tt \/ r = Raise ValueError)
        /\ (r = Raise ValueError <-> 0 < 13 /\ int_str_limit <= Z.abs 13)
        /\ (stdout w' = stdout (world_at_import "Nov 03, 2026")
            <-> 13 <= 0 \/ int_str_limit <= Z.abs 13)).
Proof.
  apply (counts_only_grow no_repr (world_at_import "Nov 03, 2026") 13 0 0).
  - vm_compute; reflexivity.
  - vm_compute; reflexivity.
Defined.

(** A count of 4301 digits is stored, and the call raises. *)
Example huge_count_is_stored_and_raises :
  update_features_count no_repr huge_count (world_at_import "Nov 03, 2026")
  = (Raise ValueError,
     {| METRICS := <["features_extracted" := VInt huge_count]>
                     (METRICS_at_import "Nov 03, 2026");
        stdout := [] |}).
Proof.
  rewrite (update_features_count_any _ _ _ 0) by (vm_compute; reflexivity).
  replace (0 <? huge_count) with true by (vm_compute; reflexivity).
  replace (Z.abs huge_count <? int_str_limit) with false by (vm_compute; reflexivity).
  replace (Z.max 0 huge_count) with huge_count by (vm_compute; reflexivity).
  reflexivity.
Qed.

(** X9. [get_metrics_summary] reads and does not write: it returns,
    without raising and with [METRICS] and the output untouched, a
    copy of [METRICS] with two more entries, the total time rounded to
    2 decimals and the average time rounded to 2 decimals.  The
    average is 0.0 while no track was processed (the division is
    guarded) and the total divided by the number of tracks after. *)
Theorem summary_is_a_guarded_copy w n t :
  METRICS w !! "tracks_processed" = Some (VInt n) ->
  METRICS w !! "total_processing_time" = Some (VFloat t) ->
  0 <= n < 2 ^ 53 ->
  exists summary avg,
    get_metrics_summary w = (Ok summary, w)
    /\ (forall key,
          key <> "average_processing_time" ->
          key <> "total_processing_time_rounded" ->
          summary !! key = METRICS w !! key)
    /\ summary !! "total_processing_time_rounded" = Some (VFloat (py_round t 2))
    /\ summary !! "average_processing_time" = Some (VFloat (py_round avg 2))
    /\ (n = 0 -> avg = 0%float)
    /\ (0 < n -> exists f, int_to_float n = Ok f /\ avg = (t / f)%float).
Proof.
  intros Hn Ht Hrange.
  destruct (get_metrics_summary_run w n t Hn Ht Hrange) as (avg & H0 & Hpos & Hrun).
  eexists _, avg. split; [exact Hrun|].
  split.
  { intros key H1 H2. rewrite !lookup_insert_ne by congruence. reflexivity. }
  split; [apply lookup_insert_eq|].
  split; [rewrite lookup_insert_ne by discriminate; apply lookup_insert_eq|].
  split; assumption.
Qed.

Lemma summary_is_a_guarded_copy_witness :
  exists summary avg,
    get_metrics_summary (world_at_import "Nov 03, 2026")
    = (Ok summary, world_at_import "Nov 03, 2026")
    /\ (forall key,
          key <> "average_processing_time" ->
          key <> "total_processing_time_rounded" ->
          summary !! key = METRICS (world_at_import "Nov 03, 2026") !! key)
    /\ summary !! "total_processing_time_rounded" = Some (VFloat (py_round 0 2))
    /\ summary !! "average_processing_time" = Some (VFloat (py_round avg 2))
    /\ (0 = 0 -> avg = 0%float)
    /\ (0 < 0 -> exists f, int_to_float 0 = Ok f /\ avg = (0 / f)%float).
Proof.
  apply (summary_is_a_guarded_copy (world_at_import "Nov 03, 2026") 0 0%float).
  - vm_compute; reflexivity.
  - vm_compute; reflexivity.
  - lia.
Defined.

(** * Paths and file names *)

Lemma split_on_not_nil sep s : split_on sep s <> [].
Proof.
  destruct s as [|c s]; simpl; [discriminate|].
  destruct (Ascii.eqb c sep); [discriminate|].
  destruct (split_on sep s); discriminate.
Qed.

Lemma split_on_lacks sep s : lacks sep s = true -> split_on sep s = [s].
Proof.
  unfold lacks. induction s as [|c s IH]; simpl; [reflexivity|].
  rewrite negb_orb. intros [Hc Hs]%andb_prop.
  apply negb_true_iff in Hc. rewrite Hc, IH by exact Hs. reflexivity.
Qed.

Lemma last_cons_not_nil {A} (x : A) l : l <> [] -> last (x :: l) = last l.
Proof. destruct l; [contradiction | reflexivity]. Qed.

Lemma split_on_app_two sep a b :
  (2 <= length (split_on sep (a +:+ String sep b)))%nat.
Proof.
  induction a as [|c a IH]; simpl.
  - rewrite Ascii.eqb_refl. simpl.
    pose proof (split_on_not_nil sep b). destruct (split_on sep b); simpl; [contradiction|lia].
  - destruct (Ascii.eqb c sep); simpl; [lia|].
    destruct (split_on sep (a +:+ String sep b)); simpl in *; lia.
Qed.

(** The last piece is what follows the last separator. *)
Lemma last_split_on sep a b :
  lacks sep b = true -> last (split_on sep (a +:+ String sep b)) = Some b.
Proof.
  intros Hb. induction a as [|c a IH]; simpl.
  - rewrite Ascii.eqb_refl, split_on_lacks by exact Hb. reflexivity.
  - pose proof (split_on_app_two sep a b) as Htwo.
    destruct (Ascii.eqb c sep).
    + rewrite last_cons_not_nil by apply split_on_not_nil. exact IH.
    + destruct (split_on sep (a +:+ String sep b)) as [|p [|p' ps]];
        simpl in Htwo; try lia.
      exact IH.
Qed.

(** The first piece is what precedes the first separator. *)
Lemma head_split_on sep a b :
  lacks sep a = true -> head (split_on sep (a +:+ String sep b)) = Some a.
Proof.
  unfold lacks. induction a as [|c a IH]; simpl.
  - intros _. rewrite Ascii.eqb_refl. reflexivity.
  - rewrite negb_orb. intros [Hc Ha]%andb_prop.
    apply negb_true_iff in Hc. rewrite Hc.
    specialize (IH Ha).
    destruct (split_on sep (a +:+ String sep b)); simpl in *; congruence.
Qed.

Lemma has_char_app c a b : has_char c (a +:+ b) = has_char c a || has_char c b.
Proof.
  induction a as [|x a IH]; simpl; [reflexivity|].
  rewrite IH, orb_assoc. reflexivity.
Qed.

Lemma file_id_of_name name :
  lacks "/" name = true -> file_id_of name = first_item (split_on "." name).
Proof.
  intros H. unfold file_id_of. rewrite split_on_lacks by exact H. reflexivity.
Qed.

(** A path never makes the expression raise: both splits return at
    least one piece. *)
Lemma file_id_of_returns filepath : exists id, file_id_of filepath = Ok id.
Proof.
  unfold file_id_of, last_item.
  destruct (last (split_on "/" filepath)) as [name|] eqn:Hlast.
  - cbn [mbind result_bind]. unfold first_item.
    destruct (split_on "." name) as [|p ps] eqn:Hs.
    + exfalso. exact (split_on_not_nil _ _ Hs).
    + exists p. reflexivity.
  - exfalso. apply last_None in Hlast. exact (split_on_not_nil _ _ Hlast).
Qed.

(** X10. The file id [analyze] reports is the id the upload was stored
    under: for an id without [/] or [.] and an extension without [/],
    the id read back from the path [folder/id.ext] (whatever the
    folder, which may itself hold dots and slashes) is [id].  A path
    never makes the expression raise: both splits return at least one
    piece. *)
Theorem file_id_is_read_back folder file_id ext :
  lacks "/" file_id = true ->
  lacks "." file_id = true ->
  lacks "/" ext = true ->
  file_id_of (upload_path folder file_id ext) = Ok file_id
  /\ forall filepath, exists id, file_id_of filepath = Ok id.
Proof.
  intros Hslash Hdot Hext. split.
  - unfold file_id_of, upload_path, last_item.
    change (folder +:+ "/" +:+ file_id +:+ "." +:+ ext)
      with (folder +:+ String "/" (file_id +:+ String "." ext)).
    rewrite last_split_on.
    + cbn [mbind result_bind]. unfold first_item.
      rewrite head_split_on by exact Hdot. reflexivity.
    + unfold lacks in *. rewrite has_char_app. simpl.
      apply negb_true_iff in Hslash, Hext. rewrite Hslash, Hext. reflexivity.
  - exact file_id_of_returns.
Qed.

Lemma file_id_is_read_back_witness :
  file_id_of (upload_path "./data.v2/uploads" "3f2a9c1e-77b0" "wav")
  = Ok "3f2a9c1e-77b0"
  /\ forall filepath, exists id, file_id_of filepath = Ok id.
Proof.
  apply (file_id_is_read_back "./data.v2/uploads" "3f2a9c1e-77b0" "wav");
    vm_compute; reflexivity.
Defined.

(** A name with a dot of its own is cut at that dot. *)
Example file_id_of_dotted_name : file_id_of "uploads/mix.final.wav" = Ok "mix".
Proof. vm_compute. reflexivity. Qed.

(** ** The upload filter *)

Lemma cut_at_last_lacks sep s : lacks sep s = true -> cut_at_last sep s = None.
Proof.
  unfold lacks. induction s as [|c s IH]; simpl; [reflexivity|].
  rewrite negb_orb. intros [Hc Hs]%andb_prop.
  apply negb_true_iff in Hc. rewrite IH, Hc by exact Hs. reflexivity.
Qed.

Lemma cut_at_last_app sep stem ext :
  lacks sep ext = true ->
  cut_at_last sep (stem +:+ String sep ext) = Some (stem, ext).
Proof.
  intros Hext. induction stem as [|c stem IH]; simpl.
  - rewrite cut_at_last_lacks by exact Hext. rewrite Ascii.eqb_refl. reflexivity.
  - rewrite IH. reflexivity.
Qed.

Lemma cut_at_last_has sep s :
  has_char sep s = true -> exists before after, cut_at_last sep s = Some (before, after).
Proof.
  induction s as [|c s IH]; simpl; [discriminate|].
  intros H. destruct (cut_at_last sep s) as [[b a]|] eqn:Hcut.
  - eexists _, _. reflexivity.
  - destruct (Ascii.eqb c sep); [eexists _, _; reflexivity|].
    simpl in H. destruct (IH H) as (b & a & Hba). discriminate.
Qed.

(** X11. [allowed_file] never raises: the index [1] into the pieces of
    [rsplit] is only taken when the name holds a dot, and then there
    are two pieces.  A name it accepts holds a dot. *)
Theorem allowed_file_never_raises filename :
  exists b,
    allowed_file filename = Ok b
    /\ implb b (has_char "." filename) = true.
Proof.
  unfold allowed_file.
  destruct (has_char "." filename) eqn:Hdot.
  - destruct (cut_at_last_has _ _ Hdot) as (before & after & Hcut).
    unfold rsplit_once, item. rewrite Hcut. cbn.
    eexists. split; [reflexivity|]. apply implb_true_r.
  - exists false. split; reflexivity.
Qed.

Lemma lower_char_idempotent c : lower_char (lower_char c) = lower_char c.
Proof.
  destruct c as [[] [] [] [] [] [] [] []]; vm_compute; reflexivity.
Qed.

Lemma lower_idempotent s : lower (lower s) = lower s.
Proof.
  induction s as [|c s IH]; simpl; [reflexivity|].
  rewrite lower_char_idempotent, IH. reflexivity.
Qed.

Lemma lower_lacks_dot s : lacks "." (lower s) = lacks "." s.
Proof.
  unfold lacks. f_equal. induction s as [|c s IH]; simpl; [reflexivity|].
  rewrite IH. f_equal.
  destruct c as [[] [] [] [] [] [] [] []]; vm_compute; reflexivity.
Qed.

(** X12. Only the text after the last dot counts, and its case does
    not: for an extension without a dot, [allowed_file] on
    [stem.ext] is the membership of the lowered extension in the five
    allowed ones, whatever the stem (dots included), and the answer is
    the same for the lowered extension.  A name without a dot is
    refused. *)
Theorem allowed_file_by_last_extension stem ext :
  lacks "." ext = true ->
  allowed_file (stem +:+ "." +:+ ext) = Ok (is_allowed (lower ext))
  /\ allowed_file (stem +:+ "." +:+ lower ext) = allowed_file (stem +:+ "." +:+ ext)
  /\ allowed_file ext = Ok false.
Proof.
  intros Hext.
  assert (Hrun : forall e, lacks "." e = true ->
            allowed_file (stem +:+ "." +:+ e) = Ok (is_allowed (lower e))).
  { intros e He. unfold allowed_file.
    change (stem +:+ "." +:+ e) with (stem +:+ String "." e).
    rewrite has_char_app. simpl. rewrite orb_true_r.
    unfold rsplit_once, item. rewrite cut_at_last_app by exact He.
    reflexivity. }
  split; [apply Hrun; exact Hext|].
  split.
  - rewrite !Hrun by (rewrite ?lower_lacks_dot; exact Hext).
    rewrite lower_idempotent. reflexivity.
  - unfold allowed_file. unfold lacks in Hext.
    apply negb_true_iff in Hext. rewrite Hext. reflexivity.
Qed.

Lemma allowed_file_by_last_extension_witness :
  allowed_file ("take.2.final" +:+ "." +:+ "FLAC") = Ok (is_allowed (lower "FLAC"))
  /\ allowed_file ("take.2.final" +:+ "." +:+ lower "FLAC")
     = allowed_file ("take.2.final" +:+ "." +:+ "FLAC")
  /\ allowed_file "FLAC" = Ok false.
Proof.
  apply (allowed_file_by_last_extension "take.2.final" "FLAC").
  vm_compute; reflexivity.
Defined.

Example allowed_file_samples :
  allowed_file <$> ["song.wav"; "song.WAV"; "song"; "a.wav.exe"; "a.exe.Mp3"; ".flac"; "x.m4a."]
  = Ok <$> [true; true; false; false; true; true; false].
Proof. vm_compute. reflexivity. Qed.

(** * The pipeline *)

(** ** What [extract] hands to the engine *)

Lemma extract_descriptors lib self filepath r :
  extract lib self filepath = Ok r ->
  exists d key,
    r !! "extracted_features" = Some (VDict d)
    /\ schema_typed d = true
    /\ size d = 13%nat
    /\ d !! "estimated_key" = Some (VStr key).
Proof.
  intros Hok.
  pose proof (extract_run lib self filepath) as Hrun. rewrite Hok in Hrun.
  destruct Hrun as (tempo & key & rms_db & lufs & centroid & rolloff & zcr
                    & bandwidth & range & contrast & mfcc & harmonic
                    & percussive & Hr).
  eexists _, key. split; [exact Hr|].
  generalize (py_round tempo 2) (py_round rms_db 2) (py_round lufs 2)
    (py_round centroid 2) (py_round rolloff 2) (py_round zcr 4)
    (py_round bandwidth 2) (py_round range 2) (py_round contrast 2)
    (py_round mfcc 2) (py_round harmonic 3) (py_round percussive 3).
  intros f1 f2 f3 f4 f5 f6 f7 f8 f9 f10 f11 f12.
  split; [vm_compute; reflexivity|].
  split; [vm_compute; reflexivity|].
  vm_compute. reflexivity.
Qed.

Lemma extract_key_is_a_pitch lib self filepath r d key :
  extract lib self filepath = Ok r ->
  r !! "extracted_features" = Some (VDict d) ->
  d !! "estimated_key" = Some (VStr key) ->
  In key keys.
Proof.
  unfold extract, mbind, result_bind. intros H Hd Hkey.
  repeat match type of H with
  | context [match ?m with Ok _ => _ | Raise _ => _ end] =>
      destruct m as [?|?] eqn:?; [|discriminate H]
  | context [let '(_, _) := ?p in _] => destruct p
  end.
  injection H as <-.
  cbn [list_to_map foldr uncurry fst snd] in Hd.
  rewrite lookup_insert_ne in Hd by discriminate.
  rewrite lookup_insert_ne in Hd by discriminate.
  rewrite lookup_insert_eq in Hd. injection Hd as <-.
  cbn [list_to_map foldr uncurry fst snd] in Hkey.
  rewrite lookup_insert_ne in Hkey by discriminate.
  rewrite lookup_insert_eq in Hkey. injection Hkey as <-.
  match goal with
  | Hk : key_name ?i = Ok ?k |- In ?k keys =>
      unfold key_name in Hk; destruct (keys !! i) eqn:Hi; [|discriminate Hk];
      injection Hk as <-; apply list_elem_of_In; eapply list_elem_of_lookup_2; exact Hi
  end.
Qed.

Lemma size_non_empty (d : gmap string pyval) n : size d = S n -> d <> ∅.
Proof. intros H ->. rewrite map_size_empty in H. discriminate. Qed.

(** ** A run of [analyze] *)

Lemma analyze_run lib py_repr filepath w old :
  METRICS w !! "features_extracted" = Some (VInt old) ->
  match extract lib new_extractor filepath with
  | Raise e => analyze lib py_repr new_processor filepath w = (Raise e, w)
  | Ok features =>
      exists d key file_id,
        features !! "extracted_features" = Some (VDict d)
        /\ d !! "estimated_key" = Some (VStr key)
        /\ In key keys
        /\ generate py_repr init features
           = Ok (banner (favorable_checks d) :: entries py_repr d)
        /\ file_id_of filepath = Ok file_id
        /\ analyze lib py_repr new_processor filepath w
           = (Ok (list_to_map
                    [ ("file_id", VStr file_id);
                      ("features", VDict features);
                      ("suggestions",
                       VList (VStr <$> banner (favorable_checks d) :: entries py_repr d));
                      ("status", VStr "completed") ]),
              {| METRICS := <["features_extracted" := VInt (Z.max old 13)]> (METRICS w);
                 stdout := stdout w ++
                   (if old <? 13
                    then ["📈 Features Updated: " +:+ pretty 13 +:+ " analysis dimensions"]
                    else []) |})
  end.
Proof.
  intros Hold. unfold analyze. cbn [feature_extractor suggestion_engine new_processor].
  destruct (extract lib new_extractor filepath) as [features|e] eqn:Hex;
    [|reflexivity].
  destruct (extract_descriptors _ _ _ _ Hex) as (d & key & Hd & Hty & Hsize & Hkey).
  pose proof (extract_key_is_a_pitch _ _ _ _ _ _ Hex Hd Hkey) as Hin.
  pose proof (size_non_empty d _ Hsize) as Hne.
  pose proof (generate_run py_repr features d Hd Hne Hty) as Hgen.
  destruct (file_id_of_returns filepath) as (file_id & Hid).
  exists d, key, file_id.
  repeat (split; [assumption|]).
  rewrite io_bind_lift. rewrite Hd.
  change (default (VDict ∅) (Some (VDict d))) with (VDict d).
  cbn [py_len]. rewrite Hsize. rewrite io_bind_lift.
  change (0 <? Z.of_nat 13) with true. cbn iota.
  erewrite io_bind_run
    by (apply update_features_count_run; [exact Hold | intros _; vm_compute; reflexivity]).
  rewrite Hgen, io_bind_lift, Hid, io_bind_lift.
  reflexivity.
Qed.

(** X13. [analyze] is [extract] followed by [generate], and only
    [extract] can make it fail: when [extract] raises, [analyze]
    raises the same exception and leaves the metrics and the output as
    they were; when [extract] returns, so does [analyze] (the engine
    never raises on what the extractor built), with the features, the
    banner and the seven entries the engine gives for them, and the
    status [completed]. *)
Theorem analyze_fails_only_in_extract lib py_repr filepath w old :
  METRICS w !! "features_extracted" = Some (VInt old) ->
  match extract lib new_extractor filepath with
  | Raise e => analyze lib py_repr new_processor filepath w = (Raise e, w)
  | Ok features =>
      exists suggestions file_id document w',
        analyze lib py_repr new_processor filepath w = (Ok document, w')
        /\ generate py_repr init features = Ok suggestions
        /\ length suggestions = 8%nat
        /\ file_id_of filepath = Ok file_id
        /\ document !! "file_id" = Some (VStr file_id)
        /\ document !! "features" = Some (VDict features)
        /\ document !! "suggestions" = Some (VList (VStr <$> suggestions))
        /\ document !! "status" = Some (VStr "completed")
  end.
Proof.
  intros Hold.
  pose proof (analyze_run lib py_repr filepath w old Hold) as Hrun.
  destruct (extract lib new_extractor filepath) as [features|e]; [|exact Hrun].
  destruct Hrun as (d & key & file_id & Hd & Hkey & Hin & Hgen & Hid & Hrun).
  eexists _, file_id, _, _. split; [exact Hrun|]. split; [exact Hgen|].
  split; [reflexivity|].
  split; [exact Hid|].
  cbn [list_to_map foldr uncurry fst snd].
  split; [apply lookup_insert_eq|].
  split; [rewrite lookup_insert_ne by discriminate; apply lookup_insert_eq|].
  split; [do 2 rewrite lookup_insert_ne by discriminate; apply lookup_insert_eq|].
  do 3 rewrite lookup_insert_ne by discriminate. apply lookup_insert_eq.
Qed.

Lemma analyze_fails_only_in_extract_witness :
  match extract tone_backend new_extractor "uploads/3f2a9c1e-77b0.wav" with
  | Raise e =>
      analyze tone_backend no_repr new_processor "uploads/3f2a9c1e-77b0.wav"
        (world_at_import "Nov 03, 2026")
      = (Raise e, world_at_import "Nov 03, 2026")
  | Ok features =>
      exists suggestions file_id document w',
        analyze tone_backend no_repr new_processor "uploads/3f2a9c1e-77b0.wav"
          (world_at_import "Nov 03, 2026")
        = (Ok document, w')
        /\ generate no_repr init features = Ok suggestions
        /\ length suggestions = 8%nat
        /\ file_id_of "uploads/3f2a9c1e-77b0.wav" = Ok file_id
        /\ document !! "file_id" = Some (VStr file_id)
        /\ document !! "features" = Some (VDict features)
        /\ document !! "suggestions" = Some (VList (VStr <$> suggestions))
        /\ document !! "status" = Some (VStr "completed")
  end.
Proof.
  apply (analyze_fails_only_in_extract tone_backend no_repr
           "uploads/3f2a9c1e-77b0.wav" (world_at_import "Nov 03, 2026") 0).
  vm_compute; reflexivity.
Defined.

Example analyze_of_a_missing_file :
  analyze missing_file_backend no_repr new_processor "uploads/none.wav"
    (world_at_import "Nov 03, 2026")
  = (Raise (Exn "FileNotFoundError" None), world_at_import "Nov 03, 2026").
Proof. vm_compute. reflexivity. Qed.

(** X14. A successful [analyze] records the thirteen fields in the
    metrics: [features_extracted] becomes the larger of its old value
    and 13, no other entry of [METRICS] changes, and the update line is
    printed exactly when the old value was below 13; so from the
    second analysis on nothing is printed and nothing changes. *)
Theorem analyze_records_thirteen_features lib py_repr filepath w old features :
  METRICS w !! "features_extracted" = Some (VInt old) ->
  extract lib new_extractor filepath = Ok features ->
  exists document w',
    analyze lib py_repr new_processor filepath w = (Ok document, w')
    /\ METRICS w' = <["features_extracted" := VInt (Z.max old 13)]> (METRICS w)
    /\ (stdout w' = stdout w <-> 13 <= old)
    /\ exists document' w'',
         analyze lib py_repr new_processor filepath w' = (Ok document', w'')
         /\ w'' = w' /\ document' = document.
Proof.
  intros Hold Hex.
  pose proof (analyze_run lib py_repr filepath w old Hold) as Hrun.
  rewrite Hex in Hrun.
  destruct Hrun as (d & key & file_id & Hd & Hkey & Hin & Hgen & Hid & Hrun).
  eexists _, _. split; [exact Hrun|].
  split; [reflexivity|].
  split.
  { cbn [stdout]. destruct (Z.ltb_spec old 13).
    - split; [intros H'; exfalso; exact (app_one_neq _ _ H') | lia].
    - rewrite app_nil_r. split; [lia | reflexivity]. }
  match goal with
  | |- context [analyze _ _ _ _ ?w1] =>
      pose proof (analyze_run lib py_repr filepath w1 (Z.max old 13)
                    ltac:(apply lookup_insert_eq)) as Hrun2
  end.
  rewrite Hex in Hrun2.
  destruct Hrun2 as (d2 & key2 & file_id2 & Hd2 & _ & _ & _ & Hid2 & Hrun2).
  assert (d2 = d) as -> by congruence.
  assert (file_id2 = file_id) as -> by congruence.
  eexists _, _. split; [exact Hrun2|].
  split; [|reflexivity].
  cbn [METRICS stdout].
  assert (Hmax : (Z.max old 13 <? 13) = false) by (apply Z.ltb_ge; lia).
  rewrite Hmax, app_nil_r, insert_insert_eq.
  replace (Z.max (Z.max old 13) 13) with (Z.max old 13) by lia.
  reflexivity.
Qed.

Lemma analyze_records_thirteen_features_witness :
  exists features document w',
    extract tone_backend new_extractor "uploads/3f2a9c1e-77b0.wav" = Ok features
    /\ analyze tone_backend no_repr new_processor "uploads/3f2a9c1e-77b0.wav"
         (world_at_import "Nov 03, 2026")
       = (Ok document, w')
    /\ METRICS w'
       = <["features_extracted" := VInt (Z.max 0 13)]>
           (METRICS (world_at_import "Nov 03, 2026"))
    /\ (stdout w' = stdout (world_at_import "Nov 03, 2026") <-> 13 <= 0)
    /\ exists document' w'',
         analyze tone_backend no_repr new_processor "uploads/3f2a9c1e-77b0.wav" w'
         = (Ok document', w'')
         /\ w'' = w' /\ document' = document.
Proof.
  destruct (extract tone_backend new_extractor "uploads/3f2a9c1e-77b0.wav")
    as [features|e] eqn:Hex; [|vm_compute in Hex; discriminate].
  destruct (analyze_records_thirteen_features tone_backend no_repr
              "uploads/3f2a9c1e-77b0.wav" (world_at_import "Nov 03, 2026") 0 features
              ltac:(vm_compute; reflexivity) Hex)
    as (document & w' & Hrun & Hm & Hout & Hagain).
  exists features, document, w'. repeat split; try assumption; apply Hout.
Defined.

(** X15. The key a successful analysis reports is one of the twelve
    pitch-class names, and the last suggestion names that same key:
    the engine's default "Unknown" never shows for an extracted
    file. *)
Theorem analysis_names_the_extracted_key lib py_repr filepath features suggestions :
  extract lib new_extractor filepath = Ok features ->
  generate py_repr init features = Ok suggestions ->
  exists d key,
    features !! "extracted_features" = Some (VDict d)
    /\ d !! "estimated_key" = Some (VStr key)
    /\ In key keys
    /\ last suggestions
       = Some ("🎹 **Key Detection**: Estimated key is " +:+ key +:+ ". " +:+
               "Use this as a reference for harmonic mixing or adding complementary elements.").
Proof.
  intros Hex Hgen.
  destruct (extract_descriptors _ _ _ _ Hex) as (d & key & Hd & Hty & Hsize & Hkey).
  pose proof (extract_key_is_a_pitch _ _ _ _ _ _ Hex Hd Hkey) as Hin.
  pose proof (size_non_empty d _ Hsize) as Hne.
  rewrite (generate_run py_repr features d Hd Hne Hty) in Hgen.
  injection Hgen as <-.
  exists d, key. repeat (split; [assumption|]).
  unfold entries. cbn [last].
  unfold key_entry, check_key. rewrite py_get_dict, Hkey. reflexivity.
Qed.

Lemma analysis_names_the_extracted_key_witness :
  exists features suggestions d key,
    extract tone_backend new_extractor "tone.wav" = Ok features
    /\ generate no_repr init features = Ok suggestions
    /\ features !! "extracted_features" = Some (VDict d)
    /\ d !! "estimated_key" = Some (VStr key)
    /\ In key keys
    /\ last suggestions
       = Some ("🎹 **Key Detection**: Estimated key is " +:+ key +:+ ". " +:+
               "Use this as a reference for harmonic mixing or adding complementary elements.").
Proof.
  destruct (extract tone_backend new_extractor "tone.wav") as [features|e] eqn:Hex;
    [|vm_compute in Hex; discriminate].
  destruct (generate no_repr init features) as [suggestions|e] eqn:Hgen.
  - destruct (analysis_names_the_extracted_key tone_backend no_repr "tone.wav"
                features suggestions Hex Hgen) as (d & key & H1 & H2 & H3 & H4).
    exists features, suggestions, d, key. repeat split; assumption.
  - exfalso.
    destruct (extract_descriptors _ _ _ _ Hex) as (d & key & Hd & Hty & Hsize & Hkey).
    rewrite (generate_run no_repr features d Hd (size_non_empty d _ Hsize) Hty) in Hgen.
    discriminate.
Defined.
